(** * File converter: the conversion registry, its dispatcher and the converters

    A shallow embedding of [converters.py] (classes [ImageConverter],
    [DataConverter], [DocumentConverter], [AudioConverter], [FileConverter])
    and of the [/convert] endpoint of [main.py].

    Python strings are modelled as [string] (byte strings); [str.lower] and
    [str.upper] are given on the ASCII letters, every other byte is kept.
    Exceptions are values of [exn]; a Python call that may raise and that
    performs observable work (opening a file, calling an encoder) is a
    computation in the monad [M], which returns the list of events performed
    together with the outcome. *)

From Stdlib Require Import String Ascii List ZArith Bool Lia.
From Stdlib Require Import QArith Qround Qpower Qabs Qminmax Lqa DecimalString.
From Stdlib Require Import Floats.SpecFloat.
Import ListNotations.
Set Warnings "-register-all".
Open Scope string_scope.
Open Scope Z_scope.

(* ================================================================== *)
(** ** Python strings *)

Module Py.

Definition is_upper (c : ascii) : bool :=
  let n := nat_of_ascii c in (Nat.leb 65 n && Nat.leb n 90)%bool.

Definition is_lower (c : ascii) : bool :=
  let n := nat_of_ascii c in (Nat.leb 97 n && Nat.leb n 122)%bool.

Definition lower_char (c : ascii) : ascii :=
  if is_upper c then ascii_of_nat (nat_of_ascii c + 32) else c.

Definition upper_char (c : ascii) : ascii :=
  if is_lower c then ascii_of_nat (nat_of_ascii c - 32) else c.

(** [s.lower()] and [s.upper()] *)
Fixpoint lower (s : string) : string :=
  match s with
  | EmptyString => EmptyString
  | String c r => String (lower_char c) (lower r)
  end.

Fixpoint upper (s : string) : string :=
  match s with
  | EmptyString => EmptyString
  | String c r => String (upper_char c) (upper r)
  end.

(** [s.replace(a, b)] for single characters [a], [b] *)
Fixpoint replace_char (a b : ascii) (s : string) : string :=
  match s with
  | EmptyString => EmptyString
  | String c r =>
      String (if Ascii.eqb c a then b else c) (replace_char a b r)
  end.

(** [s.rfind('.')]: index of the last dot, [None] for Python's [-1] *)
Fixpoint rfind_dot (s : string) : option nat :=
  match s with
  | EmptyString => None
  | String c r =>
      match rfind_dot r with
      | Some i => Some (S i)
      | None => if Ascii.eqb c "."%char then Some O else None
      end
  end.

(** [s[i:]] *)
Fixpoint drop (i : nat) (s : string) : string :=
  match i, s with
  | O, _ => s
  | S j, EmptyString => EmptyString
  | S j, String _ r => drop j r
  end.

(** Values that travel in keyword arguments. *)
Inductive val :=
| VNone
| VInt (z : Z)
| VBool (b : bool)
| VStr (s : string).

Definition val_eqb (a b : val) : bool :=
  match a, b with
  | VNone, VNone => true
  | VInt x, VInt y => Z.eqb x y
  | VBool x, VBool y => Bool.eqb x y
  | VStr x, VStr y => String.eqb x y
  | _, _ => false
  end.

(** Truthiness as used by [if width or height] and [width or original_width]:
    [None], [0], [False] and the empty string are false. *)
Definition truthy (v : val) : bool :=
  match v with
  | VNone => false
  | VInt z => negb (Z.eqb z 0)
  | VBool b => b
  | VStr s => negb (String.eqb s "")
  end.

End Py.

(* ================================================================== *)
(** ** Paths: [pathlib.Path] as far as [suffix] needs it *)

Record Path := mkPath {
  parent : string;     (* the directory part *)
  name : string        (* the final component *)
}.

(** [Path.suffix]:
    [i = name.rfind('.'); name[i:] if 0 < i < len(name) - 1 else ''] *)
Definition suffix (p : Path) : string :=
  match Py.rfind_dot (name p) with
  | Some i =>
      if (Nat.ltb 0 i && Nat.ltb i (String.length (name p) - 1))%bool
      then Py.drop i (name p) else ""
  | None => ""
  end.

(* ================================================================== *)
(** ** Exceptions, events and the computation monad *)

Inductive exn :=
| ConversionError (msg : string)     (* class ConversionError(Exception) *)
| TypeError (msg : string)           (* a call with an unexpected keyword *)
| ImportError (msg : string)         (* a module that is not installed *)
| ZeroDivisionError (msg : string)
| OverflowError (msg : string)
| ValueError (msg : string)
| LibraryError (msg : string).       (* any other exception of a library *)

(** [str(e)] *)
Definition str_exn (e : exn) : string :=
  match e with
  | ConversionError m | TypeError m | ImportError m | ZeroDivisionError m
  | OverflowError m | ValueError m | LibraryError m => m
  end.

Definition Kwargs := list (string * Py.val).

(** What a conversion does that an observer can see. *)
Inductive event :=
| EvCall (callee : string) (p : Path) (args : Kwargs)
    (* a converter function entered with its bound arguments *)
| EvImport (module : string)
    (* an [import] executed inside a function body *)
| EvRead (p : Path)
    (* the file at [p] opened or decoded *)
| EvResize (w h : Z)
    (* [img.resize((w, h), LANCZOS)] *)
| EvSave (fmt : string) (save_kwargs : Kwargs)
    (* [img.save(buffer, format=fmt, **save_kwargs)] or an audio export *)
| EvRender
    (* [HTML(string=...).write_pdf()] *)
| EvWrite (p : Path)
    (* a file created at [p] *)
| EvUnlink (p : Path)
    (* [p.unlink()] *).

Inductive outcome (A : Type) :=
| Returns (a : A)
| Raises (e : exn).
Arguments Returns {A} a.
Arguments Raises {A} e.

Definition M (A : Type) : Type := list event * outcome A.

Definition ret {A} (a : A) : M A := ([], Returns a).
Definition raise {A} (e : exn) : M A := ([], Raises e).
Definition emit (ev : event) : M unit := ([ev], Returns tt).

Definition bind {A B} (m : M A) (k : A -> M B) : M B :=
  match m with
  | (t, Returns a) => let '(t', r) := k a in ((t ++ t')%list, r)
  | (t, Raises e) => (t, Raises e)
  end.

(** [try: m  except Exception as e: h e] *)
Definition try_except {A} (m : M A) (h : exn -> M A) : M A :=
  match m with
  | (t, Returns a) => (t, Returns a)
  | (t, Raises e) => let '(t', r) := h e in ((t ++ t')%list, r)
  end.

(** An outcome of a library call lifted into [M]. *)
Definition lift {A} (o : outcome A) : M A := ([], o).

Definition trace {A} (m : M A) : list event := fst m.
Definition result {A} (m : M A) : outcome A := snd m.

Declare Scope m_scope.
Delimit Scope m_scope with m.
Notation "x <- c ;; k" := (bind c (fun x => k))
  (at level 100, c at next level, right associativity) : m_scope.
Notation "c ;;; k" := (bind c (fun _ => k))
  (at level 100, right associativity) : m_scope.

Definition bytes := string.

Definition obind {A B} (o : outcome A) (k : A -> outcome B) : outcome B :=
  match o with
  | Returns a => k a
  | Raises e => Raises e
  end.

Notation "x <-- c ;; k" := (obind c (fun x => k))
  (at level 100, c at next level, right associativity) : m_scope.


(* ================================================================== *)
(** ** Python floats

    A Python [float] is an IEEE-754 binary64 number.  The finite ones are
    kept by their exact rational value; [rnd] is rounding to the nearest
    representable number, ties to even, with 53 significant bits, gradual
    underflow below [2^-1022] and overflow to infinity from [2^1024].  The
    sign of zero is not kept: no operation used here observes it. *)

Module Float.

Inductive float :=
| Fin (q : Q)
| Inf (negative : bool)
| NaN.

Definition pow2 (e : Z) : Q := Qpower (2 # 1) e.

(** [floor (log2 x)] for [0 < x] *)
Definition ilog2 (x : Q) : Z :=
  let k := Z.log2 (Qnum x) - Z.log2 (Zpos (Qden x)) in
  if Qle_bool (pow2 k) x then k else k - 1.

(** nearest integer of [0 <= x], ties to even *)
Definition round_half_even (x : Q) : Z :=
  let f := Qfloor x in
  match Qcompare (x - inject_Z f) (1 # 2) with
  | Lt => f
  | Gt => f + 1
  | Eq => if Z.even f then f else f + 1
  end.

(** exponent of the last place of the binary64 numbers around [0 < x] *)
Definition ulp_exp (x : Q) : Z := Z.max (ilog2 x - 52) (-1074).

Definition rnd_pos (x : Q) : Q :=
  let e := ulp_exp x in
  (inject_Z (round_half_even (x / pow2 e)) * pow2 e)%Q.

Definition rnd (x : Q) : float :=
  match Qcompare x 0 with
  | Eq => Fin 0
  | Gt => let r := rnd_pos x in
          if Qle_bool (pow2 1024) r then Inf false else Fin r
  | Lt => let r := rnd_pos (- x) in
          if Qle_bool (pow2 1024) r then Inf true else Fin (- r)
  end.

(** the exact quotient [a / b] of two integers, [b <> 0] *)
Definition quotient (a b : Z) : Q :=
  (inject_Z a / inject_Z b)%Q.

(** [a / b] on Python ints: the correctly rounded quotient *)
Definition truediv (a b : Z) : outcome float :=
  if Z.eqb b 0 then Raises (ZeroDivisionError "division by zero")
  else match rnd (quotient a b) with
       | Fin q => Returns (Fin q)
       | _ =>
           Raises (OverflowError "integer division result too large for a float")
       end.

(** [float(n)] *)
Definition of_int (n : Z) : outcome float :=
  match rnd (inject_Z n) with
  | Fin q => Returns (Fin q)
  | _ => Raises (OverflowError "int too large to convert to float")
  end.

(** [x * y] on floats *)
Definition mul (x y : float) : float :=
  match x, y with
  | Fin a, Fin b => rnd (a * b)
  | Inf s, Fin b | Fin b, Inf s =>
      match Qcompare b 0 with
      | Eq => NaN
      | Lt => Inf (negb s)
      | Gt => Inf s
      end
  | Inf s, Inf t => Inf (xorb s t)
  | NaN, _ | _, NaN => NaN
  end.

(** [n * r] for an int [n] and a float [r] *)
Definition int_mul (n : Z) (r : float) : outcome float :=
  match of_int n with
  | Returns x => Returns (mul x r)
  | Raises e => Raises e
  end.

(** [a < b]; a comparison with a NaN is false *)
Definition ltb (a b : float) : bool :=
  match a, b with
  | Fin x, Fin y => negb (Qle_bool y x)
  | Fin _, Inf s => negb s
  | Inf s, Fin _ => s
  | Inf s, Inf t => (s && negb t)%bool
  | NaN, _ | _, NaN => false
  end.

(** [min(a, b)]: [b] when [b < a], else [a] *)
Definition min (a b : float) : float := if ltb b a then b else a.

(** [int(x)]: truncation toward zero *)
Definition truncate (q : Q) : Z :=
  if Qle_bool 0 q then Qfloor q else (- Qfloor (- q))%Z.

Definition to_int (x : float) : outcome Z :=
  match x with
  | Fin q => Returns (truncate q)
  | Inf _ => Raises (OverflowError "cannot convert float infinity to integer")
  | NaN => Raises (ValueError "cannot convert float NaN to integer")
  end.

(** the unit roundoff [2^-53] *)
Definition u : Q := 1 # 9007199254740992.

(** The same operations in the binary64 instance of the specification of
    floating-point arithmetic of the standard library, to compare with. *)
Definition SF_of_int (n : Z) : spec_float := binary_normalize 53 1024 n 0 false.

Definition SF_value (x : spec_float) : option Q :=
  match x with
  | S754_zero _ => Some 0%Q
  | S754_finite s m e =>
      Some ((if s then - inject_Z (Zpos m) else inject_Z (Zpos m)) * pow2 e)%Q
  | _ => None
  end.

Definition agrees (x : outcome float) (y : spec_float) : bool :=
  match x, SF_value y with
  | Returns (Fin q), Some q' => Qeq_bool q q'
  | _, _ => false
  end.

(** [n * (a / b)] there *)
Definition SF_scaled (n a b : Z) : spec_float :=
  SFmul 53 1024 (SF_of_int n) (SFdiv 53 1024 (SF_of_int a) (SF_of_int b)).

End Float.

(* ================================================================== *)
(** ** The resize rule as the specification words it *)

Module ResizeSpec.

(** the nearest integer of a rational, halves upward *)
Definition nearest (x : Q) : Z := Qfloor (x + (1 # 2)).

(** [scale = min(width/origW, height/origH)] and
    [(origW*scale, origH*scale)] rounded to nearest *)
Definition aspect_dims (ow oh w h : Z) : Z * Z :=
  let scale := Qmin (inject_Z w / inject_Z ow) (inject_Z h / inject_Z oh) in
  (nearest (inject_Z ow * scale), nearest (inject_Z oh * scale)).

(** [k] is the integer part of [N / D], or one less when [D] divides [N] *)
Definition nearly (k N D : Z) : Prop :=
  k = N / D \/ (N mod D = 0 /\ k = N / D - 1).

End ResizeSpec.

(* ================================================================== *)
(** ** Images (Pillow)

    An image has a size and pixel data in one of Pillow's modes.  The modes
    the source names ([RGBA], [LA], [P]) and the one it builds ([RGB]) carry
    their pixels; every other mode is kept by name only. *)

Definition rgb := (Z * Z * Z)%type.
Definition rgba := (Z * Z * Z * Z)%type.

Inductive other_mode :=
| Mode1 | ModeL | ModePA | ModeCMYK | ModeYCbCr | ModeI | ModeF.

Inductive pixels :=
| DataRGB (px : list rgb)
| DataRGBA (px : list rgba)
| DataLA (px : list (Z * Z))
| DataP (palette : list rgba) (px : list Z)
| DataOther (m : other_mode).

Record Image := mkImage {
  size : Z * Z;
  data : pixels
}.

Definition other_mode_name (m : other_mode) : string :=
  match m with
  | Mode1 => "1" | ModeL => "L" | ModePA => "PA" | ModeCMYK => "CMYK"
  | ModeYCbCr => "YCbCr" | ModeI => "I" | ModeF => "F"
  end.

(** [img.mode] *)
Definition mode (img : Image) : string :=
  match data img with
  | DataRGB _ => "RGB"
  | DataRGBA _ => "RGBA"
  | DataLA _ => "LA"
  | DataP _ _ => "P"
  | DataOther m => other_mode_name m
  end.

(** [x in l] for strings *)
Definition mem (x : string) (l : list string) : bool :=
  existsb (String.eqb x) l.

Module PIL.

(** [Image.new('RGB', size, color)] *)
Definition new_RGB (sz : Z * Z) (color : rgb) : Image :=
  mkImage sz (DataRGB (repeat color (Z.to_nat (fst sz * snd sz)))).

(** palette entry of index [i]; Pillow's palettes hold 256 entries, the
    missing ones opaque black *)
Definition palette_entry (pal : list rgba) (i : Z) : rgba :=
  nth (Z.to_nat i) pal (0, 0, 0, 255).

(** [img.convert('RGBA')] of a palette image *)
Definition convert_RGBA (img : Image) : Image :=
  match data img with
  | DataP pal px => mkImage (size img) (DataRGBA (map (palette_entry pal) px))
  | DataLA px =>
      mkImage (size img) (DataRGBA (map (fun '(l, a) => (l, l, l, a)) px))
  | DataRGB px =>
      mkImage (size img) (DataRGBA (map (fun '(r, g, b) => (r, g, b, 255)) px))
  | _ => img
  end.

(** [img.split()[-1]] of an RGBA image: its alpha band *)
Definition alpha_band (img : Image) : list Z :=
  match data img with
  | DataRGBA px => map (fun '(_, _, _, a) => a) px
  | DataLA px => map snd px
  | _ => []
  end.

(** Pillow's 8-bit blend of [fg] over [bg] with mask value [a]:
    [DIV255 (bg * (255 - a) + fg * a)], where
    [DIV255 x = let t := x + 128 in ((t >> 8) + t) >> 8]. *)
Definition blend (a bg fg : Z) : Z :=
  let t := bg * (255 - a) + fg * a + 128 in
  Z.shiftr (Z.shiftr t 8 + t) 8.

Definition blend_rgb (a : Z) (bg fg : rgb) : rgb :=
  let '(r0, g0, b0) := bg in
  let '(r1, g1, b1) := fg in
  (blend a r0 r1, blend a g0 g1, blend a b0 b1).

(** the colour bands of a pixel as the paste reads them: the first three of
    the four stored bytes, which for [LA] are [l, l, l] *)
Definition colour_bands (d : pixels) : list rgb :=
  match d with
  | DataRGB px => px
  | DataRGBA px => map (fun '(r, g, b, _) => (r, g, b)) px
  | DataLA px => map (fun '(l, _) => (l, l, l)) px
  | _ => []
  end.

Fixpoint paste_masked (bg fg : list rgb) (mask : list Z) : list rgb :=
  match bg, fg, mask with
  | b :: bg', f :: fg', a :: mask' =>
      blend_rgb a b f :: paste_masked bg' fg' mask'
  | _, _, _ => bg
  end.

Fixpoint paste_plain (bg fg : list rgb) : list rgb :=
  match bg, fg with
  | _ :: bg', f :: fg' => f :: paste_plain bg' fg'
  | _, _ => bg
  end.

(** [background.paste(img, mask=mask)] into an RGB background of the same
    size: with a mask each band is blended, without one the colour bytes
    of [img] are copied over the background. *)
Definition paste (background img : Image) (mask : option (list Z)) : Image :=
  match data background with
  | DataRGB bg =>
      match mask with
      | Some m =>
          mkImage (size background)
            (DataRGB (paste_masked bg (colour_bands (data img)) m))
      | None =>
          mkImage (size background)
            (DataRGB (paste_plain bg (colour_bands (data img))))
      end
  | _ => background
  end.

(** modes the JPEG encoder of Pillow writes ([RAWMODE] of its JPEG plugin) *)
Definition JPEG_RAWMODE : list string :=
  ["1"; "L"; "RGB"; "RGBX"; "CMYK"; "YCbCr"].

End PIL.

(* ================================================================== *)
(** ** The world outside the module

    What the libraries and the file system answer.  Each field is the
    outcome of one library call; the converters decide when it is made. *)

Record AudioSegment := mkAudio {
  duration_ms : Z;       (* [len(audio)] *)
  channels : Z;
  frame_rate : Z
}.

(** JSON values as [json.load] returns them.  A float is kept by its
    [repr], which is what [str] gives. *)
Inductive json :=
| JNull
| JBool (b : bool)
| JInt (z : Z)
| JFloat (repr : string)
| JStr (s : string)
| JList (l : list json)
| JDict (d : list (string * json)).

(** An ElementTree element: tag, text and children. *)
Inductive element :=
| Element (tag : string) (text : option string) (children : list element).

Record World := mkWorld {
  (* the module-level flag set by the guarded import of pydub: false
     when that import raised [ImportError] *)
  AUDIO_SUPPORT : bool;
  (* [from weasyprint import HTML], executed inside the PDF converters:
     it returns, or raises [ImportError] when the package is not
     installed, or raises another exception, as [OSError] does when the
     package is installed and the native libraries it loads are missing *)
  weasyprint_import : outcome unit;
  (* Pillow *)
  Image_open : Path -> outcome Image;
  Image_resize : Image -> Z -> Z -> outcome Image;
  Image_save : Image -> string -> Kwargs -> outcome bytes;
  (* the file system *)
  read_text : Path -> outcome string;
  stat_size : Path -> outcome Z;
  (* json *)
  json_loads : string -> outcome json;
  json_dumps : json -> Z -> string;          (* value, indent *)
  (* xml: [minidom.parseString(ET.tostring(root, encoding='unicode'))
     .toprettyxml(indent='  ')] and [ET.fromstring] *)
  xml_pretty : element -> outcome string;
  ET_fromstring : string -> outcome element;
  (* pandas: the body of each tabular converter *)
  pandas_csv_to_json : Path -> Z -> outcome bytes;   (* path, indent *)
  pandas_json_to_csv : json -> outcome bytes;
  pandas_read_csv : Path -> outcome (list (list (string * option string)));
  pandas_rows_to_csv : list (list (string * option string)) -> outcome bytes;
  pandas_csv_to_excel : Path -> outcome bytes;
  pandas_excel_to_csv : Path -> outcome bytes;
  (* markdown, re, weasyprint *)
  markdown_markdown : string -> outcome string;
  re_html_to_markdown : string -> outcome string;
  write_pdf : string -> outcome bytes;
  (* pydub *)
  AudioSegment_from_file : Path -> string -> outcome AudioSegment;
  AudioSegment_export : AudioSegment -> string -> Kwargs -> outcome bytes;
  (* uuid, datetime *)
  uuid4 : string;
  timestamp : string
}.

(** the import of the renderer succeeds *)
Definition weasyprint_installed (w : World) : bool :=
  match weasyprint_import w with
  | Returns _ => true
  | Raises _ => false
  end.

(** a Python number used in arithmetic: [bool] is a subclass of [int] *)
Definition as_int (v : Py.val) : outcome Z :=
  match v with
  | Py.VInt z => Returns z
  | Py.VBool b => Returns (Z.b2z b)
  | Py.VNone => Raises (TypeError "unsupported operand type(s): 'NoneType'")
  | Py.VStr _ => Raises (TypeError "unsupported operand type(s): 'str'")
  end.

(** [d.get(k, default)] on keyword arguments *)
Fixpoint kw_get (k : string) (kw : Kwargs) (default : Py.val) : Py.val :=
  match kw with
  | [] => default
  | (k', v) :: r => if String.eqb k k' then v else kw_get k r default
  end.

(* ================================================================== *)
(** ** class ImageConverter *)

Module ImageConverter.

Definition SUPPORTED_FORMATS : list string :=
  ["jpg"; "jpeg"; "png"; "gif"; "webp"; "bmp"; "tiff"; "ico"].

(** The sizes [_resize] asks Pillow for; [None] when the image is returned
    as it is. *)
Definition _resize_dims (sz : Z * Z) (width height : Py.val)
    (keep_aspect_ratio : bool) : outcome (option (Z * Z)) :=
  let '(original_width, original_height) := sz in
  (if keep_aspect_ratio then
     if (Py.truthy width && Py.truthy height)%bool then
       (wd <-- as_int width ;;
        r1 <-- Float.truediv wd original_width ;;
        ht <-- as_int height ;;
        r2 <-- Float.truediv ht original_height ;;
        let ratio := Float.min r1 r2 in
        pw <-- Float.int_mul original_width ratio ;;
        new_width <-- Float.to_int pw ;;
        ph <-- Float.int_mul original_height ratio ;;
        new_height <-- Float.to_int ph ;;
        Returns (Some (new_width, new_height)))
     else if Py.truthy width then
       (wd <-- as_int width ;;
        ratio <-- Float.truediv wd original_width ;;
        ph <-- Float.int_mul original_height ratio ;;
        new_height <-- Float.to_int ph ;;
        Returns (Some (wd, new_height)))
     else if Py.truthy height then
       (ht <-- as_int height ;;
        ratio <-- Float.truediv ht original_height ;;
        pw <-- Float.int_mul original_width ratio ;;
        new_width <-- Float.to_int pw ;;
        Returns (Some (new_width, ht)))
     else Returns None
   else
     (new_width <-- (if Py.truthy width then as_int width
                     else Returns original_width) ;;
      new_height <-- (if Py.truthy height then as_int height
                      else Returns original_height) ;;
      Returns (Some (new_width, new_height))))%m.

Definition _resize (w : World) (img : Image) (width height : Py.val)
    (keep_aspect_ratio : bool) : M Image :=
  (dims <- lift (_resize_dims (size img) width height keep_aspect_ratio) ;;
   match dims with
   | None => ret img
   | Some (new_width, new_height) =>
       emit (EvResize new_width new_height) ;;;
       lift (Image_resize w img new_width new_height)
   end)%m.

(** the block under [if output_format == 'jpeg' and img.mode in
    ('RGBA', 'LA', 'P')] *)
Definition flatten (img : Image) : Image :=
  let background := PIL.new_RGB (size img) (255, 255, 255) in
  let img := if String.eqb (mode img) "P" then PIL.convert_RGBA img else img in
  PIL.paste background img
    (if String.eqb (mode img) "RGBA" then Some (PIL.alpha_band img) else None).

Definition mime_types : list (string * string) :=
  [("jpeg", "image/jpeg"); ("png", "image/png"); ("gif", "image/gif");
   ("webp", "image/webp"); ("bmp", "image/bmp"); ("tiff", "image/tiff");
   ("ico", "image/x-icon")].

Fixpoint dict_get (k : string) (d : list (string * string)) (default : string)
    : string :=
  match d with
  | [] => default
  | (k', v) :: r => if String.eqb k k' then v else dict_get k r default
  end.

Definition save_kwargs (output_format : string) (quality : Py.val) : Kwargs :=
  ((if mem output_format ["jpeg"; "webp"] then [("quality", quality)] else [])
   ++ (if String.eqb output_format "png"
       then [("optimize", Py.VBool true)] else []))%list.

Definition convert (w : World) (input_path : Path) (output_format : string)
    (width height quality keep_aspect_ratio : Py.val) : M (bytes * string) :=
  (emit (EvCall "ImageConverter.convert" input_path
           [("output_format", Py.VStr output_format); ("width", width);
            ("height", height); ("quality", quality);
            ("keep_aspect_ratio", keep_aspect_ratio)]) ;;;
   let output_format := Py.lower output_format in
   let output_format :=
     if String.eqb output_format "jpg" then "jpeg" else output_format in
   if negb (mem output_format
              ["jpeg"; "png"; "gif"; "webp"; "bmp"; "tiff"; "ico"])
   then raise (ConversionError
                 ("Неподдерживаемый формат: " ++ output_format))
   else
     try_except
       (emit (EvRead input_path) ;;;
        img <- lift (Image_open w input_path) ;;
        let img :=
          if (String.eqb output_format "jpeg"
              && mem (mode img) ["RGBA"; "LA"; "P"])%bool
          then flatten img else img in
        img <- (if (Py.truthy width || Py.truthy height)%bool
                then _resize w img width height (Py.truthy keep_aspect_ratio)
                else ret img) ;;
        let kw := save_kwargs output_format quality in
        emit (EvSave (Py.upper output_format) kw) ;;;
        b <- lift (Image_save w img (Py.upper output_format) kw) ;;
        ret (b, dict_get output_format mime_types "application/octet-stream"))
       (fun e => raise (ConversionError
                          ("Ошибка конвертации изображения: " ++ str_exn e))))%m.

(** Binding of [ImageConverter.convert(p, fmt, **kw)]: the first keyword
    that is not one of the four parameters left to bind is a [TypeError]
    at the call, a second value for [input_path] or [output_format] when
    it names one of the two parameters bound by position, an unexpected
    keyword otherwise. *)
Definition parameters : list string :=
  ["width"; "height"; "quality"; "keep_aspect_ratio"].

Definition unexpected (kw : Kwargs) : option string :=
  match filter (fun kv => negb (mem (fst kv) parameters)) kw with
  | [] => None
  | (k, _) :: _ => Some k
  end.

Definition call (w : World) (input_path : Path) (output_format : string)
    (kw : Kwargs) : M (bytes * string) :=
  match unexpected kw with
  | Some k =>
      raise (TypeError
               (if mem k ["input_path"; "output_format"]
                then "convert() got multiple values for argument '" ++ k ++ "'"
                else "convert() got an unexpected keyword argument '"
                     ++ k ++ "'"))
  | None =>
      convert w input_path output_format
        (kw_get "width" kw Py.VNone) (kw_get "height" kw Py.VNone)
        (kw_get "quality" kw (Py.VInt 85))
        (kw_get "keep_aspect_ratio" kw (Py.VBool true))
  end.

End ImageConverter.

(* ================================================================== *)
(** ** class DataConverter *)

Module DataConverter.

(** [str(d)] of a JSON scalar *)
Definition py_str (d : json) : string :=
  match d with
  | JBool true => "True"
  | JBool false => "False"
  | JInt z => NilZero.string_of_int (Z.to_int z)
  | JFloat r => r
  | JStr s => s
  | _ => ""
  end.

(** [ET.SubElement(parent, tag)] followed by the filling of the new child:
    the child ends up last among the children of [parent]. *)
Definition append_child (parent child : element) : element :=
  match parent with
  | Element tag text children => Element tag text (children ++ [child])
  end.

Definition set_text (parent : element) (t : string) : element :=
  match parent with
  | Element tag _ children => Element tag (Some t) children
  end.

Definition tag_of (e : element) : string :=
  match e with Element tag _ _ => tag end.
Definition text_of (e : element) : option string :=
  match e with Element _ text _ => text end.
Definition children_of (e : element) : list element :=
  match e with Element _ _ children => children end.

(** [open(input_path, 'r', encoding='utf-8')] and [json.load(f)] *)
Definition json_load (w : World) (input_path : Path) : M json :=
  (emit (EvRead input_path) ;;;
   text <- lift (read_text w input_path) ;;
   lift (json_loads w text))%m.

(** [ET.parse(input_path).getroot()] *)
Definition ET_parse (w : World) (input_path : Path) : M element :=
  (emit (EvRead input_path) ;;;
   text <- lift (read_text w input_path) ;;
   lift (ET_fromstring w text))%m.

Definition csv_to_json (w : World) (input_path : Path) (indent : Z)
    : M (bytes * string) :=
  try_except
    (emit (EvCall "DataConverter.csv_to_json" input_path
             [("indent", Py.VInt indent)]) ;;;
     emit (EvRead input_path) ;;;
     b <- lift (pandas_csv_to_json w input_path indent) ;;
     ret (b, "application/json"))%m
    (fun e => raise (ConversionError
                       ("Ошибка конвертации CSV→JSON: " ++ str_exn e))).

Definition json_to_csv (w : World) (input_path : Path) : M (bytes * string) :=
  try_except
    (emit (EvCall "DataConverter.json_to_csv" input_path []) ;;;
     data <- json_load w input_path ;;
     let data := match data with JDict _ => JList [data] | _ => data end in
     b <- lift (pandas_json_to_csv w data) ;;
     ret (b, "text/csv"))%m
    (fun e => raise (ConversionError
                       ("Ошибка конвертации JSON→CSV: " ++ str_exn e))).

Definition csv_to_xml (w : World) (input_path : Path)
    (root_name row_name : string) : M (bytes * string) :=
  try_except
    (emit (EvCall "DataConverter.csv_to_xml" input_path
             [("root_name", Py.VStr root_name);
              ("row_name", Py.VStr row_name)]) ;;;
     emit (EvRead input_path) ;;;
     df <- lift (pandas_read_csv w input_path) ;;
     let root :=
       fold_left
         (fun root row =>
            append_child root
              (fold_left
                 (fun row_elem cell =>
                    append_child row_elem
                      (Element (Py.replace_char " " "_" (fst cell))
                         (Some (match snd cell with
                                | Some v => v
                                | None => ""
                                end)) []))
                 row (Element row_name None [])))
         df (Element root_name None []) in
     xml_str <- lift (xml_pretty w root) ;;
     ret (xml_str, "application/xml"))%m
    (fun e => raise (ConversionError
                       ("Ошибка конвертации CSV→XML: " ++ str_exn e))).

(** [row[k] = v] on a dict kept in insertion order *)
Fixpoint dict_set {V} (k : string) (v : V) (d : list (string * V))
    : list (string * V) :=
  match d with
  | [] => [(k, v)]
  | (k', v') :: r =>
      if String.eqb k k' then (k, v) :: r else (k', v') :: dict_set k v r
  end.

Fixpoint dict_lookup {V} (k : string) (d : list (string * V)) : option V :=
  match d with
  | [] => None
  | (k', v) :: r => if String.eqb k k' then Some v else dict_lookup k r
  end.

Definition xml_to_csv (w : World) (input_path : Path) : M (bytes * string) :=
  try_except
    (emit (EvCall "DataConverter.xml_to_csv" input_path []) ;;;
     root <- ET_parse w input_path ;;
     let data :=
       map (fun child =>
              fold_left (fun row elem => dict_set (tag_of elem) (text_of elem) row)
                (children_of child) [])
         (children_of root) in
     b <- lift (pandas_rows_to_csv w data) ;;
     ret (b, "text/csv"))%m
    (fun e => raise (ConversionError
                       ("Ошибка конвертации XML→CSV: " ++ str_exn e))).

(** the local function [dict_to_xml(d, parent)] of [json_to_xml] *)
Fixpoint dict_to_xml (d : json) (parent : element) : element :=
  match d with
  | JDict kvs =>
      fold_left
        (fun parent kv =>
           append_child parent
             (dict_to_xml (snd kv)
                (Element (Py.replace_char " " "_" (fst kv)) None [])))
        kvs parent
  | JList l =>
      fold_left
        (fun parent item =>
           append_child parent (dict_to_xml item (Element "item" None [])))
        l parent
  | JNull => set_text parent ""
  | _ => set_text parent (py_str d)
  end.

(** the tree [json_to_xml] serializes *)
Definition json_to_xml_tree (data : json) (root_name : string) : element :=
  let root := Element root_name None [] in
  match data with
  | JList l =>
      fold_left
        (fun root item =>
           append_child root (dict_to_xml item (Element "item" None [])))
        l root
  | _ => dict_to_xml data root
  end.

Definition json_to_xml (w : World) (input_path : Path) (root_name : string)
    : M (bytes * string) :=
  try_except
    (emit (EvCall "DataConverter.json_to_xml" input_path
             [("root_name", Py.VStr root_name)]) ;;;
     data <- json_load w input_path ;;
     xml_str <- lift (xml_pretty w (json_to_xml_tree data root_name)) ;;
     ret (xml_str, "application/xml"))%m
    (fun e => raise (ConversionError
                       ("Ошибка конвертации JSON→XML: " ++ str_exn e))).

Definition text_json (t : option string) : json :=
  match t with
  | Some s => JStr s
  | None => JNull
  end.

(** one turn of the loop of [xml_to_dict]: [value] stored under [tag] *)
Definition store (tag : string) (value : json) (result : list (string * json))
    : list (string * json) :=
  match dict_lookup tag result with
  | Some (JList l) => dict_set tag (JList (l ++ [value])) result
  | Some old => dict_set tag (JList [old; value]) result
  | None => dict_set tag value result
  end.

(** the local function [xml_to_dict(elem)] of [xml_to_json] *)
Fixpoint xml_to_dict (elem : element) : json :=
  match elem with
  | Element _ text children =>
      let result :=
        fold_left
          (fun result child =>
             let value :=
               match child with
               | Element _ ctext [] => text_json ctext
               | Element _ _ (_ :: _) => xml_to_dict child
               end in
             store (tag_of child) value result)
          children [] in
      match result with
      | [] => text_json text
      | _ => JDict result
      end
  end.

(** the value [xml_to_json] hands to [json.dumps] *)
Definition xml_to_json_data (root : element) : json :=
  JDict [(tag_of root, xml_to_dict root)].

Definition xml_to_json (w : World) (input_path : Path) (indent : Z)
    : M (bytes * string) :=
  try_except
    (emit (EvCall "DataConverter.xml_to_json" input_path
             [("indent", Py.VInt indent)]) ;;;
     root <- ET_parse w input_path ;;
     ret (json_dumps w (xml_to_json_data root) indent, "application/json"))%m
    (fun e => raise (ConversionError
                       ("Ошибка конвертации XML→JSON: " ++ str_exn e))).

Definition csv_to_excel (w : World) (input_path : Path) : M (bytes * string) :=
  try_except
    (emit (EvCall "DataConverter.csv_to_excel" input_path []) ;;;
     emit (EvRead input_path) ;;;
     b <- lift (pandas_csv_to_excel w input_path) ;;
     ret (b, "application/vnd.openxmlformats-officedocument.spreadsheetml.sheet"))%m
    (fun e => raise (ConversionError
                       ("Ошибка конвертации CSV→Excel: " ++ str_exn e))).

Definition excel_to_csv (w : World) (input_path : Path) : M (bytes * string) :=
  try_except
    (emit (EvCall "DataConverter.excel_to_csv" input_path []) ;;;
     emit (EvRead input_path) ;;;
     b <- lift (pandas_excel_to_csv w input_path) ;;
     ret (b, "text/csv"))%m
    (fun e => raise (ConversionError
                       ("Ошибка конвертации Excel→CSV: " ++ str_exn e))).

End DataConverter.

(* ================================================================== *)
(** ** class DocumentConverter *)

Module DocumentConverter.

(** the double quote and the line feed *)
Definition dq : string := String "034"%char EmptyString.
Definition nl : string := String "010"%char EmptyString.

(** the page around the rendered markdown when [full_page] is set *)
Definition markdown_page (html_content : string) : string :=
  ("<!DOCTYPE html>"
   ++ nl ++ "<html lang=" ++ dq ++ "ru" ++ dq ++ ">"
   ++ nl ++ "<head>"
   ++ nl ++ "    <meta charset=" ++ dq ++ "UTF-8" ++ dq ++ ">"
   ++ nl ++ "    <meta name=" ++ dq ++ "viewport" ++ dq ++ " content=" ++ dq ++ "width=device-width, initial-scale=1.0" ++ dq ++ ">"
   ++ nl ++ "    <title>Converted Document</title>"
   ++ nl ++ "    <style>"
   ++ nl ++ "        body {"
   ++ nl ++ "            font-family: -apple-system, BlinkMacSystemFont, 'Segoe UI', Roboto, sans-serif;"
   ++ nl ++ "            max-width: 800px;"
   ++ nl ++ "            margin: 0 auto;"
   ++ nl ++ "            padding: 40px 20px;"
   ++ nl ++ "            line-height: 1.6;"
   ++ nl ++ "            color: #333;"
   ++ nl ++ "        }"
   ++ nl ++ "        h1, h2, h3 { color: #2c3e50; margin-top: 1.5em; }"
   ++ nl ++ "        code {"
   ++ nl ++ "            background: #f4f4f4;"
   ++ nl ++ "            padding: 2px 6px;"
   ++ nl ++ "            border-radius: 4px;"
   ++ nl ++ "            font-family: 'Consolas', monospace;"
   ++ nl ++ "        }"
   ++ nl ++ "        pre {"
   ++ nl ++ "            background: #2d2d2d;"
   ++ nl ++ "            color: #f8f8f2;"
   ++ nl ++ "            padding: 16px;"
   ++ nl ++ "            border-radius: 8px;"
   ++ nl ++ "            overflow-x: auto;"
   ++ nl ++ "        }"
   ++ nl ++ "        pre code { background: none; color: inherit; }"
   ++ nl ++ "        table {"
   ++ nl ++ "            border-collapse: collapse;"
   ++ nl ++ "            width: 100%;"
   ++ nl ++ "            margin: 1em 0;"
   ++ nl ++ "        }"
   ++ nl ++ "        th, td {"
   ++ nl ++ "            border: 1px solid #ddd;"
   ++ nl ++ "            padding: 8px 12px;"
   ++ nl ++ "            text-align: left;"
   ++ nl ++ "        }"
   ++ nl ++ "        th { background: #f5f5f5; }"
   ++ nl ++ "        blockquote {"
   ++ nl ++ "            border-left: 4px solid #3498db;"
   ++ nl ++ "            margin: 1em 0;"
   ++ nl ++ "            padding: 0.5em 1em;"
   ++ nl ++ "            background: #f9f9f9;"
   ++ nl ++ "        }"
   ++ nl ++ "        a { color: #3498db; }"
   ++ nl ++ "        img { max-width: 100%; height: auto; }"
   ++ nl ++ "    </style>"
   ++ nl ++ "</head>"
   ++ nl ++ "<body>"
   ++ nl ++ "")
  ++ html_content ++
  (""
   ++ nl ++ "</body>"
   ++ nl ++ "</html>").

(** the page around the escaped text *)
Definition text_page (text : string) : string :=
  ("<!DOCTYPE html>"
   ++ nl ++ "<html lang=" ++ dq ++ "ru" ++ dq ++ ">"
   ++ nl ++ "<head>"
   ++ nl ++ "    <meta charset=" ++ dq ++ "UTF-8" ++ dq ++ ">"
   ++ nl ++ "    <title>Text Document</title>"
   ++ nl ++ "    <style>"
   ++ nl ++ "        body {"
   ++ nl ++ "            font-family: 'Consolas', monospace;"
   ++ nl ++ "            max-width: 800px;"
   ++ nl ++ "            margin: 40px auto;"
   ++ nl ++ "            padding: 20px;"
   ++ nl ++ "            line-height: 1.6;"
   ++ nl ++ "            white-space: pre-wrap;"
   ++ nl ++ "        }"
   ++ nl ++ "    </style>"
   ++ nl ++ "</head>"
   ++ nl ++ "<body>"
   ++ nl ++ "")
  ++ text ++
  (""
   ++ nl ++ "</body>"
   ++ nl ++ "</html>").

(** [s.replace(c, by)] for a character [c] *)
Fixpoint replace_with (c : ascii) (by_ : string) (s : string) : string :=
  match s with
  | EmptyString => EmptyString
  | String x r =>
      if Ascii.eqb x c then by_ ++ replace_with c by_ r
      else String x (replace_with c by_ r)
  end.

Definition markdown_to_html (w : World) (input_path : Path) (full_page : bool)
    : M (bytes * string) :=
  try_except
    (emit (EvCall "DocumentConverter.markdown_to_html" input_path
             [("full_page", Py.VBool full_page)]) ;;;
     emit (EvRead input_path) ;;;
     md_content <- lift (read_text w input_path) ;;
     html_content <- lift (markdown_markdown w md_content) ;;
     let html_content :=
       if full_page then markdown_page html_content else html_content in
     ret (html_content, "text/html"))%m
    (fun e => raise (ConversionError
                       ("Ошибка конвертации MD→HTML: " ++ str_exn e))).

Definition html_to_markdown (w : World) (input_path : Path)
    : M (bytes * string) :=
  try_except
    (emit (EvCall "DocumentConverter.html_to_markdown" input_path []) ;;;
     emit (EvRead input_path) ;;;
     html <- lift (read_text w input_path) ;;
     md <- lift (re_html_to_markdown w html) ;;
     ret (md, "text/markdown"))%m
    (fun e => raise (ConversionError
                       ("Ошибка конвертации HTML→MD: " ++ str_exn e))).

Definition txt_to_html (w : World) (input_path : Path) : M (bytes * string) :=
  try_except
    (emit (EvCall "DocumentConverter.txt_to_html" input_path []) ;;;
     emit (EvRead input_path) ;;;
     text <- lift (read_text w input_path) ;;
     let text :=
       replace_with ">" "&gt;"
         (replace_with "<" "&lt;" (replace_with "&" "&amp;" text)) in
     let text := replace_with "010" ("<br>" ++ nl) text in
     ret (text_page text, "text/html"))%m
    (fun e => raise (ConversionError
                       ("Ошибка конвертации TXT→HTML: " ++ str_exn e))).

(** [from weasyprint import HTML] *)
Definition import_weasyprint (w : World) : M unit :=
  (emit (EvImport "weasyprint") ;;;
   lift (weasyprint_import w))%m.

Definition weasyprint_missing : string :=
  "WeasyPrint не установлен. Установите: pip install weasyprint".

Definition txt_to_pdf (w : World) (input_path : Path) : M (bytes * string) :=
  try_except
    (emit (EvCall "DocumentConverter.txt_to_pdf" input_path []) ;;;
     import_weasyprint w ;;;
     html <- txt_to_html w input_path ;;
     let html_str := fst html in
     emit EvRender ;;;
     pdf_bytes <- lift (write_pdf w html_str) ;;
     ret (pdf_bytes, "application/pdf"))%m
    (fun e =>
       match e with
       | ImportError _ => raise (ConversionError weasyprint_missing)
       | _ => raise (ConversionError
                       ("Ошибка конвертации TXT→PDF: " ++ str_exn e))
       end).

Definition markdown_to_pdf (w : World) (input_path : Path)
    : M (bytes * string) :=
  try_except
    (emit (EvCall "DocumentConverter.markdown_to_pdf" input_path []) ;;;
     import_weasyprint w ;;;
     html <- markdown_to_html w input_path true ;;
     let html_str := fst html in
     emit EvRender ;;;
     pdf_bytes <- lift (write_pdf w html_str) ;;
     ret (pdf_bytes, "application/pdf"))%m
    (fun e =>
       match e with
       | ImportError _ => raise (ConversionError weasyprint_missing)
       | _ => raise (ConversionError
                       ("Ошибка конвертации MD→PDF: " ++ str_exn e))
       end).

End DocumentConverter.

(* ================================================================== *)
(** ** class AudioConverter *)

Module AudioConverter.

Definition SUPPORTED_FORMATS : list string := ["mp3"; "wav"; "ogg"; "flac"].

Definition pydub_missing : string :=
  "pydub не установлен. Установите: pip install pydub".

Definition mime_types : list (string * string) :=
  [("mp3", "audio/mpeg"); ("wav", "audio/wav"); ("ogg", "audio/ogg");
   ("flac", "audio/flac")].

Definition convert (w : World) (input_path : Path) (output_format : string)
    (bitrate : Py.val) : M (bytes * string) :=
  (emit (EvCall "AudioConverter.convert" input_path
           [("output_format", Py.VStr output_format); ("bitrate", bitrate)]) ;;;
   if negb (AUDIO_SUPPORT w) then raise (ConversionError pydub_missing)
   else
     let output_format := Py.lower output_format in
     if negb (mem output_format SUPPORTED_FORMATS)
     then raise (ConversionError
                   ("Неподдерживаемый формат: " ++ output_format))
     else
       try_except
         (let input_format := Py.lower (Py.drop 1 (suffix input_path)) in
          emit (EvRead input_path) ;;;
          audio <- lift (AudioSegment_from_file w input_path input_format) ;;
          let export_params :=
            if String.eqb output_format "mp3"
            then [("bitrate", bitrate)] else [] in
          emit (EvSave output_format export_params) ;;;
          b <- lift (AudioSegment_export w audio output_format export_params) ;;
          ret (b, ImageConverter.dict_get output_format mime_types "audio/mpeg"))
         (fun e => raise (ConversionError
                            ("Ошибка конвертации аудио: " ++ str_exn e))))%m.

(** the values of the dictionary [get_info] returns *)
Inductive info_value :=
| IStr (s : string)
| IInt (z : Z)
| IFloat (x : Float.float).

Definition get_info (w : World) (input_path : Path)
    : M (list (string * info_value)) :=
  if negb (AUDIO_SUPPORT w) then ret [("error", IStr "pydub не установлен")]
  else
    try_except
      (let input_format := Py.lower (Py.drop 1 (suffix input_path)) in
       emit (EvRead input_path) ;;;
       audio <- lift (AudioSegment_from_file w input_path input_format) ;;
       duration <- lift (Float.truediv (duration_ms audio) 1000) ;;
       sz <- lift (stat_size w input_path) ;;
       ret [("duration_seconds", IFloat duration);
            ("channels", IInt (channels audio));
            ("sample_rate", IInt (frame_rate audio));
            ("size_bytes", IInt sz)])%m
      (fun e => ret [("error", IStr (str_exn e))]).

End AudioConverter.

(* ================================================================== *)
(** ** class FileConverter *)

Module FileConverter.

(** a value of the registry: the body of [lambda p, **kw: ...] as a
    function of the parameters [p] and [kw] once they are bound *)
Definition converter := World -> Path -> Kwargs -> M (bytes * string).

(** [k in kwargs] *)
Definition has_key (k : string) (kwargs : Kwargs) : bool :=
  existsb (fun kv => String.eqb (fst kv) k) kwargs.

(** [converter(input_path, **kwargs)] for a value [lambda p, **kw: ...] of
    the registry: [input_path] is bound to [p], so a keyword named [p] is a
    [TypeError] at the call, before the body is entered; every other
    keyword is collected in [kw].  (From Python 3.10 on the message names
    the function by its qualified name.) *)
Definition call_entry (c : converter) (w : World) (input_path : Path)
    (kwargs : Kwargs) : M (bytes * string) :=
  if has_key "p" kwargs
  then raise (TypeError "<lambda>() got multiple values for argument 'p'")
  else c w input_path kwargs.

Definition CONVERSIONS : list ((string * string) * converter) :=
  [ (* images *)
    (("jpg", "png"), fun w p kw => ImageConverter.call w p "png" kw);
    (("jpeg", "png"), fun w p kw => ImageConverter.call w p "png" kw);
    (("png", "jpg"), fun w p kw => ImageConverter.call w p "jpeg" kw);
    (("png", "jpeg"), fun w p kw => ImageConverter.call w p "jpeg" kw);
    (("png", "webp"), fun w p kw => ImageConverter.call w p "webp" kw);
    (("jpg", "webp"), fun w p kw => ImageConverter.call w p "webp" kw);
    (("jpeg", "webp"), fun w p kw => ImageConverter.call w p "webp" kw);
    (("webp", "png"), fun w p kw => ImageConverter.call w p "png" kw);
    (("webp", "jpg"), fun w p kw => ImageConverter.call w p "jpeg" kw);
    (("gif", "png"), fun w p kw => ImageConverter.call w p "png" kw);
    (("bmp", "png"), fun w p kw => ImageConverter.call w p "png" kw);
    (("bmp", "jpg"), fun w p kw => ImageConverter.call w p "jpeg" kw);
    (("tiff", "png"), fun w p kw => ImageConverter.call w p "png" kw);
    (("tiff", "jpg"), fun w p kw => ImageConverter.call w p "jpeg" kw);
    (("png", "ico"), fun w p kw => ImageConverter.call w p "ico" kw);
    (("jpg", "ico"), fun w p kw => ImageConverter.call w p "ico" kw);
    (* data *)
    (("csv", "json"), fun w p kw => DataConverter.csv_to_json w p 2);
    (("json", "csv"), fun w p kw => DataConverter.json_to_csv w p);
    (("csv", "xml"), fun w p kw => DataConverter.csv_to_xml w p "data" "row");
    (("xml", "csv"), fun w p kw => DataConverter.xml_to_csv w p);
    (("json", "xml"), fun w p kw => DataConverter.json_to_xml w p "data");
    (("xml", "json"), fun w p kw => DataConverter.xml_to_json w p 2);
    (("csv", "xlsx"), fun w p kw => DataConverter.csv_to_excel w p);
    (("xlsx", "csv"), fun w p kw => DataConverter.excel_to_csv w p);
    (("xls", "csv"), fun w p kw => DataConverter.excel_to_csv w p);
    (* documents *)
    (("md", "html"), fun w p kw => DocumentConverter.markdown_to_html w p true);
    (("markdown", "html"),
     fun w p kw => DocumentConverter.markdown_to_html w p true);
    (("html", "md"), fun w p kw => DocumentConverter.html_to_markdown w p);
    (("html", "markdown"),
     fun w p kw => DocumentConverter.html_to_markdown w p);
    (("txt", "html"), fun w p kw => DocumentConverter.txt_to_html w p);
    (("txt", "pdf"), fun w p kw => DocumentConverter.txt_to_pdf w p);
    (("md", "pdf"), fun w p kw => DocumentConverter.markdown_to_pdf w p);
    (("markdown", "pdf"),
     fun w p kw => DocumentConverter.markdown_to_pdf w p);
    (* audio *)
    (("mp3", "wav"),
     fun w p kw => AudioConverter.convert w p "wav" (Py.VStr "192k"));
    (("wav", "mp3"),
     fun w p kw => AudioConverter.convert w p "mp3" (Py.VStr "192k"));
    (("ogg", "mp3"),
     fun w p kw => AudioConverter.convert w p "mp3" (Py.VStr "192k"));
    (("flac", "mp3"),
     fun w p kw => AudioConverter.convert w p "mp3" (Py.VStr "192k"));
    (("mp3", "ogg"),
     fun w p kw => AudioConverter.convert w p "ogg" (Py.VStr "192k"));
    (("wav", "ogg"),
     fun w p kw => AudioConverter.convert w p "ogg" (Py.VStr "192k"));
    (("flac", "wav"),
     fun w p kw => AudioConverter.convert w p "wav" (Py.VStr "192k")) ].

Definition key_eqb (a b : string * string) : bool :=
  (String.eqb (fst a) (fst b) && String.eqb (snd a) (snd b))%bool.

(** [cls.CONVERSIONS.keys()] *)
Definition keys : list (string * string) := map fst CONVERSIONS.

(** [cls.CONVERSIONS[key]], [None] for a [KeyError] *)
Fixpoint lookup (key : string * string)
    (d : list ((string * string) * converter)) : option converter :=
  match d with
  | [] => None
  | (k, c) :: r => if key_eqb key k then Some c else lookup key r
  end.

(** [key in cls.CONVERSIONS] *)
Definition contains (key : string * string) : bool :=
  existsb (key_eqb key) keys.

Definition get_supported_conversions : list (list (string * string)) :=
  map (fun k => [("from", fst k); ("to", snd k)]) keys.

Definition can_convert (from_format to_format : string) : bool :=
  contains (Py.lower from_format, Py.lower to_format).

Definition unsupported (input_format output_format : string) : string :=
  "Конвертация " ++ Py.upper input_format ++ " → "
  ++ Py.upper output_format ++ " не поддерживается".

(** The body of [convert(cls, input_path, output_format, **kwargs)].
    [kwargs] is the dictionary Python binds to [**kwargs]: the keywords of
    the call other than [input_path] and [output_format], which are bound
    by name; a keyword [p] is among them when the caller gives one. *)
Definition convert (w : World) (input_path : Path) (output_format : string)
    (kwargs : Kwargs) : M (bytes * string) :=
  let input_format := Py.lower (Py.drop 1 (suffix input_path)) in
  let output_format := Py.lower output_format in
  let key := (input_format, output_format) in
  if negb (contains key)
  then raise (ConversionError (unsupported input_format output_format))
  else
    match lookup key CONVERSIONS with
    | Some converter => call_entry converter w input_path kwargs
    | None => raise (LibraryError "KeyError")
    end.

End FileConverter.

(* ================================================================== *)
(** ** config.py and the [/convert] endpoint of main.py *)

Module Main.

Definition UPLOAD_DIR : string := "uploads".
Definition OUTPUT_DIR : string := "outputs".
Definition MAX_FILE_SIZE : Z := 50 * 1024 * 1024.

(** [filename.rsplit('.', 1)[-1].lower() if '.' in filename else ''] *)
Definition get_file_extension (filename : string) : string :=
  match Py.rfind_dot filename with
  | Some i => Py.lower (Py.drop (S i) filename)
  | None => ""
  end.

(** [s.strip('.')] *)
Fixpoint lstrip_dots (s : string) : string :=
  match s with
  | String c r => if Ascii.eqb c "."%char then lstrip_dots r else s
  | EmptyString => EmptyString
  end.

Fixpoint rstrip_dots (s : string) : string :=
  match s with
  | EmptyString => EmptyString
  | String c r =>
      match rstrip_dots r with
      | EmptyString => if Ascii.eqb c "."%char then EmptyString
                       else String c EmptyString
      | r' => String c r'
      end
  end.

Definition strip_dots (s : string) : string := rstrip_dots (lstrip_dots s).

(** [s.split('/')] *)
Fixpoint split_slash (s : string) : list string :=
  match s with
  | EmptyString => [EmptyString]
  | String c r =>
      if Ascii.eqb c "/"%char then EmptyString :: split_slash r
      else match split_slash r with
           | [] => [String c EmptyString]
           | x :: xs => String c x :: xs
           end
  end.

(** [Path(s).name] on a POSIX system: the last of the components of [s],
    the empty ones and the [.] ones dropped; empty when there is none *)
Definition Path_name (s : string) : string :=
  last (filter (fun c => negb (String.eqb c "" || String.eqb c "."))
          (split_slash s)) "".

(** [Path(original).stem]: the final component without its suffix *)
Definition stem (filename : string) : string :=
  let n := Path_name filename in
  substring 0 (String.length n - String.length (suffix (mkPath "" n))) n.

(** [generate_filename(original, new_extension)] *)
Definition generate_filename (w : World) (original new_extension : string)
    : string :=
  stem original ++ "_" ++ timestamp w ++ "." ++ new_extension.

(** The request of [POST /convert]: the uploaded file and the query
    parameters; an absent [quality] takes the default 85. *)
Record Request := mkRequest {
  filename : string;
  content : bytes;
  output_format : string;
  width : option Z;
  height : option Z;
  quality : option Z
}.

Record ConversionResponse := mkResponse {
  success : bool;
  message : string;
  download_url : string;
  original_filename : string;
  converted_filename : string;
  file_size : Z
}.

Inductive response :=
| ValidationError (parameter : string)
    (* 422: a query parameter refused by its declared constraint *)
| HTTPException (status : Z) (detail : string)
| OK (r : ConversionResponse).

Definition opt_val (o : option Z) : Py.val :=
  match o with
  | Some z => Py.VInt z
  | None => Py.VNone
  end.

(** The body of [convert_file], entered once the parameters are accepted. *)
Definition convert_file_body (w : World) (req : Request) (quality : Z)
    : list event * response :=
  if Z.ltb MAX_FILE_SIZE (Z.of_nat (String.length (content req)))
  then ([], HTTPException 400 "Файл слишком большой. Максимум: 50 MB")
  else
    let input_ext := get_file_extension (filename req) in
    let output_format := strip_dots (Py.lower (output_format req)) in
    if negb (FileConverter.can_convert input_ext output_format)
    then ([], HTTPException 400
                (FileConverter.unsupported input_ext output_format))
    else
      let input_path :=
        mkPath UPLOAD_DIR (uuid4 w ++ "_" ++ filename req) in
      let '(t, r) :=
        FileConverter.convert w input_path output_format
          [("width", opt_val (width req)); ("height", opt_val (height req));
           ("quality", Py.VInt quality)] in
      match r with
      | Returns (result_bytes, mime_type) =>
          let output_filename :=
            generate_filename w (filename req) output_format in
          (([EvWrite input_path] ++ t
            ++ [EvWrite (mkPath OUTPUT_DIR output_filename);
                EvUnlink input_path])%list,
           OK (mkResponse true
                 ("Файл успешно конвертирован в " ++ Py.upper output_format)
                 ("/download/" ++ output_filename)
                 (filename req) output_filename
                 (Z.of_nat (String.length result_bytes))))
      | Raises (ConversionError msg) =>
          (([EvWrite input_path] ++ t ++ [EvUnlink input_path])%list,
           HTTPException 400 msg)
      | Raises e =>
          (([EvWrite input_path] ++ t ++ [EvUnlink input_path])%list,
           HTTPException 500 ("Внутренняя ошибка: " ++ str_exn e))
      end.

(** [convert_file]: the declaration [quality: int = Query(85, ge=1, le=100)]
    makes the framework refuse a value outside the bounds before the body
    of the function is entered. *)
Definition convert_file (w : World) (req : Request) : list event * response :=
  match quality req with
  | Some q =>
      if (Z.ltb q 1 || Z.ltb 100 q)%bool then ([], ValidationError "quality")
      else convert_file_body w req q
  | None => convert_file_body w req 85
  end.

End Main.

(* ================================================================== *)
(** ** What the XML library gives back, and what JSON comes back *)

Module RoundTrip.

Import DataConverter.

(** the text of an element as it is read back from its serialization: an
    empty text is written as an empty element and read as no text *)
Definition norm_text (t : option string) : option string :=
  match t with
  | Some "" => None
  | _ => t
  end.

Definition opt_eqb (a b : option string) : bool :=
  match a, b with
  | Some x, Some y => String.eqb x y
  | None, None => true
  | _, _ => false
  end.

(** [reads_as written read]: [read] is the tree that parsing the pretty
    printed serialization of [written] yields.  Tags and the shape are
    kept; the text of a childless element is kept up to [norm_text]; an
    element with children has its text replaced by the indentation the
    pretty printer inserts, whatever it is. *)
Fixpoint reads_as (written read : element) : bool :=
  match written, read with
  | Element tag t cs, Element tag' t' cs' =>
      (String.eqb tag tag'
       && match cs with
          | [] => match cs' with
                  | [] => opt_eqb (norm_text t) t'
                  | _ :: _ => false
                  end
          | _ :: _ =>
              (fix all2 (l l' : list element) : bool :=
                 match l, l' with
                 | [], [] => true
                 | c :: r, c' :: r' => (reads_as c c' && all2 r r')%bool
                 | _, _ => false
                 end) cs cs'
          end)%bool
  end.

Fixpoint nodupb (l : list string) : bool :=
  match l with
  | [] => true
  | x :: r => (negb (mem x r) && nodupb r)%bool
  end.

(** the tag [dict_to_xml] makes of a key *)
Definition tag_of_key (k : string) : string := Py.replace_char " " "_" k.

(** objects nested in objects with scalars at the leaves, the keys of each
    object giving distinct tags *)
Fixpoint scalar_tree (d : json) : bool :=
  match d with
  | JList _ => false
  | JDict kvs =>
      (nodupb (map (fun kv => tag_of_key (fst kv)) kvs)
       && forallb (fun kv => scalar_tree (snd kv)) kvs)%bool
  | _ => true
  end.

(** the value that comes back for [d] after JSON to XML to JSON *)
Fixpoint read_back (d : json) : json :=
  match d with
  | JDict [] => JNull
  | JDict kvs =>
      JDict (map (fun kv => (tag_of_key (fst kv), read_back (snd kv))) kvs)
  | JList _ => d
  | _ => text_json (norm_text (Some (py_str d)))
  end.

(** objects that come back as they are: keys without spaces, non-empty
    objects, non-empty strings at the leaves *)
Fixpoint strings_only (d : json) : bool :=
  match d with
  | JStr s => negb (String.eqb s "")
  | JDict [] => false
  | JDict kvs =>
      forallb (fun kv => (String.eqb (tag_of_key (fst kv)) (fst kv)
                          && strings_only (snd kv))%bool) kvs
  | _ => false
  end.

Fixpoint json_size (d : json) : nat :=
  match d with
  | JList l => S (list_sum (map json_size l))
  | JDict kvs => S (list_sum (map (fun kv => json_size (snd kv)) kvs))
  | _ => 1%nat
  end.

End RoundTrip.

(* ================================================================== *)
(** ** Sample worlds *)

Definition no_library {A} : outcome A := Raises (LibraryError "unavailable").

(** A world in which no library answers and nothing is installed. *)
Definition offline_world : World :=
  mkWorld false (Raises (ImportError "No module named 'weasyprint'"))
    (fun _ => no_library) (fun _ _ _ => no_library) (fun _ _ _ => no_library)
    (fun _ => no_library) (fun _ => no_library)
    (fun _ => no_library) (fun _ _ => "")
    (fun _ => no_library) (fun _ => no_library)
    (fun _ _ => no_library) (fun _ => no_library) (fun _ => no_library)
    (fun _ => no_library) (fun _ => no_library) (fun _ => no_library)
    (fun _ => no_library) (fun _ => no_library) (fun _ => no_library)
    (fun _ _ => no_library) (fun _ _ _ => no_library)
    "00000000-0000-4000-8000-000000000000" "20240101_000000_000000".

(** the first pixel of an image, as text *)
Definition show_Z (z : Z) : string := NilZero.string_of_int (Z.to_int z).

Definition show_first_pixel (img : Image) : string :=
  match data img with
  | DataRGB ((r, g, b) :: _) =>
      "RGB " ++ show_Z r ++ "," ++ show_Z g ++ "," ++ show_Z b
  | DataRGBA ((r, g, b, a) :: _) =>
      "RGBA " ++ show_Z r ++ "," ++ show_Z g ++ "," ++ show_Z b
      ++ "," ++ show_Z a
  | DataLA ((l, a) :: _) => "LA " ++ show_Z l ++ "," ++ show_Z a
  | DataP _ (i :: _) => "P " ++ show_Z i
  | _ => mode img
  end.

(** A world with one picture: every path opens as [img], resizing keeps the
    pixel data, and the encoder answers with the format and the first pixel
    of the image it is given. *)
Definition world_with (img : Image) : World :=
  mkWorld true (Returns tt)
    (fun _ => Returns img)
    (fun i w h => Returns (mkImage (w, h) (data i)))
    (fun i fmt _ => Returns (fmt ++ " " ++ show_first_pixel i))
    (fun _ => no_library) (fun _ => Returns 4)
    (fun _ => no_library) (fun _ _ => "")
    (fun _ => no_library) (fun _ => no_library)
    (fun _ _ => no_library) (fun _ => no_library) (fun _ => no_library)
    (fun _ => no_library) (fun _ => no_library) (fun _ => no_library)
    (fun _ => no_library) (fun _ => no_library) (fun _ => no_library)
    (fun _ _ => Returns (mkAudio 1000 2 44100))
    (fun _ fmt _ => Returns fmt)
    "00000000-0000-4000-8000-000000000000" "20240101_000000_000000".

(** the 1x1 opaque red RGB image *)
Definition red_pixel : Image := mkImage (1, 1) (DataRGB [(255, 0, 0)]).

Definition picture_world : World := world_with red_pixel.

(** 1x1 images with one fully transparent black pixel *)
Definition clear_pixel_LA : Image := mkImage (1, 1) (DataLA [(0, 0)]).
Definition clear_pixel_RGBA : Image :=
  mkImage (1, 1) (DataRGBA [(0, 0, 0, 0)]).

(** A compact printer of JSON values, strings written without escapes. *)
Fixpoint show_json (d : json) : string :=
  let dq := DocumentConverter.dq in
  match d with
  | JNull => "null"
  | JBool true => "true"
  | JBool false => "false"
  | JInt z => show_Z z
  | JFloat r => r
  | JStr s => dq ++ s ++ dq
  | JList l => "[" ++ String.concat ", " (map show_json l) ++ "]"
  | JDict kvs =>
      "{" ++ String.concat ", "
               (map (fun kv => dq ++ fst kv ++ dq ++ ": " ++ show_json (snd kv))
                  kvs) ++ "}"
  end.

(** A world with two files.  [a.json] holds the object with the one entry
    [a] of value [1]; [a.xml] holds the document [json_to_xml] makes of it,
    as the pretty printer lays it out, and is parsed into the tree with the
    indentation as text of the root. *)
Definition a_json : string :=
  "{" ++ DocumentConverter.dq ++ "a" ++ DocumentConverter.dq ++ ": 1}".

Definition a_xml : string :=
  "<?xml version=" ++ DocumentConverter.dq ++ "1.0" ++ DocumentConverter.dq
  ++ " ?>" ++ DocumentConverter.nl
  ++ "<data>" ++ DocumentConverter.nl
  ++ "  <a>1</a>" ++ DocumentConverter.nl
  ++ "</data>" ++ DocumentConverter.nl.

Definition a_xml_tree : element :=
  Element "data" (Some (DocumentConverter.nl ++ "  "))
    [Element "a" (Some "1") []].

Definition data_world : World :=
  mkWorld false (Raises (ImportError "No module named 'weasyprint'"))
    (fun _ => no_library) (fun _ _ _ => no_library) (fun _ _ _ => no_library)
    (fun p => if String.eqb (name p) "a.json" then Returns a_json
              else if String.eqb (name p) "a.xml" then Returns a_xml
              else Raises (LibraryError "No such file or directory"))
    (fun _ => no_library)
    (fun s => if String.eqb s a_json then Returns (JDict [("a", JInt 1)])
              else no_library)
    (fun d _ => show_json d)
    (fun t => if RoundTrip.reads_as t a_xml_tree then Returns a_xml
              else no_library)
    (fun s => if String.eqb s a_xml then Returns a_xml_tree else no_library)
    (fun _ _ => no_library) (fun _ => no_library) (fun _ => no_library)
    (fun _ => no_library) (fun _ => no_library) (fun _ => no_library)
    (fun _ => no_library) (fun _ => no_library) (fun _ => no_library)
    (fun _ _ => no_library) (fun _ _ _ => no_library)
    "00000000-0000-4000-8000-000000000000" "20240101_000000_000000".

(* ================================================================== *)
(** ** Outcomes of a conversion *)

Module Outcome.

(** the messages a converter raises: one built by a general handler, or
    one of the two that name a missing library *)
Definition conversion_failure (msg : string) : bool :=
  (String.prefix "Ошибка конвертации" msg
   || String.eqb msg DocumentConverter.weasyprint_missing
   || String.eqb msg AudioConverter.pydub_missing)%bool.

(** a result that is a value or a [ConversionError] of that kind *)
Definition wrapped {A} (o : outcome A) : Prop :=
  match o with
  | Returns _ => True
  | Raises (ConversionError msg) => conversion_failure msg = true
  | Raises _ => False
  end.

(** the MIME type the converters return for a target extension *)
Definition mime_of_target : list (string * string) :=
  [("jpg", "image/jpeg"); ("jpeg", "image/jpeg"); ("png", "image/png");
   ("webp", "image/webp"); ("ico", "image/x-icon");
   ("json", "application/json"); ("csv", "text/csv");
   ("xml", "application/xml");
   ("xlsx",
    "application/vnd.openxmlformats-officedocument.spreadsheetml.sheet");
   ("html", "text/html"); ("md", "text/markdown");
   ("markdown", "text/markdown"); ("pdf", "application/pdf");
   ("mp3", "audio/mpeg"); ("wav", "audio/wav"); ("ogg", "audio/ogg")].

Definition has_mime {A} (m : string) (o : outcome (A * string)) : Prop :=
  match o with
  | Returns (_, m') => m' = m
  | Raises _ => True
  end.

(** the target format as [ImageConverter.convert] normalizes it *)
Definition canonical (output_format : string) : string :=
  let f := Py.lower output_format in
  if String.eqb f "jpg" then "jpeg" else f.

End Outcome.

(* ================================================================== *)
(** ** config.py: categories of extensions *)

Module Config.

Definition ALLOWED_EXTENSIONS : list (string * list string) :=
  [("image", ["jpg"; "jpeg"; "png"; "gif"; "webp"; "bmp"; "tiff"]);
   ("document", ["pdf"; "docx"; "doc"; "txt"; "md"; "html"]);
   ("data", ["csv"; "json"; "xml"; "xlsx"; "xls"]);
   ("audio", ["mp3"; "wav"; "ogg"; "flac"; "m4a"]);
   ("video", ["mp4"; "avi"; "mkv"; "mov"; "webm"])].

(** [get_file_category]: the first category whose list has the extension *)
Fixpoint category_in (table : list (string * list string))
    (extension : string) : string :=
  match table with
  | [] => "unknown"
  | (category, extensions) :: rest =>
      if mem extension extensions then category
      else category_in rest extension
  end.

Definition get_file_category (extension : string) : string :=
  category_in ALLOWED_EXTENSIONS extension.

End Config.

(* ================================================================== *)
(** ** Grouping of repeated tags *)

Module Grouping.

(** the elements of [cs] with tag [t], in document order *)
Definition with_tag (t : string) (cs : list element) : list element :=
  filter (fun c => String.eqb (DataConverter.tag_of c) t) cs.

(** what a key holds once all its values are stored: nothing, the value
    alone, or the list of the values *)
Definition collected (vs : list json) : option json :=
  match vs with
  | [] => None
  | [v] => Some v
  | _ => Some (JList vs)
  end.

Definition is_list (d : json) : bool :=
  match d with
  | JList _ => true
  | _ => false
  end.

End Grouping.

(* ================================================================== *)
(** ** Escaping of text, one character at a time *)

Module Escape.

(** what a character of the text becomes in the page of [txt_to_html] *)
Definition escape_char (c : ascii) : string :=
  if Ascii.eqb c "&" then "&amp;"
  else if Ascii.eqb c "<" then "&lt;"
  else if Ascii.eqb c ">" then "&gt;"
  else if Ascii.eqb c "010" then "<br>" ++ DocumentConverter.nl
  else String c EmptyString.

Fixpoint escape (s : string) : string :=
  match s with
  | EmptyString => EmptyString
  | String c r => escape_char c ++ escape r
  end.

End Escape.

(** A world whose files all hold the text [t]; no library answers. *)
Definition text_world (t : string) : World :=
  mkWorld false (Raises (ImportError "No module named 'weasyprint'"))
    (fun _ => no_library) (fun _ _ _ => no_library) (fun _ _ _ => no_library)
    (fun _ => Returns t) (fun _ => no_library)
    (fun _ => no_library) (fun _ _ => "")
    (fun _ => no_library) (fun _ => no_library)
    (fun _ _ => no_library) (fun _ => no_library) (fun _ => no_library)
    (fun _ => no_library) (fun _ => no_library) (fun _ => no_library)
    (fun _ => no_library) (fun _ => no_library) (fun _ => no_library)
    (fun _ _ => no_library) (fun _ _ _ => no_library)
    "00000000-0000-4000-8000-000000000000" "20240101_000000_000000".

(* ================================================================== *)
(** ** Bytes *)

(** the range of a band of a pixel *)
Definition is_byte (z : Z) : Prop := 0 <= z <= 255.

(* ================================================================== *)
(** ** Tables as rows of cells *)

Module Table.

Import DataConverter.

(** the text of the last element of [elems] with tag [t] *)
Definition last_text (t : string) (elems : list element)
    : option (option string) :=
  match rev (Grouping.with_tag t elems) with
  | [] => None
  | e :: _ => Some (text_of e)
  end.

(** a cell of a data frame as it comes back from CSV to XML to CSV: its
    column name with underscores for spaces, its text, and nothing for a
    missing or empty value *)
Definition cell_back (cell : string * option string)
    : string * option string :=
  (RoundTrip.tag_of_key (fst cell),
   RoundTrip.norm_text (Some (match snd cell with
                              | Some v => v
                              | None => ""
                              end))).

(** the tree [csv_to_xml] serializes *)
Definition csv_to_xml_tree (df : list (list (string * option string)))
    (root_name row_name : string) : element :=
  Element root_name None
    (map (fun row =>
            Element row_name None
              (map (fun cell =>
                      Element (RoundTrip.tag_of_key (fst cell))
                        (Some (match snd cell with
                               | Some v => v
                               | None => ""
                               end)) [])
                 row))
       df).

End Table.

(** A world for one exchange of data: every JSON file holds the value [j],
    every CSV file the data frame [df]; the XML library writes [xml] and
    reads it as [root]; nothing else answers. *)
Definition exchange_world (j : json)
    (df : list (list (string * option string)))
    (xml : string) (root : element) : World :=
  mkWorld false (Raises (ImportError "No module named 'weasyprint'"))
    (fun _ => no_library) (fun _ _ _ => no_library) (fun _ _ _ => no_library)
    (fun _ => Returns xml) (fun _ => no_library)
    (fun _ => Returns j) (fun d _ => show_json d)
    (fun _ => Returns xml) (fun _ => Returns root)
    (fun _ _ => no_library) (fun _ => no_library)
    (fun _ => Returns df) (fun _ => no_library)
    (fun _ => no_library) (fun _ => no_library)
    (fun _ => no_library) (fun _ => no_library) (fun _ => no_library)
    (fun _ _ => no_library) (fun _ _ _ => no_library)
    "00000000-0000-4000-8000-000000000000" "20240101_000000_000000".

(** a document with one row in which the tag [a] occurs twice *)
Definition a_rows_xml : string := "<r><x><a>1</a><b/><a>2</a></x></r>".
Definition a_rows_tree : element :=
  Element "r" None
    [Element "x" None
       [Element "a" (Some "1") []; Element "b" None [];
        Element "a" (Some "2") []]].

(** a data frame of one row with a missing value, and the tree its XML
    document is read as *)
Definition a_frame : list (list (string * option string)) :=
  [[("first name", Some "Ann"); ("age", None)]].
Definition a_frame_xml : string :=
  "<data><row><first_name>Ann</first_name><age/></row></data>".
Definition a_frame_tree : element :=
  Element "data" None
    [Element "row" None
       [Element "first_name" (Some "Ann") []; Element "age" None []]].

(* ================================================================== *)
(** ** Arrays of scalars through XML *)

Module Arrays.

Definition scalar (d : json) : bool :=
  match d with
  | JDict _ | JList _ => false
  | _ => true
  end.

(** what comes back for an array of scalars after JSON to XML to JSON:
    nothing for the empty array, the text of the item for an array of one
    item, the array of the texts otherwise, under the key [item] *)
Definition array_back (l : list json) : json :=
  match map RoundTrip.read_back l with
  | [] => JNull
  | [v] => JDict [("item", v)]
  | vs => JDict [("item", JList vs)]
  end.

(** the array of the numbers 1 and 2 and the tree its document is read as *)
Definition an_array : list json := [JInt 1; JInt 2].
Definition an_array_xml : string :=
  "<data><item>1</item><item>2</item></data>".
Definition an_array_tree : element :=
  Element "data" None
    [Element "item" (Some "1") []; Element "item" (Some "2") []].

End Arrays.

(* ================================================================== *)
(** ** Thumbnails and the image endpoints of main.py *)

Module Thumbnail.

(** [ImageConverter.create_thumbnail(input_path, size)].  The argument
    [thumbnail] is Pillow's [img.thumbnail(size, LANCZOS)], which shrinks
    the image in place; the mode tested afterwards is the mode of the
    shrunk image. *)
Definition create_thumbnail (w : World)
    (thumbnail : Image -> Z * Z -> outcome Image)
    (input_path : Path) (size : Z * Z) : M bytes :=
  (emit (EvRead input_path) ;;;
   img <- lift (Image_open w input_path) ;;
   img <- lift (thumbnail img size) ;;
   if mem (mode img) ["RGBA"; "LA"; "P"]
   then (emit (EvSave "PNG" []) ;;;
         lift (Image_save w img "PNG" []))
   else (emit (EvSave "JPEG" [("quality", Py.VInt 85)]) ;;;
         lift (Image_save w img "JPEG" [("quality", Py.VInt 85)])))%m.

End Thumbnail.

Module Endpoints.

(** what an endpoint that returns a [Response] answers *)
Inductive answer :=
| Invalid (parameter : string)
    (* 422: a query parameter refused by its declared constraint *)
| Refused (status : Z) (detail : string)     (* an [HTTPException] *)
| Content (content : bytes) (media_type : string)
| Unhandled (e : exn).
    (* an exception that leaves the function *)

(** [POST /api/image/thumbnail], with [size: int = Query(200, ge=50,
    le=500)] *)
Definition create_thumbnail (w : World)
    (thumbnail : Image -> Z * Z -> outcome Image)
    (filename : string) (content : bytes) (size : option Z)
    : list event * answer :=
  let size := match size with Some s => s | None => 200 end in
  if (Z.ltb size 50 || Z.ltb 500 size)%bool then ([], Invalid "size")
  else
    let input_path := mkPath Main.UPLOAD_DIR (uuid4 w ++ "_" ++ filename) in
    let '(t, r) :=
      Thumbnail.create_thumbnail w thumbnail input_path (size, size) in
    (([EvWrite input_path] ++ t ++ [EvUnlink input_path])%list,
     match r with
     | Returns thumbnail => Content thumbnail "image/png"
     | Raises e => Refused 400 (str_exn e)
     end).

(** [POST /api/image/resize] *)
Definition resize_image (w : World) (filename : string) (content : bytes)
    (width height : option Z) (keep_aspect_ratio : bool)
    : list event * answer :=
  if (negb (Py.truthy (Main.opt_val width))
      && negb (Py.truthy (Main.opt_val height)))%bool
  then ([], Refused 400 "Укажите width или height")
  else
    let input_path := mkPath Main.UPLOAD_DIR (uuid4 w ++ "_" ++ filename) in
    let ext := Main.get_file_extension filename in
    let '(t, r) :=
      ImageConverter.convert w input_path ext
        (Main.opt_val width) (Main.opt_val height) (Py.VInt 85)
        (Py.VBool keep_aspect_ratio) in
    (([EvWrite input_path] ++ t ++ [EvUnlink input_path])%list,
     match r with
     | Returns (result, mime_type) => Content result mime_type
     | Raises (ConversionError msg) => Refused 400 msg
     | Raises e => Unhandled e
     end).

End Endpoints.

(** A world in which the Python packages import and their engines are
    missing: the import of the renderer raises the [OSError] of a native
    library that cannot be loaded, pydub is importable and every decoding
    fails for want of ffmpeg; nothing else answers. *)
Definition missing_gobject : string :=
  "cannot load library 'libgobject-2.0-0': no such file".
Definition missing_ffmpeg : string :=
  "[Errno 2] No such file or directory: 'ffprobe'".

Definition no_engines_world : World :=
  mkWorld true (Raises (LibraryError missing_gobject))
    (fun _ => no_library) (fun _ _ _ => no_library) (fun _ _ _ => no_library)
    (fun _ => no_library) (fun _ => no_library)
    (fun _ => no_library) (fun _ _ => "")
    (fun _ => no_library) (fun _ => no_library)
    (fun _ _ => no_library) (fun _ => no_library) (fun _ => no_library)
    (fun _ => no_library) (fun _ => no_library) (fun _ => no_library)
    (fun _ => no_library) (fun _ => no_library) (fun _ => no_library)
    (fun _ _ => Raises (LibraryError missing_ffmpeg))
    (fun _ _ _ => no_library)
    "00000000-0000-4000-8000-000000000000" "20240101_000000_000000".

(** A property of every entry of the registry that holds of each entry
    either by computation or because its guard on the key is false. *)
Ltac each_entry :=
  unfold FileConverter.CONVERSIONS;
  repeat (constructor;
          [cbn [fst snd];
           let H := fresh "H" in
           intros H ? ? ?;
           first [reflexivity | vm_compute in H; discriminate H] |]);
  constructor.

(* ================================================================== *)
(** * Properties of the registry and of the dispatcher *)

Section Registry.

Import FileConverter.

Lemma key_eqb_eq (a b : string * string) : key_eqb a b = true <-> a = b.
Proof.
  destruct a as [a1 a2], b as [b1 b2]; unfold key_eqb; simpl.
  rewrite andb_true_iff, !String.eqb_eq.
  split; [intros [-> ->]; reflexivity | intros H; inversion H; auto].
Qed.

Lemma contains_In (key : string * string) :
  contains key = true <-> In key keys.
Proof.
  unfold contains. rewrite existsb_exists. split.
  - intros [k [Hin Heq]]. apply key_eqb_eq in Heq. subst. exact Hin.
  - intros Hin. exists key. split; [exact Hin | apply key_eqb_eq; reflexivity].
Qed.

Lemma lookup_contains (key : string * string) :
  contains key = false -> lookup key CONVERSIONS = None.
Proof.
  unfold contains, keys.
  induction CONVERSIONS as [|[k c] r IH]; simpl; [reflexivity|].
  destruct (key_eqb key k); simpl; [discriminate | exact IH].
Qed.

Lemma lower_char_upper_char (c : ascii) :
  Py.lower_char (Py.upper_char c) = Py.lower_char c.
Proof.
  destruct c as [[] [] [] [] [] [] [] []]; reflexivity.
Qed.

Lemma lower_char_idem (c : ascii) :
  Py.lower_char (Py.lower_char c) = Py.lower_char c.
Proof.
  destruct c as [[] [] [] [] [] [] [] []]; reflexivity.
Qed.

Lemma lower_upper (s : string) : Py.lower (Py.upper s) = Py.lower s.
Proof.
  induction s as [|c r IH]; simpl; [reflexivity|].
  now rewrite lower_char_upper_char, IH.
Qed.

Lemma lower_idem (s : string) : Py.lower (Py.lower s) = Py.lower s.
Proof.
  induction s as [|c r IH]; simpl; [reflexivity|].
  now rewrite lower_char_idem, IH.
Qed.

(** No key is written twice in the dictionary display, so that the order of
    the entries plays no part in a lookup. *)
Lemma keys_NoDup : NoDup keys.
Proof.
  assert (H : forall l : list (string * string),
             (fix nodupb (l : list (string * string)) : bool :=
                match l with
                | [] => true
                | k :: r => (negb (existsb (key_eqb k) r) && nodupb r)%bool
                end) l = true -> NoDup l).
  { induction l as [|k r IH]; intros Hb; [constructor|].
    apply andb_true_iff in Hb. destruct Hb as [Hk Hr].
    constructor; [|apply IH; exact Hr].
    intros Hin. apply negb_true_iff in Hk.
    assert (existsb (key_eqb k) r = true).
    { apply existsb_exists. exists k. split; [exact Hin|].
      apply key_eqb_eq. reflexivity. }
    congruence. }
  apply H. vm_compute. reflexivity.
Qed.

(** every key of the registry is written in lower case *)
Lemma keys_lower :
  forallb (fun k => key_eqb (Py.lower (fst k), Py.lower (snd k)) k) keys = true.
Proof. vm_compute. reflexivity. Qed.

(** C2. [can_convert] is the membership test of the lower-cased pair among
    the keys of the registry: it answers [true] exactly for the pairs whose
    lower-cased form is registered, it answers [true] on every registered
    key, and the answer does not depend on the case of either extension. *)
Theorem can_convert_iff_registered :
  (forall src tgt,
      can_convert src tgt = true <-> In (Py.lower src, Py.lower tgt) keys)
  /\ (forall src tgt,
      can_convert src tgt = false <-> ~ In (Py.lower src, Py.lower tgt) keys)
  /\ forallb (fun k => can_convert (fst k) (snd k)) keys = true
  /\ (forall src tgt,
      can_convert (Py.upper src) (Py.upper tgt) = can_convert src tgt
      /\ can_convert (Py.lower src) (Py.lower tgt) = can_convert src tgt).
Proof.
  split; [|split; [|split]].
  - intros src tgt. unfold can_convert. apply contains_In.
  - intros src tgt. unfold can_convert.
    rewrite <- contains_In. destruct (contains _); split; intros; congruence.
  - vm_compute. reflexivity.
  - intros src tgt. unfold can_convert.
    now rewrite !lower_upper, !lower_idem.
Qed.

(** C10. The two spellings [jpg] and [jpeg] are separate keys and not every
    conversion has both: some pairs are accepted under one spelling and
    refused under the other. *)
Theorem jpg_jpeg_alias_asymmetric :
  can_convert "webp" "jpg" = true
  /\ can_convert "png" "jpeg" = true
  /\ can_convert "jpg" "ico" = true
  /\ can_convert "webp" "jpeg" = false
  /\ can_convert "jpeg" "ico" = false
  /\ can_convert "gif" "jpg" = false.
Proof. repeat split; reflexivity. Qed.

(** C1. A request whose lower-cased pair (extension of the source path,
    target) is not a key of the registry fails with the [ConversionError]
    whose message names the two formats; nothing else happens: no converter
    is entered and no file is touched. *)
Theorem convert_unsupported (w : World) (input_path : Path)
    (output_format : string) (kwargs : Kwargs) :
  let src := Py.lower (Py.drop 1 (suffix input_path)) in
  let tgt := Py.lower output_format in
  ~ In (src, tgt) keys ->
  convert w input_path output_format kwargs
  = ([], Raises (ConversionError
                   ("Конвертация " ++ Py.upper src ++ " → " ++ Py.upper tgt
                    ++ " не поддерживается"))).
Proof.
  intros src tgt Hnot. unfold convert. fold src tgt.
  destruct (contains (src, tgt)) eqn:Hc.
  - exfalso. apply Hnot. apply contains_In. exact Hc.
  - reflexivity.
Qed.

Lemma convert_unsupported_witness :
  convert offline_world (mkPath "uploads" "a.unsupportedext") "png"
    [("quality", Py.VInt 85)]
  = ([], Raises (ConversionError
                   "Конвертация UNSUPPORTEDEXT → PNG не поддерживается")).
Proof.
  apply (convert_unsupported offline_world
           (mkPath "uploads" "a.unsupportedext") "png").
  vm_compute. intuition discriminate.
Defined.

End Registry.

(* ================================================================== *)
(** * Parameters: validation and threading *)

Section Parameters.

Import FileConverter.

(** C5, as the claim states it, fails: the conversion core has no check of
    [quality].  With [quality=0] a PNG to JPEG conversion opens the file,
    calls the encoder with [quality=0] and returns its bytes. *)
Lemma core_accepts_quality_out_of_range :
  ~ (forall (w : World) (p : Path) (fmt : string) (q : Z),
        q < 1 \/ 100 < q ->
        exists e, convert w p fmt [("quality", Py.VInt q)] = ([], Raises e)).
Proof.
  intros H.
  destruct (H picture_world (mkPath "uploads" "a.png") "jpg" 0) as [e He];
    [lia|].
  vm_compute in He. discriminate He.
Qed.

(** C5, amended.  The range of [quality] is checked by the declaration of the
    query parameter of the [/convert] endpoint: a value outside [1,100] is
    refused before the body of [convert_file] runs, so no file is written
    and nothing is decoded or encoded.  The converter itself hands the value
    it receives to the encoder as it is, for the [jpeg] and [webp] targets. *)
Theorem quality_checked_by_endpoint (w : World) (req : Main.Request) (q : Z) :
  Main.quality req = Some q ->
  q < 1 \/ 100 < q ->
  Main.convert_file w req = ([], Main.ValidationError "quality")
  /\ (forall (p : Path) (v : Py.val) (img : Image),
         Image_open w p = Returns img ->
         trace (ImageConverter.convert w p "webp" Py.VNone Py.VNone v
                  (Py.VBool true))
         = [EvCall "ImageConverter.convert" p
              [("output_format", Py.VStr "webp"); ("width", Py.VNone);
               ("height", Py.VNone); ("quality", v);
               ("keep_aspect_ratio", Py.VBool true)];
            EvRead p; EvSave "WEBP" [("quality", v)]]
         /\ exists img',
             trace (ImageConverter.convert w p "jpeg" Py.VNone Py.VNone v
                      (Py.VBool true))
             = [EvCall "ImageConverter.convert" p
                  [("output_format", Py.VStr "jpeg"); ("width", Py.VNone);
                   ("height", Py.VNone); ("quality", v);
                   ("keep_aspect_ratio", Py.VBool true)];
                EvRead p; EvSave "JPEG" [("quality", v)]]
             /\ result (ImageConverter.convert w p "jpeg" Py.VNone Py.VNone v
                          (Py.VBool true))
                = match Image_save w img' "JPEG" [("quality", v)] with
                  | Returns b => Returns (b, "image/jpeg")
                  | Raises e =>
                      Raises (ConversionError
                                ("Ошибка конвертации изображения: "
                                 ++ str_exn e))
                  end).
Proof.
  intros Hq Hout. split.
  - unfold Main.convert_file. rewrite Hq.
    assert (Hb : (q <? 1) || (100 <? q) = true).
    { apply orb_true_iff. destruct Hout; [left | right]; now apply Z.ltb_lt. }
    now rewrite Hb.
  - intros p v img Hopen. split.
    + unfold trace.
      cbv -[Image_open Image_save ImageConverter.flatten mode mem].
      rewrite Hopen.
      destruct (Image_save w img _ _); reflexivity.
    + exists (if mem (mode img) ["RGBA"; "LA"; "P"]
              then ImageConverter.flatten img else img).
      unfold trace, result.
      cbv -[Image_open Image_save ImageConverter.flatten mode mem].
      rewrite Hopen.
      destruct (Image_save w _ _ _); split; reflexivity.
Qed.

Lemma quality_checked_by_endpoint_witness :
  Main.convert_file picture_world
    (Main.mkRequest "a.png" "png-bytes" "jpg" None None (Some 0))
  = ([], Main.ValidationError "quality").
Proof.
  apply (quality_checked_by_endpoint picture_world
           (Main.mkRequest "a.png" "png-bytes" "jpg" None None (Some 0)) 0);
    [reflexivity | lia].
Defined.

Lemma contains_lookup (key : string * string) :
  contains key = true ->
  exists c, lookup key CONVERSIONS = Some c /\ In (key, c) CONVERSIONS.
Proof.
  unfold contains, keys.
  induction CONVERSIONS as [|[k c] r IH]; simpl; [discriminate|].
  destruct (key_eqb key k) eqn:Hk; simpl.
  - intros _. exists c. apply key_eqb_eq in Hk. subst. auto.
  - intros H. destruct (IH H) as [c' [Hl Hin]]. exists c'. auto.
Qed.

(** the binding of the call of an entry *)
Lemma call_entry_bound (c : converter) (w : World) (p : Path) (kw : Kwargs) :
  has_key "p" kw = false -> call_entry c w p kw = c w p kw.
Proof. intros H. unfold call_entry. now rewrite H. Qed.

Lemma call_entry_collision (c : converter) (w : World) (p : Path)
    (kw : Kwargs) :
  has_key "p" kw = true ->
  call_entry c w p kw
  = ([], Raises (TypeError
                   "<lambda>() got multiple values for argument 'p'")).
Proof. intros H. unfold call_entry. now rewrite H. Qed.

(** keywords that [ImageConverter.convert] accepts do not include [p] *)
Lemma unexpected_no_p (kw : Kwargs) :
  ImageConverter.unexpected kw = None -> has_key "p" kw = false.
Proof.
  unfold ImageConverter.unexpected, has_key.
  induction kw as [|[k v] kw IH]; cbn [filter existsb fst]; [reflexivity|].
  destruct (mem k ImageConverter.parameters) eqn:Hk; cbn [negb].
  - intros H. rewrite (IH H), orb_false_r.
    apply String.eqb_neq. intros ->. vm_compute in Hk. discriminate Hk.
  - discriminate.
Qed.

Lemma convert_registered (w : World) (p : Path) (fmt : string) (kw : Kwargs) :
  In (Py.lower (Py.drop 1 (suffix p)), Py.lower fmt) keys ->
  exists c,
    In ((Py.lower (Py.drop 1 (suffix p)), Py.lower fmt), c) CONVERSIONS
    /\ forall kw, convert w p fmt kw = call_entry c w p kw.
Proof.
  intros Hin. apply contains_In in Hin.
  destruct (contains_lookup _ Hin) as [c [Hl Hc]].
  exists c. split; [exact Hc|].
  intros kw'. unfold convert. rewrite Hin, Hl. reflexivity.
Qed.

(** the three kinds of entries of the registry *)
Lemma image_entries :
  Forall (fun kc : (string * string) * converter =>
            mem (fst (fst kc)) ImageConverter.SUPPORTED_FORMATS = true ->
            forall w p kw,
              snd kc w p kw
              = ImageConverter.call w p
                  (if String.eqb (snd (fst kc)) "jpg" then "jpeg"
                   else snd (fst kc)) kw)
    CONVERSIONS.
Proof.
  each_entry.
Qed.

Lemma other_entries :
  Forall (fun kc : (string * string) * converter =>
            mem (fst (fst kc)) ImageConverter.SUPPORTED_FORMATS = false ->
            forall w p kw, snd kc w p kw = snd kc w p [])
    CONVERSIONS.
Proof.
  each_entry.
Qed.

Lemma audio_entries :
  Forall (fun kc : (string * string) * converter =>
            mem (fst (fst kc)) AudioConverter.SUPPORTED_FORMATS = true ->
            forall w p kw,
              snd kc w p kw
              = AudioConverter.convert w p (snd (fst kc)) (Py.VStr "192k"))
    CONVERSIONS.
Proof.
  each_entry.
Qed.

(** C6, as the claim states it, fails: [bitrate] plays no part in a PNG to
    JPEG conversion, yet supplying it makes the call fail with a
    [TypeError] instead of being ignored. *)
Lemma bitrate_not_ignored_by_image_entry :
  ~ (forall (w : World) (p : Path) (fmt : string) (kw : Kwargs) (v : Py.val),
        In (Py.lower (Py.drop 1 (suffix p)), Py.lower fmt) keys ->
        Py.lower fmt <> "mp3" ->
        result (convert w p fmt (kw ++ [("bitrate", v)])%list)
        = result (convert w p fmt kw)).
Proof.
  intros H.
  specialize (H picture_world (mkPath "uploads" "a.png") "jpg"
                [("quality", Py.VInt 85)] (Py.VStr "192k")).
  assert (Hin : In (Py.lower (Py.drop 1 (suffix (mkPath "uploads" "a.png"))),
                    Py.lower "jpg") keys)
    by (apply contains_In; reflexivity).
  specialize (H Hin).
  assert (Hne : Py.lower "jpg" <> "mp3") by (vm_compute; discriminate).
  specialize (H Hne). vm_compute in H. discriminate H.
Qed.

(** C6, amended.  For a registered pair the dispatcher calls the entry of
    the registry with all the keyword parameters it was given.  A keyword
    named [p] collides with the one positional parameter of the entry and
    is a [TypeError] at the call, for every entry.  Otherwise an image
    entry hands the keywords on to [ImageConverter.convert]: the supplied
    ones among width, height, quality and keep_aspect_ratio are received,
    the others take their defaults, and the first keyword outside these
    four is a [TypeError] before the converter is entered.  A data,
    document or audio entry hands on none of them: whatever is supplied
    is ignored and the conversion is the one made without parameters; an
    audio conversion is always made with the default bitrate [192k]. *)
Theorem parameters_threading (w : World) (p : Path) (fmt : string)
    (kw : Kwargs) :
  let src := Py.lower (Py.drop 1 (suffix p)) in
  let tgt := Py.lower fmt in
  In (src, tgt) keys ->
  (has_key "p" kw = true ->
   convert w p fmt kw
   = ([], Raises (TypeError
                    "<lambda>() got multiple values for argument 'p'")))
  /\ (mem src ImageConverter.SUPPORTED_FORMATS = true ->
      ImageConverter.unexpected kw = None ->
      convert w p fmt kw
      = ImageConverter.convert w p
          (if String.eqb tgt "jpg" then "jpeg" else tgt)
          (kw_get "width" kw Py.VNone) (kw_get "height" kw Py.VNone)
          (kw_get "quality" kw (Py.VInt 85))
          (kw_get "keep_aspect_ratio" kw (Py.VBool true)))
  /\ (mem src ImageConverter.SUPPORTED_FORMATS = true ->
      has_key "p" kw = false ->
      forall k, ImageConverter.unexpected kw = Some k ->
      exists msg, convert w p fmt kw = ([], Raises (TypeError msg)))
  /\ (mem src ImageConverter.SUPPORTED_FORMATS = false ->
      has_key "p" kw = false ->
      convert w p fmt kw = convert w p fmt [])
  /\ (mem src AudioConverter.SUPPORTED_FORMATS = true ->
      has_key "p" kw = false ->
      convert w p fmt kw
      = AudioConverter.convert w p tgt (Py.VStr "192k")).
Proof.
  intros src tgt Hin.
  destruct (convert_registered w p fmt kw Hin) as [c [Hc Hconv]].
  fold src tgt in Hc.
  pose proof (proj1 (Forall_forall _ _) image_entries _ Hc) as Himg.
  pose proof (proj1 (Forall_forall _ _) other_entries _ Hc) as Hoth.
  pose proof (proj1 (Forall_forall _ _) audio_entries _ Hc) as Haud.
  cbn [fst snd] in Himg, Hoth, Haud.
  split; [|split; [|split; [|split]]].
  - intros Hp. rewrite Hconv. now apply call_entry_collision.
  - intros Hs Hu.
    rewrite Hconv, (call_entry_bound _ _ _ _ (unexpected_no_p kw Hu)).
    rewrite (Himg Hs). unfold ImageConverter.call. rewrite Hu. reflexivity.
  - intros Hs Hp k Hu. rewrite Hconv, (call_entry_bound _ _ _ _ Hp).
    rewrite (Himg Hs). unfold ImageConverter.call. rewrite Hu.
    eexists. reflexivity.
  - intros Hs Hp. rewrite !Hconv.
    rewrite (call_entry_bound _ _ _ _ Hp), (call_entry_bound c w p [] eq_refl).
    apply (Hoth Hs).
  - intros Hs Hp. rewrite Hconv, (call_entry_bound _ _ _ _ Hp).
    apply (Haud Hs).
Qed.

Lemma parameters_threading_witness :
  convert picture_world (mkPath "uploads" "a.wav") "mp3"
    [("bitrate", Py.VStr "320k"); ("quality", Py.VInt 85)]
  = AudioConverter.convert picture_world (mkPath "uploads" "a.wav") "mp3"
      (Py.VStr "192k")
  /\ convert picture_world (mkPath "uploads" "a.wav") "mp3"
       [("p", Py.VStr "b.wav")]
     = ([], Raises (TypeError
                      "<lambda>() got multiple values for argument 'p'")).
Proof.
  split.
  - destruct (parameters_threading picture_world (mkPath "uploads" "a.wav")
                "mp3" [("bitrate", Py.VStr "320k"); ("quality", Py.VInt 85)])
      as [_ [_ [_ [_ H]]]].
    + vm_compute. repeat (first [left; reflexivity | right]).
    + apply H; reflexivity.
  - destruct (parameters_threading picture_world (mkPath "uploads" "a.wav")
                "mp3" [("p", Py.VStr "b.wav")]) as [H _].
    + vm_compute. repeat (first [left; reflexivity | right]).
    + apply H; reflexivity.
Defined.

End Parameters.

(* ================================================================== *)
(** * Optional capabilities *)

Section Capabilities.

(** the message raised for a missing capability is none of the messages
    the general handler of the same function builds *)
Lemma weasyprint_missing_distinct (prefix rest : string) :
  prefix = "Ошибка конвертации TXT→PDF: "
  \/ prefix = "Ошибка конвертации MD→PDF: " ->
  DocumentConverter.weasyprint_missing <> prefix ++ rest.
Proof.
  intros [-> | ->]; vm_compute; discriminate.
Qed.

Lemma pydub_missing_distinct (rest : string) :
  AudioConverter.pydub_missing <> "Ошибка конвертации аудио: " ++ rest
  /\ AudioConverter.pydub_missing <> "Неподдерживаемый формат: " ++ rest.
Proof.
  split; vm_compute; discriminate.
Qed.

(** C7, as the claim states it, fails: when the renderer is absent because
    its import raises something else than [ImportError] (the [OSError] of a
    native library that is missing), the conversion to PDF fails with the
    message of the general handler, which is not distinct from the
    message of any other failure of the conversion. *)
Lemma capability_absent_without_distinct_error :
  ~ (forall (w : World) (p : Path),
        weasyprint_installed w = false ->
        exists msg,
          result (DocumentConverter.txt_to_pdf w p)
          = Raises (ConversionError msg)
          /\ forall rest, msg <> "Ошибка конвертации TXT→PDF: " ++ rest).
Proof.
  intros H.
  destruct (H no_engines_world (mkPath "uploads" "a.txt") eq_refl)
    as [msg [Hres Hmsg]].
  vm_compute in Hres. inversion Hres as [Heq].
  apply (Hmsg missing_gobject). rewrite <- Heq. vm_compute. reflexivity.
Qed.

(** C7, amended.  When the import of the HTML-to-PDF renderer raises
    [ImportError], the text and the markdown conversions to PDF fail with
    the [ConversionError] that names WeasyPrint, after the import has been
    tried and before any file is read.  When pydub could not be imported,
    every audio conversion fails with the [ConversionError] that names
    pydub, before anything is read, and [get_info] returns a dictionary
    with an [error] entry instead of raising.  Both messages differ from
    every message of the general handlers.  When the capability is absent
    in another way, no distinct error is produced: an import of the
    renderer that raises another exception gives the message of the
    general handler of the conversion, and with pydub imported a decoder
    that fails gives the general message of the audio conversion, the
    conversion having been attempted, and the text of the exception under
    [error] in [get_info]. *)
Theorem capability_unavailable (w : World) (p : Path) :
  (forall reason,
      weasyprint_import w = Raises (ImportError reason) ->
      DocumentConverter.txt_to_pdf w p
      = ([EvCall "DocumentConverter.txt_to_pdf" p []; EvImport "weasyprint"],
         Raises (ConversionError
                   "WeasyPrint не установлен. Установите: pip install weasyprint"))
      /\ DocumentConverter.markdown_to_pdf w p
         = ([EvCall "DocumentConverter.markdown_to_pdf" p [];
             EvImport "weasyprint"],
            Raises (ConversionError
                      "WeasyPrint не установлен. Установите: pip install weasyprint")))
  /\ (AUDIO_SUPPORT w = false ->
      (forall (fmt : string) (bitrate : Py.val),
          AudioConverter.convert w p fmt bitrate
          = ([EvCall "AudioConverter.convert" p
                [("output_format", Py.VStr fmt); ("bitrate", bitrate)]],
             Raises (ConversionError
                       "pydub не установлен. Установите: pip install pydub")))
      /\ AudioConverter.get_info w p
         = ([], Returns [("error",
                          AudioConverter.IStr "pydub не установлен")]))
  /\ (forall rest : string,
         "WeasyPrint не установлен. Установите: pip install weasyprint"
         <> "Ошибка конвертации TXT→PDF: " ++ rest
         /\ "WeasyPrint не установлен. Установите: pip install weasyprint"
            <> "Ошибка конвертации MD→PDF: " ++ rest
         /\ "pydub не установлен. Установите: pip install pydub"
            <> "Ошибка конвертации аудио: " ++ rest
         /\ "pydub не установлен. Установите: pip install pydub"
            <> "Неподдерживаемый формат: " ++ rest)
  /\ (forall e,
         weasyprint_import w = Raises e ->
         (forall reason, e <> ImportError reason) ->
         DocumentConverter.txt_to_pdf w p
         = ([EvCall "DocumentConverter.txt_to_pdf" p [];
             EvImport "weasyprint"],
            Raises (ConversionError
                      ("Ошибка конвертации TXT→PDF: " ++ str_exn e)))
         /\ DocumentConverter.markdown_to_pdf w p
            = ([EvCall "DocumentConverter.markdown_to_pdf" p [];
                EvImport "weasyprint"],
               Raises (ConversionError
                         ("Ошибка конвертации MD→PDF: " ++ str_exn e))))
  /\ (AUDIO_SUPPORT w = true ->
      forall e,
        AudioSegment_from_file w p (Py.lower (Py.drop 1 (suffix p)))
        = Raises e ->
        (forall (fmt : string) (bitrate : Py.val),
            mem (Py.lower fmt) AudioConverter.SUPPORTED_FORMATS = true ->
            AudioConverter.convert w p fmt bitrate
            = ([EvCall "AudioConverter.convert" p
                  [("output_format", Py.VStr fmt); ("bitrate", bitrate)];
                EvRead p],
               Raises (ConversionError
                         ("Ошибка конвертации аудио: " ++ str_exn e))))
        /\ AudioConverter.get_info w p
           = ([EvRead p],
              Returns [("error", AudioConverter.IStr (str_exn e))])).
Proof.
  split; [|split; [|split; [|split]]].
  - intros reason Hw.
    unfold DocumentConverter.txt_to_pdf, DocumentConverter.markdown_to_pdf,
      DocumentConverter.import_weasyprint.
    rewrite Hw. split; reflexivity.
  - intros Ha. split.
    + intros fmt bitrate. unfold AudioConverter.convert. rewrite Ha.
      reflexivity.
    + unfold AudioConverter.get_info. rewrite Ha. reflexivity.
  - intros rest.
    pose proof (weasyprint_missing_distinct _ rest (or_introl eq_refl)) as H1.
    pose proof (weasyprint_missing_distinct _ rest (or_intror eq_refl)) as H2.
    pose proof (pydub_missing_distinct rest) as [H3 H4].
    repeat split; assumption.
  - intros e Hw He.
    unfold DocumentConverter.txt_to_pdf, DocumentConverter.markdown_to_pdf,
      DocumentConverter.import_weasyprint.
    rewrite Hw.
    destruct e; try (split; reflexivity).
    exfalso. now apply (He msg).
  - intros Ha e Hf. split.
    + intros fmt bitrate Hm. unfold AudioConverter.convert.
      rewrite Ha, Hm. cbv zeta. rewrite Hf. reflexivity.
    + unfold AudioConverter.get_info. rewrite Ha. cbv zeta.
      rewrite Hf. reflexivity.
Qed.

Lemma capability_unavailable_witness :
  DocumentConverter.txt_to_pdf offline_world (mkPath "uploads" "a.txt")
  = ([EvCall "DocumentConverter.txt_to_pdf" (mkPath "uploads" "a.txt") [];
      EvImport "weasyprint"],
     Raises (ConversionError
               "WeasyPrint не установлен. Установите: pip install weasyprint"))
  /\ AudioConverter.get_info offline_world (mkPath "uploads" "a.wav")
     = ([], Returns [("error", AudioConverter.IStr "pydub не установлен")])
  /\ DocumentConverter.txt_to_pdf no_engines_world (mkPath "uploads" "a.txt")
     = ([EvCall "DocumentConverter.txt_to_pdf" (mkPath "uploads" "a.txt") [];
         EvImport "weasyprint"],
        Raises (ConversionError
                  ("Ошибка конвертации TXT→PDF: " ++ missing_gobject)))
  /\ AudioConverter.get_info no_engines_world (mkPath "uploads" "a.wav")
     = ([EvRead (mkPath "uploads" "a.wav")],
        Returns [("error", AudioConverter.IStr missing_ffmpeg)]).
Proof.
  destruct (capability_unavailable offline_world (mkPath "uploads" "a.txt"))
    as [H1 _].
  destruct (capability_unavailable offline_world (mkPath "uploads" "a.wav"))
    as [_ [H2 _]].
  destruct (capability_unavailable no_engines_world (mkPath "uploads" "a.txt"))
    as [_ [_ [_ [H4 _]]]].
  destruct (capability_unavailable no_engines_world (mkPath "uploads" "a.wav"))
    as [_ [_ [_ [_ H5]]]].
  split; [|split; [|split]].
  - apply (H1 "No module named 'weasyprint'"). reflexivity.
  - apply H2. reflexivity.
  - apply (H4 (LibraryError missing_gobject)); [reflexivity | discriminate].
  - apply (H5 eq_refl (LibraryError missing_ffmpeg)). reflexivity.
Defined.

(** through the dispatcher: the three PDF entries and an audio entry *)
Lemma convert_capability_unavailable :
  result (FileConverter.convert offline_world (mkPath "uploads" "a.txt")
            "pdf" [])
  = Raises (ConversionError DocumentConverter.weasyprint_missing)
  /\ result (FileConverter.convert offline_world (mkPath "uploads" "a.md")
               "PDF" [])
     = Raises (ConversionError DocumentConverter.weasyprint_missing)
  /\ result (FileConverter.convert offline_world
               (mkPath "uploads" "a.markdown") "pdf" [])
     = Raises (ConversionError DocumentConverter.weasyprint_missing)
  /\ result (FileConverter.convert offline_world (mkPath "uploads" "a.wav")
               "mp3" [("bitrate", Py.VStr "320k")])
     = Raises (ConversionError AudioConverter.pydub_missing).
Proof. repeat split; reflexivity. Qed.

End Capabilities.

(* ================================================================== *)
(** * Flattening for JPEG *)

Section Flatten.

Import PIL.

Lemma blend_transparent (bg fg : Z) :
  0 <= bg <= 255 -> blend 0 bg fg = bg.
Proof.
  intros H. unfold blend. rewrite !Z.shiftr_div_pow2 by lia.
  change (2 ^ 8) with 256.
  Z.div_mod_to_equations. lia.
Qed.

Lemma blend_opaque (bg fg : Z) :
  0 <= fg <= 255 -> blend 255 bg fg = fg.
Proof.
  intros H. unfold blend. rewrite !Z.shiftr_div_pow2 by lia.
  change (2 ^ 8) with 256.
  Z.div_mod_to_equations. lia.
Qed.

(** the blend of two bytes is a byte between them *)
Lemma blend_range (a bg fg : Z) :
  0 <= a <= 255 -> 0 <= bg <= 255 -> 0 <= fg <= 255 ->
  0 <= blend a bg fg <= 255.
Proof.
  intros Ha Hb Hf. unfold blend. rewrite !Z.shiftr_div_pow2 by lia.
  change (2 ^ 8) with 256.
  assert (0 <= bg * (255 - a) + fg * a + 128 <= 255 * 255 + 128) by nia.
  Z.div_mod_to_equations. lia.
Qed.

Lemma paste_masked_white (px : list rgba) (bg : list rgb) :
  length bg = length px ->
  paste_masked bg (map (fun '(r, g, b, _) => (r, g, b)) px)
    (map (fun '(_, _, _, a) => a) px)
  = map (fun '(c, (r, g, b, a)) => blend_rgb a c (r, g, b)) (combine bg px).
Proof.
  revert bg. induction px as [|[[[r g] b] a] px IH]; intros [|c bg] Hlen;
    simpl in *; try reflexivity; try discriminate.
  f_equal. apply IH. lia.
Qed.

Lemma combine_repeat {A B} (c : A) (l : list B) :
  combine (repeat c (length l)) l = map (fun x => (c, x)) l.
Proof. induction l; simpl; congruence. Qed.

(** An RGBA image is composited over white: each band is the blend of the
    pixel over 255 with the alpha of the pixel as weight. *)
Lemma flatten_RGBA (sz : Z * Z) (px : list rgba) :
  Z.to_nat (fst sz * snd sz) = length px ->
  ImageConverter.flatten (mkImage sz (DataRGBA px))
  = mkImage sz
      (DataRGB (map (fun '(r, g, b, a) =>
                       (blend a 255 r, blend a 255 g, blend a 255 b)) px)).
Proof.
  intros Hlen. unfold ImageConverter.flatten, paste, new_RGB.
  cbn -[blend Z.mul Z.to_nat].
  rewrite Hlen. rewrite paste_masked_white; [|apply repeat_length].
  rewrite combine_repeat, map_map.
  apply f_equal, f_equal, map_ext. intros [[[r g] b] a]. reflexivity.
Qed.

(** A palette image is flattened as its RGBA conversion is. *)
Lemma flatten_P (sz : Z * Z) (pal : list rgba) (px : list Z) :
  ImageConverter.flatten (mkImage sz (DataP pal px))
  = ImageConverter.flatten
      (mkImage sz (DataRGBA (map (palette_entry pal) px))).
Proof. reflexivity. Qed.

Lemma paste_plain_LA (px : list (Z * Z)) (bg : list rgb) :
  length bg = length px ->
  paste_plain bg (map (fun '(l, _) => (l, l, l)) px)
  = map (fun '(l, _) => (l, l, l)) px.
Proof.
  revert bg. induction px as [|[l a] px IH]; intros [|c bg] Hlen;
    simpl in *; try reflexivity; try discriminate.
  f_equal. apply IH. lia.
Qed.

(** An LA image is pasted without a mask: each pixel becomes its grey
    value, whatever its alpha. *)
Lemma flatten_LA (sz : Z * Z) (px : list (Z * Z)) :
  Z.to_nat (fst sz * snd sz) = length px ->
  ImageConverter.flatten (mkImage sz (DataLA px))
  = mkImage sz (DataRGB (map (fun '(l, _) => (l, l, l)) px)).
Proof.
  intros Hlen. unfold ImageConverter.flatten, paste, new_RGB.
  cbn -[Z.mul Z.to_nat].
  rewrite Hlen. rewrite paste_plain_LA; [|apply repeat_length]. reflexivity.
Qed.

(** C4 at the failing input.  A fully transparent black pixel of an RGBA
    source reaches the JPEG encoder white, as compositing onto a white
    background requires; the same pixel of an LA source reaches it black:
    the white background is overwritten and the alpha is dropped. *)
Theorem jpeg_flatten_LA_drops_alpha :
  ImageConverter.flatten clear_pixel_RGBA
  = mkImage (1, 1) (DataRGB [(255, 255, 255)])
  /\ ImageConverter.flatten clear_pixel_LA
     = mkImage (1, 1) (DataRGB [(0, 0, 0)])
  /\ result (ImageConverter.convert (world_with clear_pixel_RGBA)
               (mkPath "uploads" "a.png") "jpeg" Py.VNone Py.VNone
               (Py.VInt 85) (Py.VBool true))
     = Returns ("JPEG RGB 255,255,255", "image/jpeg")
  /\ result (ImageConverter.convert (world_with clear_pixel_LA)
               (mkPath "uploads" "a.png") "jpeg" Py.VNone Py.VNone
               (Py.VInt 85) (Py.VBool true))
     = Returns ("JPEG RGB 0,0,0", "image/jpeg").
Proof. repeat split; reflexivity. Qed.

End Flatten.

(* ================================================================== *)
(** * JSON to XML and back *)

Section JsonXmlJson.

Import DataConverter RoundTrip.
Local Open Scope list_scope.

Lemma fold_append_child {A} (f : A -> element) (l : list A)
    (tag : string) (t : option string) (cs : list element) :
  fold_left (fun parent x => append_child parent (f x)) l (Element tag t cs)
  = Element tag t (cs ++ map f l).
Proof.
  revert cs. induction l as [|x l IH]; intros cs; simpl.
  - now rewrite app_nil_r.
  - rewrite IH, <- app_assoc. reflexivity.
Qed.

Lemma dict_to_xml_dict (kvs : list (string * json)) (tag : string) :
  dict_to_xml (JDict kvs) (Element tag None [])
  = Element tag None
      (map (fun kv => dict_to_xml (snd kv)
                        (Element (tag_of_key (fst kv)) None [])) kvs).
Proof.
  simpl. rewrite (fold_append_child
                    (fun kv => dict_to_xml (snd kv)
                                 (Element (tag_of_key (fst kv)) None []))).
  reflexivity.
Qed.

Lemma xml_to_dict_leaf (tag : string) (t : option string) :
  xml_to_dict (Element tag t []) = text_json t.
Proof. reflexivity. Qed.

Lemma fold_left_ext {A B} (f g : A -> B -> A) (l : list B) (a : A) :
  (forall a b, f a b = g a b) -> fold_left f l a = fold_left g l a.
Proof.
  intros H. revert a. induction l as [|b l IH]; intros a; simpl;
    [reflexivity | now rewrite H, IH].
Qed.

Lemma xml_to_dict_node (tag : string) (t : option string)
    (cs : list element) :
  xml_to_dict (Element tag t cs)
  = match fold_left (fun result child =>
                       store (tag_of child) (xml_to_dict child) result)
            cs [] with
    | [] => text_json t
    | r => JDict r
    end.
Proof.
  cbn [xml_to_dict].
  rewrite (fold_left_ext _
             (fun result child =>
                store (tag_of child) (xml_to_dict child) result)).
  - destruct (fold_left _ cs []); reflexivity.
  - intros a [ctag ctext [|c cs']]; reflexivity.
Qed.

Lemma dict_lookup_absent {V} (k : string) (d : list (string * V)) :
  ~ In k (map fst d) -> dict_lookup k d = None.
Proof.
  induction d as [|[k' v] d IH]; simpl; intros H; [reflexivity|].
  destruct (String.eqb_spec k k') as [->|Hne]; [exfalso; auto|].
  apply IH. auto.
Qed.

Lemma dict_set_absent {V} (k : string) (v : V) (d : list (string * V)) :
  ~ In k (map fst d) -> dict_set k v d = d ++ [(k, v)].
Proof.
  induction d as [|[k' v'] d IH]; simpl; intros H; [reflexivity|].
  destruct (String.eqb_spec k k') as [->|Hne]; [exfalso; auto|].
  rewrite IH; auto.
Qed.

Lemma store_fresh (val : element -> json) (cs : list element)
    (acc : list (string * json)) :
  NoDup (map fst acc ++ map tag_of cs) ->
  fold_left (fun result child => store (tag_of child) (val child) result)
    cs acc
  = acc ++ map (fun c => (tag_of c, val c)) cs.
Proof.
  revert acc. induction cs as [|c cs IH]; intros acc Hnd; simpl.
  - now rewrite app_nil_r.
  - assert (Hc : ~ In (tag_of c) (map fst acc)).
    { apply NoDup_remove_2 in Hnd. intros Hin. apply Hnd.
      apply in_or_app. now left. }
    unfold store at 2. rewrite (dict_lookup_absent _ _ Hc).
    rewrite (dict_set_absent _ _ _ Hc).
    rewrite IH.
    + now rewrite <- app_assoc.
    + rewrite map_app. simpl. rewrite <- app_assoc. exact Hnd.
Qed.

Lemma nodupb_NoDup (l : list string) : nodupb l = true -> NoDup l.
Proof.
  induction l as [|x l IH]; simpl; intros H; [constructor|].
  apply andb_true_iff in H. destruct H as [Hx Hl].
  constructor; [|auto].
  intros Hin. apply negb_true_iff in Hx.
  assert (mem x l = true).
  { unfold mem. apply existsb_exists. exists x. split; [exact Hin|].
    apply String.eqb_refl. }
  congruence.
Qed.

Lemma all2_reads_as (l l' : list element) :
  (fix all2 (l l' : list element) : bool :=
     match l, l' with
     | [], [] => true
     | c :: r, c' :: r' => (reads_as c c' && all2 r r')%bool
     | _, _ => false
     end) l l' = true
  <-> Forall2 (fun c c' => reads_as c c' = true) l l'.
Proof.
  revert l'. induction l as [|c l IH]; intros [|c' l']; split; intros H;
    try discriminate; try constructor; try (inversion H; fail).
  - apply andb_true_iff in H. tauto.
  - apply andb_true_iff in H. apply IH. tauto.
  - inversion H; subst. apply andb_true_iff. split; [assumption|].
    apply IH. assumption.
Qed.

Lemma reads_as_node (tag tag' : string) (t t' : option string)
    (c : element) (cs cs' : list element) :
  reads_as (Element tag t (c :: cs)) (Element tag' t' cs') = true
  <-> tag = tag' /\ Forall2 (fun c c' => reads_as c c' = true) (c :: cs) cs'.
Proof.
  cbn [reads_as]. rewrite andb_true_iff, String.eqb_eq.
  rewrite <- all2_reads_as. reflexivity.
Qed.

Lemma reads_as_leaf (tag : string) (t : option string) (e' : element) :
  reads_as (Element tag t []) e' = true ->
  e' = Element tag (norm_text t) [].
Proof.
  destruct e' as [tag' t' [|c' cs']]; cbn [reads_as]; intros H;
    apply andb_true_iff in H; destruct H as [Ht Ho]; [|discriminate].
  apply String.eqb_eq in Ht. subst tag'. f_equal.
  destruct (norm_text t) as [x|], t' as [y|]; simpl in Ho;
    try discriminate; [|reflexivity].
  apply String.eqb_eq in Ho. now subst.
Qed.

Lemma dict_to_xml_scalar (d : json) (tag : string) :
  match d with JDict _ | JList _ => False | _ => True end ->
  dict_to_xml d (Element tag None []) = Element tag (Some (py_str d)) [].
Proof. destruct d; simpl; intros H; try reflexivity; contradiction. Qed.

Lemma list_sum_In (f : (string * json) -> nat) (kv : string * json)
    (kvs : list (string * json)) :
  In kv kvs -> (f kv <= list_sum (map f kvs))%nat.
Proof.
  induction kvs as [|x kvs IH]; simpl; intros H; [contradiction|].
  destruct H as [->|H]; [lia|]. specialize (IH H). lia.
Qed.

Lemma children_read_back (kvs : list (string * json)) :
  forall cs' : list element,
    Forall2 (fun c c' => reads_as c c' = true)
      (map (fun kv => dict_to_xml (snd kv)
                        (Element (tag_of_key (fst kv)) None [])) kvs) cs' ->
    (forall kv e', In kv kvs ->
        reads_as (dict_to_xml (snd kv) (Element (tag_of_key (fst kv)) None []))
          e' = true ->
        tag_of e' = tag_of_key (fst kv)
        /\ xml_to_dict e' = read_back (snd kv)) ->
    map (fun c => (tag_of c, xml_to_dict c)) cs'
    = map (fun kv => (tag_of_key (fst kv), read_back (snd kv))) kvs.
Proof.
  induction kvs as [|x kvs IHk]; intros cs' Hall Hsub;
    inversion Hall; subst; [reflexivity|].
  cbn [map]. f_equal.
  - destruct (Hsub x y) as [Ht Hv]; [now left | assumption |].
    now rewrite Ht, Hv.
  - apply IHk; [assumption|]. intros kv e' Hin. apply Hsub. now right.
Qed.

(** what is read back from the element made of [d] *)
Lemma xml_to_dict_read_back (n : nat) :
  forall (d : json) (tag : string) (e' : element),
    (json_size d <= n)%nat ->
    scalar_tree d = true ->
    reads_as (dict_to_xml d (Element tag None [])) e' = true ->
    tag_of e' = tag /\ xml_to_dict e' = read_back d.
Proof.
  induction n as [|n IH]; intros d tag e' Hsize Hplain Hread.
  { destruct d; simpl in Hsize; lia. }
  destruct d as [| b | z | r | s | l | kvs].
  1-5: rewrite dict_to_xml_scalar in Hread by exact I;
       apply reads_as_leaf in Hread; subst e'; split; reflexivity.
  - discriminate Hplain.
  - rewrite dict_to_xml_dict in Hread.
    cbn [scalar_tree] in Hplain. apply andb_true_iff in Hplain.
    destruct Hplain as [Hnd Hsub].
    apply nodupb_NoDup in Hnd.
    rewrite forallb_forall in Hsub.
    assert (Hcs : forall cs',
               Forall2 (fun c c' => reads_as c c' = true)
                 (map (fun kv => dict_to_xml (snd kv)
                                   (Element (tag_of_key (fst kv)) None []))
                    kvs) cs' ->
               map (fun c => (tag_of c, xml_to_dict c)) cs'
               = map (fun kv => (tag_of_key (fst kv), read_back (snd kv)))
                   kvs).
    { intros cs' Hall. apply children_read_back; [exact Hall|].
      intros kv e0 Hin Hr. apply IH; [|apply Hsub; exact Hin | exact Hr].
      cbn [json_size] in Hsize.
      pose proof (list_sum_In (fun kv => json_size (snd kv)) kv kvs Hin).
      lia. }
    destruct kvs as [|kv kvs].
    + apply reads_as_leaf in Hread. subst e'. split; reflexivity.
    + destruct e' as [tag' t' cs'].
      cbn [map] in Hread. apply reads_as_node in Hread.
      destruct Hread as [<- Hall]. split; [reflexivity|].
      specialize (Hcs cs' Hall).
      rewrite xml_to_dict_node.
      rewrite (store_fresh xml_to_dict cs' []).
      * cbn [app]. rewrite Hcs. reflexivity.
      * cbn [map app].
        replace (map tag_of cs')
          with (map fst (map (fun c => (tag_of c, xml_to_dict c)) cs'))
          by (rewrite map_map; reflexivity).
        rewrite Hcs, map_map. exact Hnd.
Qed.

Lemma strings_only_read_back (n : nat) :
  forall d : json,
    (json_size d <= n)%nat -> strings_only d = true -> read_back d = d.
Proof.
  induction n as [|n IH]; intros d Hsize Hs.
  { destruct d; simpl in Hsize; lia. }
  destruct d as [| b | z | r | s | l | kvs]; try discriminate Hs.
  - destruct s; [discriminate Hs | reflexivity].
  - destruct kvs as [|kv kvs]; [discriminate Hs|].
    cbn [strings_only] in Hs. rewrite forallb_forall in Hs.
    cbn [read_back]. f_equal.
    rewrite <- (map_id (kv :: kvs)) at 2.
    apply map_ext_in. intros x Hx.
    specialize (Hs x Hx). apply andb_true_iff in Hs. destruct Hs as [Hk Hv].
    apply String.eqb_eq in Hk. rewrite Hk, IH; [now destruct x | | exact Hv].
    cbn [json_size] in Hsize.
    pose proof (list_sum_In (fun kv => json_size (snd kv)) x (kv :: kvs) Hx).
    lia.
Qed.

(** C9, as the claim states it, fails: the number [1] under the key [a]
    comes back as the string ["1"], so the pair [(a, 1)] of the original is
    not among the pairs of the result. *)
Lemma json_xml_json_number_comes_back_as_string :
  ~ (forall (w : World) (p p' : Path) (text xml : string)
            (obj : list (string * json)) (root' : element),
        read_text w p = Returns text ->
        json_loads w text = Returns (JDict obj) ->
        scalar_tree (JDict obj) = true ->
        xml_pretty w (json_to_xml_tree (JDict obj) "data") = Returns xml ->
        read_text w p' = Returns xml ->
        ET_fromstring w xml = Returns root' ->
        reads_as (json_to_xml_tree (JDict obj) "data") root' = true ->
        exists data,
          xml_to_json_data root' = JDict [("data", JDict data)]
          /\ forall k v, In (k, v) obj -> In (k, v) data).
Proof.
  intros H.
  destruct (H data_world (mkPath "uploads" "a.json")
              (mkPath "outputs" "a.xml") a_json a_xml
              [("a", JInt 1)] a_xml_tree)
    as [data [Hres Hin]]; try reflexivity.
  vm_compute in Hres. inversion Hres; subst data.
  destruct (Hin "a" (JInt 1) (or_introl eq_refl)) as [Heq|[]].
  discriminate Heq.
Qed.

(** C9, amended.  For a JSON object made of objects with scalars at the
    leaves, whose keys give distinct tags once their spaces are replaced by
    underscores, and for which the XML library reads back the tree it
    wrote, JSON to XML to JSON returns the object with the one key [data]
    whose value is the original with the spaces of the keys replaced by
    underscores, every scalar replaced by its text ([None] and the empty
    string by [null]) and every empty object by [null].  When no key has a
    space and every leaf is a non-empty string, that value is the original
    object. *)
Theorem json_xml_json_read_back (w : World) (p p' : Path)
    (text xml : string) (obj : list (string * json)) (root' : element) :
  read_text w p = Returns text ->
  json_loads w text = Returns (JDict obj) ->
  scalar_tree (JDict obj) = true ->
  xml_pretty w (json_to_xml_tree (JDict obj) "data") = Returns xml ->
  read_text w p' = Returns xml ->
  ET_fromstring w xml = Returns root' ->
  reads_as (json_to_xml_tree (JDict obj) "data") root' = true ->
  result (json_to_xml w p "data") = Returns (xml, "application/xml")
  /\ result (xml_to_json w p' 2)
     = Returns (json_dumps w (JDict [("data", read_back (JDict obj))]) 2,
                "application/json")
  /\ (strings_only (JDict obj) = true -> read_back (JDict obj) = JDict obj).
Proof.
  intros Hr Hj Hplain Hx Hr' Hp Hread. split; [|split].
  - unfold json_to_xml, json_load, result, try_except, bind, lift, emit.
    cbn -[json_to_xml_tree]. rewrite Hr.
    cbn -[json_to_xml_tree]. rewrite Hj.
    cbn -[json_to_xml_tree]. rewrite Hx. reflexivity.
  - unfold json_to_xml_tree in Hread.
    destruct (xml_to_dict_read_back _ (JDict obj) "data" root'
                (le_n _) Hplain Hread) as [Htag Hval].
    unfold xml_to_json, ET_parse, result, try_except, bind, lift, emit.
    cbn -[xml_to_json_data]. rewrite Hr'.
    cbn -[xml_to_json_data]. rewrite Hp.
    cbn -[xml_to_json_data xml_to_dict].
    unfold xml_to_json_data. rewrite Htag, Hval. reflexivity.
  - apply (strings_only_read_back _ _ (le_n _)).
Qed.

Lemma json_xml_json_read_back_witness :
  result (xml_to_json data_world (mkPath "outputs" "a.xml") 2)
  = Returns (json_dumps data_world
               (JDict [("data", read_back (JDict [("a", JInt 1)]))]) 2,
             "application/json").
Proof.
  apply (json_xml_json_read_back data_world (mkPath "uploads" "a.json")
           (mkPath "outputs" "a.xml") a_json a_xml [("a", JInt 1)]
           a_xml_tree); reflexivity.
Defined.

End JsonXmlJson.

(* ================================================================== *)
(** * Resizing *)

Section Resize.

Import Float ImageConverter ResizeSpec.
Local Open Scope Q_scope.

Lemma pow2_pos (e : Z) : 0 < pow2 e.
Proof. apply Qpower_0_lt. reflexivity. Qed.

Lemma pow2_add (a b : Z) : pow2 (a + b) == pow2 a * pow2 b.
Proof. apply Qpower_plus. discriminate. Qed.

Lemma pow2_Z (e : Z) : (0 <= e)%Z -> pow2 e == inject_Z (2 ^ e).
Proof. intros H. unfold pow2. now rewrite Zpower_Qpower. Qed.

Lemma pow2_opp (e : Z) : pow2 (- e) * pow2 e == 1.
Proof.
  rewrite <- pow2_add. replace (- e + e)%Z with 0%Z by lia. reflexivity.
Qed.

Lemma pow2_succ (e : Z) : pow2 (e + 1) == 2 * pow2 e.
Proof. rewrite pow2_add. change (pow2 1) with 2. ring. Qed.

Lemma pow2_pred (e : Z) : 2 * pow2 (e - 1) == pow2 e.
Proof.
  rewrite <- pow2_succ. replace (e - 1 + 1)%Z with e by lia. reflexivity.
Qed.

Lemma Qdiv_mult_inv (x d : Q) : 0 < d -> x / d * d == x.
Proof. intros H. field. lra. Qed.

(** cross multiplication *)
Lemma Qlt_cross (x y b : Q) : 0 < b -> x * b < y * b -> x < y.
Proof. intros Hb H. nra. Qed.

Lemma Qle_cross (x y b : Q) : 0 < b -> x * b <= y * b -> x <= y.
Proof. intros Hb H. nra. Qed.

Lemma ilog2_spec (x : Q) :
  0 < x -> pow2 (ilog2 x) <= x /\ x < pow2 (ilog2 x + 1).
Proof.
  intros Hx. unfold ilog2.
  destruct x as [n d]. 
  assert (Hn : (0 < n)%Z) by (unfold Qlt in Hx; simpl in Hx; lia).
  cbn [Qnum Qden].
  set (ln := Z.log2 n). set (ld := Z.log2 (Z.pos d)).
  destruct (Z.log2_spec n Hn) as [Hn1 Hn2]. fold ln in Hn1, Hn2.
  destruct (Z.log2_spec (Z.pos d) eq_refl) as [Hd1 Hd2]. fold ld in Hd1, Hd2.
  assert (Hln : (0 <= ln)%Z) by apply Z.log2_nonneg.
  assert (Hld : (0 <= ld)%Z) by apply Z.log2_nonneg.
  set (A := pow2 ln). set (B := pow2 ld).
  assert (HA : A == inject_Z (2 ^ ln)) by (apply pow2_Z; exact Hln).
  assert (HB : B == inject_Z (2 ^ ld)) by (apply pow2_Z; exact Hld).
  assert (HAp : 0 < A) by apply pow2_pos.
  assert (HBp : 0 < B) by apply pow2_pos.
  set (N := inject_Z n). set (D := inject_Z (Z.pos d)).
  assert (HN1 : A <= N) by (rewrite HA; unfold N; rewrite <- Zle_Qle; exact Hn1).
  assert (HN2 : N < 2 * A).
  { rewrite HA. unfold N. change 2 with (inject_Z 2).
    rewrite <- inject_Z_mult, <- Zlt_Qlt.
    replace (Z.succ ln) with (ln + 1)%Z in Hn2 by lia.
    rewrite Z.pow_add_r in Hn2 by lia. lia. }
  assert (HD1 : B <= D) by (rewrite HB; unfold D; rewrite <- Zle_Qle; exact Hd1).
  assert (HD2 : D < 2 * B).
  { rewrite HB. unfold D. change 2 with (inject_Z 2).
    rewrite <- inject_Z_mult, <- Zlt_Qlt.
    replace (Z.succ ld) with (ld + 1)%Z in Hd2 by lia.
    rewrite Z.pow_add_r in Hd2 by lia. lia. }
  assert (Hx' : (n # d) * D == N).
  { unfold N, D. rewrite (Qmake_Qdiv n d). field.
    intros H. discriminate H. }
  set (x := n # d) in *.
  assert (Hk : pow2 (ln - ld) * B == A).
  { unfold A, B. replace (ln - ld)%Z with (ln + - ld)%Z by lia.
    rewrite pow2_add, <- Qmult_assoc, pow2_opp. ring. }
  set (K := pow2 (ln - ld)) in *.
  assert (HKp : 0 < K) by apply pow2_pos.
  destruct (Qle_bool K x) eqn:Ht.
  - apply Qle_bool_iff in Ht. split; [exact Ht|].
    rewrite pow2_succ. fold K.
    apply (Qlt_cross _ _ (B * D)); nra.
  - assert (Hlt : x < K).
    { apply Qnot_le_lt. intros H. apply Qle_bool_iff in H. congruence. }
    split.
    + apply (Qle_cross _ _ 2); [lra|].
      rewrite (Qmult_comm _ 2), pow2_pred. fold K.
      apply (Qle_cross _ _ (B * D)); nra.
    + replace (ln - ld - 1 + 1)%Z with (ln - ld)%Z by lia. exact Hlt.
Qed.

Lemma round_half_even_spec (s : Q) :
  s - (1 # 2) <= inject_Z (round_half_even s) <= s + (1 # 2).
Proof.
  unfold round_half_even.
  pose proof (Qfloor_le s) as Hf1. pose proof (Qlt_floor s) as Hf2.
  rewrite inject_Z_plus in Hf2. change (inject_Z 1) with 1 in Hf2.
  set (f := Qfloor s) in *.
  destruct (Qcompare_spec (s - inject_Z f) (1 # 2)) as [He|Hl|Hg].
  - destruct (Z.even f).
    + lra.
    + rewrite inject_Z_plus. change (inject_Z 1) with 1. lra.
  - lra.
  - rewrite inject_Z_plus. change (inject_Z 1) with 1. lra.
Qed.

Lemma pow2_52 : pow2 52 == 4503599627370496.
Proof. reflexivity. Qed.

(** the relative error of rounding in the normal range *)
Lemma rnd_pos_rel (x : Q) :
  pow2 (-1022) <= x ->
  x * (1 - u) <= rnd_pos x <= x * (1 + u).
Proof.
  intros Hx.
  assert (Hx0 : 0 < x) by (pose proof (pow2_pos (-1022)); lra).
  destruct (ilog2_spec x Hx0) as [Hk1 Hk2].
  assert (Hk : (-1022 <= ilog2 x)%Z).
  { destruct (Z_le_gt_dec (-1022) (ilog2 x)) as [H|H]; [exact H|exfalso].
    assert (pow2 (ilog2 x + 1) <= pow2 (-1022)).
    { apply Qpower_le_compat_l; [lia | lra]. }
    lra. }
  unfold rnd_pos, ulp_exp.
  rewrite Z.max_l by lia.
  set (e := (ilog2 x - 52)%Z).
  assert (He : pow2 (ilog2 x) == pow2 e * pow2 52).
  { rewrite <- pow2_add. unfold e.
    replace (ilog2 x - 52 + 52)%Z with (ilog2 x) by lia. reflexivity. }
  rewrite pow2_52 in He.
  pose proof (pow2_pos e) as Hep.
  set (E := pow2 e) in *.
  pose proof (round_half_even_spec (x / E)) as [Hm1 Hm2].
  set (m := inject_Z (round_half_even (x / E))) in *.
  assert (Hs : x / E * E == x) by (apply Qdiv_mult_inv; exact Hep).
  set (s := x / E) in *.
  unfold u. split; nra.
Qed.

Lemma rnd_normal (x : Q) :
  (1 # 1152921504606846976) <= x <= 1152921504606846976 ->
  rnd x = Fin (rnd_pos x) /\ x * (1 - u) <= rnd_pos x <= x * (1 + u).
Proof.
  intros [Hlo Hhi].
  assert (H1 : pow2 (-1022) <= 1 # 1152921504606846976)
    by (vm_compute; discriminate).
  assert (H2 : 2 * 1152921504606846976 <= pow2 1023)
    by (vm_compute; discriminate).
  assert (H3 : pow2 1024 == 2 * pow2 1023) by (apply (pow2_succ 1023)).
  assert (Hrel : x * (1 - u) <= rnd_pos x <= x * (1 + u))
    by (apply rnd_pos_rel; lra).
  split; [|exact Hrel].
  unfold rnd.
  destruct (Qcompare_spec x 0) as [H|H|H]; try lra.
  destruct (Qle_bool (pow2 1024) (rnd_pos x)) eqn:Hb; [|reflexivity].
  apply Qle_bool_iff in Hb. exfalso. unfold u in Hrel.
  set (P := pow2 1023) in *. set (Y := rnd_pos x) in *.
  lra.
Qed.

Lemma inj_lt (a b : Z) : (a < b)%Z -> inject_Z a < inject_Z b.
Proof. now rewrite <- Zlt_Qlt. Qed.

Lemma inj_le (a b : Z) : (a <= b)%Z -> inject_Z a <= inject_Z b.
Proof. now rewrite <- Zle_Qle. Qed.

Lemma truncate_nonneg (y : Q) : 0 <= y -> truncate y = Qfloor y.
Proof.
  intros H. unfold truncate.
  apply Qle_bool_iff in H. now rewrite H.
Qed.

(** [y] lies strictly within [1 / D] of [N / D]: its integer part is that
    of [N / D], or one less when [D] divides [N] *)
Lemma floor_close (N D : Z) (y : Q) :
  (0 < D)%Z ->
  inject_Z N - 1 < y * inject_Z D -> y * inject_Z D < inject_Z N + 1 ->
  Qfloor y = (N / D)%Z
  \/ ((N mod D)%Z = 0%Z /\ Qfloor y = (N / D - 1)%Z).
Proof.
  intros HD Hlo Hhi.
  pose proof (Z.div_mod N D ltac:(lia)) as Hdm.
  pose proof (Z.mod_pos_bound N D HD) as Hr.
  set (f := (N / D)%Z) in *. set (r := (N mod D)%Z) in *.
  assert (HN : inject_Z N == inject_Z D * inject_Z f + inject_Z r).
  { rewrite Hdm at 1. rewrite inject_Z_plus, inject_Z_mult. reflexivity. }
  assert (HDq : 0 < inject_Z D) by (apply (inj_lt 0 D); exact HD).
  assert (Hr0 : 0 <= inject_Z r) by (apply (inj_le 0 r); lia).
  assert (HrD : inject_Z r + 1 <= inject_Z D).
  { change 1 with (inject_Z 1). rewrite <- inject_Z_plus. apply inj_le. lia. }
  assert (Hup : y < inject_Z (f + 1)).
  { rewrite inject_Z_plus. change (inject_Z 1) with 1.
    apply (Qlt_cross _ _ (inject_Z D)); [exact HDq|]. nra. }
  assert (Hfl : (Qfloor y < f + 1)%Z).
  { rewrite Zlt_Qlt. eapply Qle_lt_trans; [apply Qfloor_le | exact Hup]. }
  destruct (Z.eq_dec r 0) as [Hz|Hnz].
  - assert (Hlow : inject_Z (f - 1) <= y).
    { assert (Heq : inject_Z (f - 1) == inject_Z f - 1)
        by (unfold Qeq; simpl; lia).
      rewrite Heq.
      apply (Qle_cross _ _ (inject_Z D)); [exact HDq|].
      rewrite Hz in HN. change (inject_Z 0) with 0 in HN.
      assert (1 <= inject_Z D) by (apply (inj_le 1 D); lia).
      nra. }
    apply Qfloor_resp_le in Hlow. rewrite Qfloor_Z in Hlow.
    destruct (Z.eq_dec (Qfloor y) f) as [He|Hne]; [left; exact He|].
    right. split; [exact Hz | lia].
  - left.
    assert (Hr1 : 1 <= inject_Z r) by (apply (inj_le 1 r); lia).
    assert (Hlow : inject_Z f <= y).
    { apply (Qle_cross _ _ (inject_Z D)); [exact HDq|]. nra. }
    apply Qfloor_resp_le in Hlow. rewrite Qfloor_Z in Hlow. lia.
Qed.

Lemma truediv_spec (a b : Z) :
  (0 < a < 33554432)%Z -> (0 < b < 33554432)%Z ->
  exists r,
    truediv a b = Returns (Fin r)
    /\ inject_Z a * (1 - u) <= r * inject_Z b <= inject_Z a * (1 + u)
    /\ (1 # 67108864) <= r <= 67108864.
Proof.
  intros Ha Hb.
  unfold truediv. rewrite (proj2 (Z.eqb_neq b 0)) by lia.
  unfold quotient.
  assert (HA1 : 1 <= inject_Z a) by (apply (inj_le 1 a); lia).
  assert (HA2 : inject_Z a <= 33554432) by (apply (inj_le a 33554432); lia).
  assert (HB1 : 1 <= inject_Z b) by (apply (inj_le 1 b); lia).
  assert (HB2 : inject_Z b <= 33554432) by (apply (inj_le b 33554432); lia).
  assert (Hq : inject_Z a / inject_Z b * inject_Z b == inject_Z a)
    by (apply Qdiv_mult_inv; lra).
  set (A := inject_Z a) in *. set (B := inject_Z b) in *.
  set (q := A / B) in *.
  assert (Hq1 : (1 # 33554432) <= q).
  { apply (Qle_cross _ _ B); [lra|]. nra. }
  assert (Hq2 : q <= 33554432).
  { apply (Qle_cross _ _ B); [lra|]. nra. }
  destruct (rnd_normal q) as [Hr [Hr1 Hr2]]; [lra|].
  rewrite Hr. exists (rnd_pos q). split; [reflexivity|].
  unfold u in *. set (r := rnd_pos q) in *.
  repeat split; nra.
Qed.

Lemma int_mul_spec (n : Z) (ratio : Q) :
  (0 < n < 33554432)%Z ->
  (1 # 67108864) <= ratio <= 67108864 ->
  exists y,
    int_mul n (Fin ratio) = Returns (Fin y)
    /\ inject_Z n * ratio * ((1 - u) * (1 - u)) <= y
    /\ y <= inject_Z n * ratio * ((1 + u) * (1 + u)).
Proof.
  intros Hn Hr.
  assert (HN1 : 1 <= inject_Z n) by (apply (inj_le 1 n); lia).
  assert (HN2 : inject_Z n <= 33554432) by (apply (inj_le n 33554432); lia).
  unfold int_mul, of_int.
  destruct (rnd_normal (inject_Z n)) as [Hn' [Hn1 Hn2]]; [lra|].
  rewrite Hn'. unfold mul.
  set (N := inject_Z n) in *. set (n' := rnd_pos N) in *.
  assert (Hp : (1 # 1152921504606846976) <= n' * ratio <= 1152921504606846976).
  { unfold u in *. split; nra. }
  destruct (rnd_normal (n' * ratio) Hp) as [Hy [Hy1 Hy2]].
  rewrite Hy. exists (rnd_pos (n' * ratio)). split; [reflexivity|].
  set (y := rnd_pos (n' * ratio)) in *.
  assert (Hu1 : 0 < 1 - u) by (unfold u; lra).
  assert (Hu2 : 0 < 1 + u) by (unfold u; lra).
  assert (Hr0 : 0 < ratio) by lra.
  split.
  - apply Qle_trans with (n' * ratio * (1 - u)); [|exact Hy1].
    assert (N * (1 - u) * ratio <= n' * ratio)
      by (apply Qmult_le_compat_r; lra).
    assert (N * (1 - u) * ratio * (1 - u) <= n' * ratio * (1 - u))
      by (apply Qmult_le_compat_r; lra).
    lra.
  - apply Qle_trans with (n' * ratio * (1 + u)); [exact Hy2|].
    assert (n' * ratio <= N * (1 + u) * ratio)
      by (apply Qmult_le_compat_r; lra).
    assert (n' * ratio * (1 + u) <= N * (1 + u) * ratio * (1 + u))
      by (apply Qmult_le_compat_r; lra).
    lra.
Qed.

(** one scaled dimension: [int(n * ratio)] where [n * ratio] is, up to one
    rounding, the fraction [N / D] *)
Lemma scale_dim (n : Z) (ratio : Q) (N D : Z) :
  (0 < n < 33554432)%Z -> (0 < D < 33554432)%Z ->
  (0 < N < 1125899906842624)%Z ->
  (1 # 67108864) <= ratio <= 67108864 ->
  inject_Z N * (1 - u) <= inject_Z n * ratio * inject_Z D ->
  inject_Z n * ratio * inject_Z D <= inject_Z N * (1 + u) ->
  exists p k,
    int_mul n (Fin ratio) = Returns p /\ to_int p = Returns k
    /\ nearly k N D.
Proof.
  intros Hn HD HN Hr Hlo Hhi.
  destruct (int_mul_spec n ratio Hn Hr) as [y [Hy [Hy1 Hy2]]].
  exists (Fin y). rewrite Hy. cbn [to_int].
  assert (HD1 : 1 <= inject_Z D) by (apply (inj_le 1 D); lia).
  assert (HNq1 : 1 <= inject_Z N) by (apply (inj_le 1 N); lia).
  assert (HNq2 : inject_Z N <= 1125899906842624)
    by (apply (inj_le N 1125899906842624); lia).
  assert (Hn1 : 1 <= inject_Z n) by (apply (inj_le 1 n); lia).
  set (T := inject_Z n * ratio) in *.
  assert (HT : 0 < T) by (unfold T; nra).
  assert (Hy0 : 0 <= y) by (unfold u in Hy1; nra).
  exists (Qfloor y). rewrite (truncate_nonneg y Hy0).
  split; [reflexivity|]. split; [reflexivity|].
  assert (H1 : T * ((1 - u) * (1 - u)) * inject_Z D <= y * inject_Z D)
    by (apply Qmult_le_compat_r; lra).
  assert (H2 : y * inject_Z D <= T * ((1 + u) * (1 + u)) * inject_Z D)
    by (apply Qmult_le_compat_r; lra).
  set (TD := T * inject_Z D) in *.
  assert (H1' : TD * ((1 - u) * (1 - u)) <= y * inject_Z D)
    by (unfold TD; lra).
  assert (H2' : y * inject_Z D <= TD * ((1 + u) * (1 + u)))
    by (unfold TD; lra).
  unfold u in *.
  apply floor_close; [lia | lra | lra].
Qed.

Lemma truthy_pos (z : Z) : (0 < z)%Z -> Py.truthy (Py.VInt z) = true.
Proof. intros H. simpl. now rewrite (proj2 (Z.eqb_neq z 0)) by lia. Qed.

Lemma nearly_bounds (k N D B : Z) :
  (0 < D)%Z -> (0 < N)%Z -> (N <= B * D)%Z -> nearly k N D ->
  (0 <= k <= B)%Z.
Proof.
  intros HD HN HB Hk.
  assert (H1 : (N / D <= B)%Z).
  { apply Z.div_le_upper_bound; lia. }
  assert (H2 : (0 <= N / D)%Z) by (apply Z.div_pos; lia).
  destruct Hk as [->|[Hm ->]]; [lia|].
  split; [|lia].
  assert (N / D <> 0)%Z; [|lia].
  intros H0. pose proof (Z.div_mod N D ltac:(lia)) as Hdm.
  rewrite H0, Hm in Hdm. lia.
Qed.

(** the ratio chosen by [min] is, up to one rounding, the smaller of the
    two exact ratios *)
Lemma min_ratio (ow oh w h : Z) (r1 r2 : Q) :
  (0 < ow < 33554432)%Z -> (0 < oh < 33554432)%Z ->
  (0 < w < 33554432)%Z -> (0 < h < 33554432)%Z ->
  inject_Z w * (1 - u) <= r1 * inject_Z ow <= inject_Z w * (1 + u) ->
  inject_Z h * (1 - u) <= r2 * inject_Z oh <= inject_Z h * (1 + u) ->
  forall r, (r = r1 /\ r1 <= r2) \/ (r = r2 /\ r2 <= r1) ->
  let N := Z.min (w * oh) (h * ow) in
  inject_Z N * (1 - u) <= inject_Z ow * r * inject_Z oh
  /\ inject_Z ow * r * inject_Z oh <= inject_Z N * (1 + u).
Proof.
  intros How Hoh Hw Hh [B1 B1'] [B2 B2'] r Hr N.
  assert (HOW : 1 <= inject_Z ow) by (apply (inj_le 1 ow); lia).
  assert (HOH : 1 <= inject_Z oh) by (apply (inj_le 1 oh); lia).
  assert (HW : 1 <= inject_Z w) by (apply (inj_le 1 w); lia).
  assert (HH : 1 <= inject_Z h) by (apply (inj_le 1 h); lia).
  assert (Hu1 : 0 < 1 - u) by (unfold u; lra).
  assert (Hu2 : 0 < 1 + u) by (unfold u; lra).
  assert (HN1 : inject_Z N <= inject_Z w * inject_Z oh).
  { rewrite <- inject_Z_mult. apply inj_le. unfold N. lia. }
  assert (HN2 : inject_Z N <= inject_Z h * inject_Z ow).
  { rewrite <- inject_Z_mult. apply inj_le. unfold N. lia. }
  assert (HN3 : inject_Z N == inject_Z w * inject_Z oh
                \/ inject_Z N == inject_Z h * inject_Z ow).
  { unfold N. destruct (Z.min_spec (w * oh) (h * ow)) as [[_ ->]|[_ ->]];
      rewrite inject_Z_mult; [left | right]; reflexivity. }
  set (NQ := inject_Z N) in *.
  set (OW := inject_Z ow) in *. set (OH := inject_Z oh) in *.
  set (W := inject_Z w) in *. set (H := inject_Z h) in *.
  (* products with the other original size *)
  assert (P1 : W * (1 - u) * OH <= r1 * OW * OH)
    by (apply Qmult_le_compat_r; lra).
  assert (P1' : r1 * OW * OH <= W * (1 + u) * OH)
    by (apply Qmult_le_compat_r; lra).
  assert (P2 : H * (1 - u) * OW <= r2 * OH * OW)
    by (apply Qmult_le_compat_r; lra).
  assert (P2' : r2 * OH * OW <= H * (1 + u) * OW)
    by (apply Qmult_le_compat_r; lra).
  assert (HOO : 0 <= OW * OH) by nra.
  destruct Hr as [[-> Hle]|[-> Hle]].
  - assert (P3 : r1 * (OW * OH) <= r2 * (OW * OH))
      by (apply Qmult_le_compat_r; lra).
    split.
    + apply Qle_trans with (W * OH * (1 - u)); [nra | lra].
    + destruct HN3 as [HN3|HN3]; rewrite HN3; lra.
  - assert (P3 : r2 * (OW * OH) <= r1 * (OW * OH))
      by (apply Qmult_le_compat_r; lra).
    split.
    + apply Qle_trans with (H * OW * (1 - u)); [nra | lra].
    + destruct HN3 as [HN3|HN3]; rewrite HN3; lra.
Qed.

Lemma mul_bound (a b : Z) :
  (0 < a < 33554432)%Z -> (0 < b < 33554432)%Z ->
  (0 < a * b < 1125899906842624)%Z.
Proof. intros Ha Hb. nia. Qed.

(** C3, amended.  With [keep_aspect_ratio] set and source and requested
    sizes below [2^25], the sizes asked of the resampler are obtained by
    truncation, not by rounding to nearest.  When both width and height are
    given, with [scale] the smaller of [width/origW] and [height/origH],
    each output dimension is the integer part of the exact product
    [orig * scale], or one less when that product is an integer and the
    double-precision product falls just below it; neither exceeds its
    bound.  When only one dimension is given it is used as it is and the
    other is the integer part of the proportional value, with the same
    exception.  A 200x400 source with width 100 and height 100 gives
    (50, 100). *)
Theorem resize_keeps_aspect_by_truncation (ow oh w h : Z) :
  (0 < ow < 33554432)%Z -> (0 < oh < 33554432)%Z ->
  (0 < w < 33554432)%Z -> (0 < h < 33554432)%Z ->
  (exists nw nh,
      _resize_dims (ow, oh) (Py.VInt w) (Py.VInt h) true
      = Returns (Some (nw, nh))
      /\ nearly nw (Z.min (w * oh) (h * ow)) oh
      /\ nearly nh (Z.min (w * oh) (h * ow)) ow
      /\ (0 <= nw <= w)%Z /\ (0 <= nh <= h)%Z)
  /\ (exists nh,
        _resize_dims (ow, oh) (Py.VInt w) Py.VNone true
        = Returns (Some (w, nh))
        /\ nearly nh (oh * w) ow)
  /\ (exists nw,
        _resize_dims (ow, oh) Py.VNone (Py.VInt h) true
        = Returns (Some (nw, h))
        /\ nearly nw (ow * h) oh)
  /\ _resize_dims (200, 400)%Z (Py.VInt 100) (Py.VInt 100) true
     = Returns (Some (50, 100)%Z).
Proof.
  intros How Hoh Hw Hh.
  destruct (truediv_spec w ow Hw How) as [r1 [E1 [B1 R1]]].
  destruct (truediv_spec h oh Hh Hoh) as [r2 [E2 [B2 R2]]].
  assert (HOW : 1 <= inject_Z ow) by (apply (inj_le 1 ow); lia).
  assert (HOH : 1 <= inject_Z oh) by (apply (inj_le 1 oh); lia).
  split; [|split; [|split]].
  - set (N := Z.min (w * oh) (h * ow)).
    assert (HN : (0 < N < 1125899906842624)%Z).
    { pose proof (mul_bound w oh Hw Hoh). pose proof (mul_bound h ow Hh How).
      unfold N. lia. }
    assert (Hmin : exists r,
               Float.min (Fin r1) (Fin r2) = Fin r
               /\ ((r = r1 /\ r1 <= r2) \/ (r = r2 /\ r2 <= r1))).
    { unfold Float.min, ltb. destruct (Qle_bool r1 r2) eqn:Hb; cbn [negb].
      - exists r1. split; [reflexivity|]. left. split; [reflexivity|].
        now apply Qle_bool_iff.
      - exists r2. split; [reflexivity|]. right. split; [reflexivity|].
        apply Qlt_le_weak, Qnot_le_lt. intros Hc.
        apply Qle_bool_iff in Hc. congruence. }
    destruct Hmin as [r [Er Hr]].
    assert (Rr : (1 # 67108864) <= r <= 67108864)
      by (destruct Hr as [[-> _]|[-> _]]; assumption).
    destruct (min_ratio ow oh w h r1 r2 How Hoh Hw Hh B1 B2 r Hr)
      as [Lo Hi]. fold N in Lo, Hi.
    destruct (scale_dim ow r N oh How Hoh HN Rr Lo Hi)
      as [pw [nw [Epw [Enw Hnw]]]].
    assert (Lo' : inject_Z N * (1 - u) <= inject_Z oh * r * inject_Z ow)
      by lra.
    assert (Hi' : inject_Z oh * r * inject_Z ow <= inject_Z N * (1 + u))
      by lra.
    destruct (scale_dim oh r N ow Hoh How HN Rr Lo' Hi')
      as [ph [nh [Eph [Enh Hnh]]]].
    exists nw, nh. split.
    + unfold _resize_dims. rewrite !truthy_pos by lia.
      cbn [andb as_int obind]. rewrite E1. cbn [obind]. rewrite E2.
      cbn [obind]. rewrite Er, Epw. cbn [obind]. rewrite Enw.
      cbn [obind]. rewrite Eph. cbn [obind]. rewrite Enh. reflexivity.
    + split; [exact Hnw|]. split; [exact Hnh|]. split.
      * apply (nearly_bounds nw N oh w);
          [lia | lia | unfold N; lia | exact Hnw].
      * apply (nearly_bounds nh N ow h);
          [lia | lia | unfold N; lia | exact Hnh].
  - assert (HN : (0 < oh * w < 1125899906842624)%Z)
      by (apply mul_bound; assumption).
    assert (Lo : inject_Z (oh * w) * (1 - u)
                 <= inject_Z oh * r1 * inject_Z ow).
    { rewrite inject_Z_mult.
      assert (inject_Z w * (1 - u) * inject_Z oh
              <= r1 * inject_Z ow * inject_Z oh)
        by (apply Qmult_le_compat_r; lra).
      lra. }
    assert (Hi : inject_Z oh * r1 * inject_Z ow
                 <= inject_Z (oh * w) * (1 + u)).
    { rewrite inject_Z_mult.
      assert (r1 * inject_Z ow * inject_Z oh
              <= inject_Z w * (1 + u) * inject_Z oh)
        by (apply Qmult_le_compat_r; lra).
      lra. }
    destruct (scale_dim oh r1 (oh * w) ow Hoh How HN R1 Lo Hi)
      as [ph [nh [Eph [Enh Hnh]]]].
    exists nh. split; [|exact Hnh].
    unfold _resize_dims. rewrite truthy_pos by lia.
    cbn [Py.truthy andb as_int obind]. rewrite E1. cbn [obind].
    rewrite Eph. cbn [obind]. rewrite Enh. reflexivity.
  - assert (HN : (0 < ow * h < 1125899906842624)%Z)
      by (apply mul_bound; assumption).
    assert (Lo : inject_Z (ow * h) * (1 - u)
                 <= inject_Z ow * r2 * inject_Z oh).
    { rewrite inject_Z_mult.
      assert (inject_Z h * (1 - u) * inject_Z ow
              <= r2 * inject_Z oh * inject_Z ow)
        by (apply Qmult_le_compat_r; lra).
      lra. }
    assert (Hi : inject_Z ow * r2 * inject_Z oh
                 <= inject_Z (ow * h) * (1 + u)).
    { rewrite inject_Z_mult.
      assert (r2 * inject_Z oh * inject_Z ow
              <= inject_Z h * (1 + u) * inject_Z ow)
        by (apply Qmult_le_compat_r; lra).
      lra. }
    destruct (scale_dim ow r2 (ow * h) oh How Hoh HN R2 Lo Hi)
      as [pw [nw [Epw [Enw Hnw]]]].
    exists nw. split; [|exact Hnw].
    unfold _resize_dims. rewrite truthy_pos by lia.
    cbn [Py.truthy andb as_int obind]. rewrite E2. cbn [obind].
    rewrite Epw. cbn [obind]. rewrite Enw. reflexivity.
  - vm_compute. reflexivity.
Qed.

Lemma resize_keeps_aspect_by_truncation_witness :
  exists nw nh,
    _resize_dims (200, 300)%Z (Py.VInt 100) (Py.VInt 100) true
    = Returns (Some (nw, nh))
    /\ nearly nw (Z.min (100 * 300) (100 * 200)) 300
    /\ nearly nh (Z.min (100 * 300) (100 * 200)) 200
    /\ (0 <= nw <= 100)%Z /\ (0 <= nh <= 100)%Z.
Proof.
  apply (resize_keeps_aspect_by_truncation 200 300 100 100); lia.
Defined.

(** C3, as the claim states it, fails: a 200x300 source with width 100 and
    height 100 has scale 1/3 and exact width 66.67; the code asks for
    (66, 100), rounding to nearest gives (67, 100). *)
Lemma resize_200x300_not_rounded_to_nearest :
  ~ (forall ow oh w h : Z,
        (0 < ow)%Z -> (0 < oh)%Z -> (0 < w)%Z -> (0 < h)%Z ->
        _resize_dims (ow, oh) (Py.VInt w) (Py.VInt h) true
        = Returns (Some (aspect_dims ow oh w h))).
Proof.
  intros H. specialize (H 200 300 100 100)%Z.
  assert (Hc : _resize_dims (200, 300)%Z (Py.VInt 100) (Py.VInt 100) true
               = Returns (Some (66, 100)%Z)) by (vm_compute; reflexivity).
  rewrite Hc in H.
  assert (Hs : aspect_dims 200 300 100 100 = (67, 100)%Z)
    by (vm_compute; reflexivity).
  rewrite Hs in H.
  specialize (H eq_refl eq_refl eq_refl eq_refl). discriminate H.
Qed.

(** the exception occurs: 49 * (1 / 49) is just below 1 in double
    precision, so a 49x49 source asked for 1x1 gets (0, 0) *)
Lemma resize_49x49_to_1x1 :
  _resize_dims (49, 49)%Z (Py.VInt 1) (Py.VInt 1) true
  = Returns (Some (0, 0)%Z).
Proof. vm_compute. reflexivity. Qed.

(** the rounding of [Float] against the binary64 operations of the
    standard library, on sample quotients and products *)
Lemma float_agrees_with_SpecFloat :
  forallb (fun '(a, b) =>
             agrees (truediv a b)
               (SFdiv 53 1024 (SF_of_int a) (SF_of_int b)))
    [(1, 49); (100, 200); (100, 300); (1, 3); (2, 3); (640, 1920);
     (1080, 4320); (33554431, 3); (7, 33554431); (1, 10)]%Z
  = true
  /\ forallb (fun '(n, a, b) =>
                agrees (obind (truediv a b) (int_mul n)) (SF_scaled n a b))
       [(49, 1, 49); (200, 100, 300); (300, 100, 300); (1920, 640, 1920);
        (33554431, 7, 33554431); (10, 1, 10); (3, 1, 3)]%Z
     = true.
Proof. split; vm_compute; reflexivity. Qed.

End Resize.

(* ================================================================== *)
(** * The registry as a whole *)

Section RegistryWhole.

Import FileConverter Outcome.

Lemma NoDup_map_injective {A B} (f : A -> B) (l : list A) :
  (forall x y, f x = f y -> x = y) -> NoDup l -> NoDup (map f l).
Proof.
  intros Hf. induction 1 as [|x l Hx Hl IH]; cbn; constructor; [|exact IH].
  rewrite in_map_iff. intros [y [Hy Hin]]. apply Hf in Hy. now subst.
Qed.

Lemma prefix_app (q pre s : string) :
  String.prefix q pre = true -> String.prefix q (pre ++ s) = true.
Proof.
  revert pre. induction q as [|c q IH]; intros pre Hp;
    [destruct (pre ++ s); reflexivity|].
  destruct pre as [|c' pre']; [discriminate Hp|].
  cbn in *. destruct (Ascii.ascii_dec c c'); [|discriminate Hp].
  now apply IH.
Qed.

(** X1. The pairs [get_supported_conversions] lists are the pairs
    [can_convert] accepts: each listed pair is accepted, every accepted
    pair is listed in its lower-cased form, and no pair is listed twice. *)
Theorem supported_conversions_are_convertible :
  forallb (fun k => can_convert (fst k) (snd k)) keys = true
  /\ get_supported_conversions
     = map (fun k => [("from", fst k); ("to", snd k)]) keys
  /\ (forall src tgt,
         can_convert src tgt = true <->
         In [("from", Py.lower src); ("to", Py.lower tgt)]
           get_supported_conversions)
  /\ NoDup get_supported_conversions
  /\ length get_supported_conversions = 40%nat.
Proof.
  split; [vm_compute; reflexivity|]. split; [reflexivity|].
  split; [|split; [|reflexivity]].
  - intros src tgt. unfold can_convert. rewrite contains_In.
    unfold get_supported_conversions. rewrite in_map_iff. split.
    + intros H. exists (Py.lower src, Py.lower tgt). split; [reflexivity|].
      exact H.
    + intros [[f t] [Heq Hin]]. cbn [fst snd] in Heq.
      inversion Heq; subst. exact Hin.
  - unfold get_supported_conversions.
    apply NoDup_map_injective; [|apply keys_NoDup].
    intros [a b] [c d] H. cbn [fst snd] in H. inversion H. reflexivity.
Qed.

Lemma result_emit {A} (ev : event) (m : M A) :
  result (bind (emit ev) (fun _ => m)) = result m.
Proof. destruct m as [t r]. reflexivity. Qed.

Lemma result_try_except {A} (m : M A) (h : exn -> M A) :
  result (try_except m h)
  = match result m with
    | Returns a => Returns a
    | Raises e => result (h e)
    end.
Proof.
  destruct m as [t [a|e]]; unfold try_except, result; cbn [snd];
    [reflexivity|]. destruct (h e). reflexivity.
Qed.

(** a body under a general handler returns or raises the wrapped error *)
Lemma wrapped_try_except {A} (m : M A) (pre : string) :
  String.prefix "Ошибка конвертации" pre = true ->
  wrapped (result (try_except m
                     (fun e => raise (ConversionError (pre ++ str_exn e))))).
Proof.
  intros Hp. rewrite result_try_except.
  destruct (result m) as [a|e]; cbn; [exact I|].
  unfold conversion_failure.
  now rewrite (prefix_app _ _ _ Hp).
Qed.

Lemma result_bind {A B} (c : M A) (k : A -> M B) :
  result (bind c k)
  = match result c with
    | Returns a => result (k a)
    | Raises e => Raises e
    end.
Proof.
  destruct c as [t [a|e]]; unfold bind, result; cbn [snd]; [|reflexivity].
  destruct (k a). reflexivity.
Qed.

Lemma wrapped_pdf {A} (m : M A) (pre : string) :
  String.prefix "Ошибка конвертации" pre = true ->
  wrapped (result (try_except m
                     (fun e =>
                        match e with
                        | ImportError _ =>
                            raise (ConversionError
                                     DocumentConverter.weasyprint_missing)
                        | _ => raise (ConversionError (pre ++ str_exn e))
                        end))).
Proof.
  intros Hp. rewrite result_try_except.
  destruct (result m) as [a|e]; cbn; [exact I|].
  destruct e; cbn; unfold conversion_failure;
    try (now rewrite (prefix_app _ _ _ Hp)).
  reflexivity.
Qed.

Lemma image_convert_result (w : World) (p : Path) (fmt : string)
    (wd ht q k : Py.val) :
  mem (canonical fmt) ["jpeg"; "png"; "gif"; "webp"; "bmp"; "tiff"; "ico"]
  = true ->
  exists body,
    result (ImageConverter.convert w p fmt wd ht q k)
    = result (try_except body
                (fun e => raise (ConversionError
                                   ("Ошибка конвертации изображения: "
                                    ++ str_exn e))))
    /\ forall a, result body = Returns a ->
                 snd a = ImageConverter.dict_get (canonical fmt)
                           ImageConverter.mime_types
                           "application/octet-stream".
Proof.
  intros Hm. unfold ImageConverter.convert. rewrite result_emit.
  fold (canonical fmt). rewrite Hm. cbn [negb].
  eexists. split; [reflexivity|].
  intros a. rewrite result_emit.
  rewrite result_bind. destruct (result (lift _)) as [img|e];
    [|discriminate].
  rewrite result_bind.
  match goal with |- context [result (if ?c then ?x else ?y)] =>
    destruct (result (if c then x else y)) as [img'|e] end;
    [|discriminate].
  rewrite result_emit, result_bind.
  destruct (result (lift _)) as [b|e]; [|discriminate].
  intros H. inversion H. reflexivity.
Qed.

(** a body that ends in [ret (_, m)] under a handler that raises *)
Lemma has_mime_try {A} (body : M (A * string)) (h : exn -> M (A * string))
    (m : string) :
  (forall a, result body = Returns a -> snd a = m) ->
  (forall e, exists e', result (h e) = Raises e') ->
  has_mime m (result (try_except body h)).
Proof.
  intros Hb Hh. rewrite result_try_except.
  destruct (result body) as [[x m']|e] eqn:Hr.
  - apply (Hb (x, m') eq_refl).
  - destruct (Hh e) as [e' ->]. exact I.
Qed.

Lemma image_call (w : World) (p : Path) (fmt : string) (kw : Kwargs)
    (m : string) :
  mem (canonical fmt) ["jpeg"; "png"; "gif"; "webp"; "bmp"; "tiff"; "ico"]
  = true ->
  m = ImageConverter.dict_get (canonical fmt) ImageConverter.mime_types
        "application/octet-stream" ->
  has_mime m (result (ImageConverter.call w p fmt kw))
  /\ (ImageConverter.unexpected kw = None ->
      wrapped (result (ImageConverter.call w p fmt kw))).
Proof.
  intros Hm ->. unfold ImageConverter.call.
  destruct (ImageConverter.unexpected kw) as [k|].
  - split; [exact I | discriminate].
  - destruct (image_convert_result w p fmt
                (kw_get "width" kw Py.VNone) (kw_get "height" kw Py.VNone)
                (kw_get "quality" kw (Py.VInt 85))
                (kw_get "keep_aspect_ratio" kw (Py.VBool true)) Hm)
      as [body [-> Hb]].
    split.
    + apply has_mime_try; [exact Hb|]. intros e. eexists. reflexivity.
    + intros _. apply wrapped_try_except. reflexivity.
Qed.

Lemma audio_convert (w : World) (p : Path) (fmt : string) (b : Py.val)
    (m : string) :
  mem (Py.lower fmt) AudioConverter.SUPPORTED_FORMATS = true ->
  m = ImageConverter.dict_get (Py.lower fmt) AudioConverter.mime_types
        "audio/mpeg" ->
  has_mime m (result (AudioConverter.convert w p fmt b))
  /\ wrapped (result (AudioConverter.convert w p fmt b)).
Proof.
  intros Hm ->. unfold AudioConverter.convert. rewrite result_emit.
  destruct (AUDIO_SUPPORT w); cbn [negb].
  - rewrite Hm. cbn [negb]. split.
    + apply has_mime_try; [|intros e; eexists; reflexivity].
      intros a. rewrite result_emit, result_bind.
      destruct (result _) as [audio|e]; [|discriminate].
      rewrite result_emit, result_bind.
      destruct (result _) as [x|e]; [|discriminate].
      intros H. inversion H. reflexivity.
    + apply wrapped_try_except. reflexivity.
  - split; [exact I|]. reflexivity.
Qed.

Lemma data_and_document (w : World) (p : Path) :
  (forall i, has_mime "application/json" (result (DataConverter.csv_to_json w p i))
             /\ wrapped (result (DataConverter.csv_to_json w p i)))
  /\ (has_mime "text/csv" (result (DataConverter.json_to_csv w p))
      /\ wrapped (result (DataConverter.json_to_csv w p)))
  /\ (forall r c, has_mime "application/xml"
                    (result (DataConverter.csv_to_xml w p r c))
                  /\ wrapped (result (DataConverter.csv_to_xml w p r c)))
  /\ (has_mime "text/csv" (result (DataConverter.xml_to_csv w p))
      /\ wrapped (result (DataConverter.xml_to_csv w p)))
  /\ (forall r, has_mime "application/xml"
                  (result (DataConverter.json_to_xml w p r))
                /\ wrapped (result (DataConverter.json_to_xml w p r)))
  /\ (forall i, has_mime "application/json"
                  (result (DataConverter.xml_to_json w p i))
                /\ wrapped (result (DataConverter.xml_to_json w p i)))
  /\ (has_mime
        "application/vnd.openxmlformats-officedocument.spreadsheetml.sheet"
        (result (DataConverter.csv_to_excel w p))
      /\ wrapped (result (DataConverter.csv_to_excel w p)))
  /\ (has_mime "text/csv" (result (DataConverter.excel_to_csv w p))
      /\ wrapped (result (DataConverter.excel_to_csv w p)))
  /\ (forall f, has_mime "text/html"
                  (result (DocumentConverter.markdown_to_html w p f))
                /\ wrapped (result (DocumentConverter.markdown_to_html w p f)))
  /\ (has_mime "text/markdown"
        (result (DocumentConverter.html_to_markdown w p))
      /\ wrapped (result (DocumentConverter.html_to_markdown w p)))
  /\ (has_mime "text/html" (result (DocumentConverter.txt_to_html w p))
      /\ wrapped (result (DocumentConverter.txt_to_html w p)))
  /\ (has_mime "application/pdf" (result (DocumentConverter.txt_to_pdf w p))
      /\ wrapped (result (DocumentConverter.txt_to_pdf w p)))
  /\ (has_mime "application/pdf"
        (result (DocumentConverter.markdown_to_pdf w p))
      /\ wrapped (result (DocumentConverter.markdown_to_pdf w p))).
Proof.
  repeat split; intros;
    first [ apply wrapped_try_except; reflexivity
          | apply wrapped_pdf; reflexivity
          | apply has_mime_try;
            [ let a := fresh "a" in
              let H := fresh "H" in
              intros a;
              repeat first
                [ rewrite result_emit
                | rewrite result_bind;
                  match goal with
                  | |- context [match ?r with
                                | Returns _ => _
                                | Raises _ => _
                                end] =>
                      destruct r; [|discriminate]
                  end ];
              intros H; inversion H; reflexivity
            | let e := fresh "e" in
              intros e; destruct e; eexists; reflexivity ] ].
Qed.

Lemma entries_outcome :
  Forall (fun kc : (string * string) * converter =>
            forall w p kw,
              has_mime (ImageConverter.dict_get (snd (fst kc))
                          mime_of_target "")
                (result (snd kc w p kw))
              /\ (ImageConverter.unexpected kw = None ->
                  wrapped (result (snd kc w p kw))))
    CONVERSIONS.
Proof.
  unfold CONVERSIONS.
  repeat (constructor;
          [ intros w p kw; cbn [fst snd];
            pose proof (data_and_document w p)
              as (D1 & D2 & D3 & D4 & D5 & D6 & D7 & D8 & D9 & D10 & D11
                  & D12 & D13);
            first
              [ apply image_call; reflexivity
              | split; [|intros _];
                first [ eapply audio_convert; reflexivity
                      | apply D1 | apply D2 | apply D3 | apply D4 | apply D5
                      | apply D6 | apply D7 | apply D8 | apply D9
                      | apply D10 | apply D11 | apply D12 | apply D13 ] ]
          |]).
  constructor.
Qed.

(** X2. A registered conversion called with keywords that the converter
    accepts returns its result or raises a [ConversionError]: no other
    exception leaves the dispatcher.  The message is one built by the
    handler of the converter, or one of the two that name a missing
    library; the refusal of the target format by the converter never
    occurs for a pair of the registry. *)
Theorem only_conversion_errors_escape (w : World) (p : Path) (fmt : string)
    (kw : Kwargs) :
  In (Py.lower (Py.drop 1 (suffix p)), Py.lower fmt) keys ->
  ImageConverter.unexpected kw = None ->
  match result (convert w p fmt kw) with
  | Returns _ => True
  | Raises (ConversionError msg) =>
      (String.prefix "Ошибка конвертации" msg
       || String.eqb msg
            "WeasyPrint не установлен. Установите: pip install weasyprint"
       || String.eqb msg
            "pydub не установлен. Установите: pip install pydub")%bool
      = true
  | Raises _ => False
  end.
Proof.
  intros Hin Hkw.
  destruct (convert_registered w p fmt kw Hin) as [c [Hc Hconv]].
  rewrite Hconv, (call_entry_bound _ _ _ _ (unexpected_no_p kw Hkw)).
  pose proof (proj1 (Forall_forall _ _) entries_outcome _ Hc w p kw)
    as [_ Hw].
  exact (Hw Hkw).
Qed.

Lemma only_conversion_errors_escape_witness :
  match result (convert offline_world (mkPath "uploads" "a.md") "pdf"
                  [("width", Py.VNone); ("quality", Py.VInt 85)]) with
  | Returns _ => True
  | Raises (ConversionError msg) =>
      (String.prefix "Ошибка конвертации" msg
       || String.eqb msg
            "WeasyPrint не установлен. Установите: pip install weasyprint"
       || String.eqb msg
            "pydub не установлен. Установите: pip install pydub")%bool
      = true
  | Raises _ => False
  end.
Proof.
  apply (only_conversion_errors_escape offline_world
           (mkPath "uploads" "a.md") "pdf"
           [("width", Py.VNone); ("quality", Py.VInt 85)]).
  - vm_compute. repeat (first [left; reflexivity | right]).
  - reflexivity.
Defined.

(** X3. The MIME type of a successful conversion is fixed by the target
    extension of the pair: [jpg] and [jpeg] give image/jpeg, [md] and
    [markdown] give text/markdown, and so on for each target of the
    registry; the fallback types of the converters are never returned. *)
Theorem mime_type_by_target (w : World) (p : Path) (fmt : string)
    (kw : Kwargs) (b : bytes) (m : string) :
  In (Py.lower (Py.drop 1 (suffix p)), Py.lower fmt) keys ->
  result (convert w p fmt kw) = Returns (b, m) ->
  m = ImageConverter.dict_get (Py.lower fmt) mime_of_target ""
  /\ m <> "" /\ m <> "application/octet-stream".
Proof.
  intros Hin Hres.
  destruct (convert_registered w p fmt kw Hin) as [c [Hc Hconv]].
  rewrite Hconv in Hres.
  destruct (has_key "p" kw) eqn:Hp;
    [rewrite (call_entry_collision _ _ _ _ Hp) in Hres; discriminate Hres|].
  rewrite (call_entry_bound _ _ _ _ Hp) in Hres.
  pose proof (proj1 (Forall_forall _ _) entries_outcome _ Hc w p kw)
    as [Hm _].
  cbn [fst snd] in Hm. rewrite Hres in Hm. cbn [has_mime] in Hm.
  split; [exact Hm|].
  assert (Hall : forallb
                   (fun k => let m := ImageConverter.dict_get (snd k)
                                         mime_of_target "" in
                             (negb (String.eqb m "")
                              && negb (String.eqb m
                                         "application/octet-stream"))%bool)
                   keys = true) by (vm_compute; reflexivity).
  rewrite forallb_forall in Hall.
  specialize (Hall _ Hin). cbn [snd] in Hall. rewrite <- Hm in Hall.
  apply andb_true_iff in Hall. destruct Hall as [H1 H2].
  apply negb_true_iff in H1, H2.
  split; intros ->; [now rewrite String.eqb_refl in H1|].
  now rewrite String.eqb_refl in H2.
Qed.

Lemma mime_type_by_target_witness :
  "image/jpeg" = ImageConverter.dict_get (Py.lower "JPG") mime_of_target ""
  /\ "image/jpeg" <> "" /\ "image/jpeg" <> "application/octet-stream".
Proof.
  apply (mime_type_by_target picture_world (mkPath "uploads" "a.png") "JPG"
           [("quality", Py.VInt 85)] "JPEG RGB 255,0,0" "image/jpeg").
  - vm_compute. repeat (first [left; reflexivity | right]).
  - reflexivity.
Defined.

End RegistryWhole.

(* ================================================================== *)
(** * File names and extensions *)

Section FileNames.

Lemma length_app (a b : string) :
  String.length (a ++ b) = (String.length a + String.length b)%nat.
Proof. induction a as [|c a IH]; cbn; [reflexivity | now rewrite IH]. Qed.

Lemma append_assoc_s (a b c : string) : (a ++ b) ++ c = a ++ (b ++ c).
Proof. induction a as [|x a IH]; cbn; [reflexivity | now rewrite IH]. Qed.

Lemma rfind_dot_app (a b : string) :
  Py.rfind_dot (a ++ b)
  = match Py.rfind_dot b with
    | Some i => Some (String.length a + i)%nat
    | None => Py.rfind_dot a
    end.
Proof.
  induction a as [|c a IH]; cbn.
  - destruct (Py.rfind_dot b); reflexivity.
  - rewrite IH. destruct (Py.rfind_dot b); [reflexivity|].
    destruct (Py.rfind_dot a); reflexivity.
Qed.

Lemma drop_app (a b : string) (k : nat) :
  Py.drop (String.length a + k) (a ++ b) = Py.drop k b.
Proof. induction a as [|c a IH]; cbn; [reflexivity | exact IH]. Qed.

Lemma drop_drop (j k : nat) (s : string) :
  Py.drop j (Py.drop k s) = Py.drop (k + j) s.
Proof.
  revert s. induction k as [|k IH]; intros s; cbn; [reflexivity|].
  destruct s as [|c s]; [destruct j; reflexivity | apply IH].
Qed.

Lemma drop_all (s : string) (k : nat) :
  (String.length s <= k)%nat -> Py.drop k s = "".
Proof.
  revert k. induction s as [|c s IH]; intros k Hk.
  - destruct k; reflexivity.
  - destruct k; cbn in *; [lia|]. apply IH. lia.
Qed.

Lemma rfind_dot_lt (s : string) (i : nat) :
  Py.rfind_dot s = Some i -> (i < String.length s)%nat.
Proof.
  revert i. induction s as [|c s IH]; intros i; cbn; [discriminate|].
  destruct (Py.rfind_dot s) as [j|].
  - intros H. inversion H. specialize (IH j eq_refl). lia.
  - destruct (Ascii.eqb c "."); [|discriminate].
    intros H. inversion H. lia.
Qed.

(** X4. The extension the endpoint computes from the upload name and the
    one the dispatcher computes from the stored path are the same string,
    whatever the upload name, as long as the identifier put in front of it
    has no dot. *)
Theorem stored_path_keeps_extension (dir uuid filename : string) :
  Py.rfind_dot uuid = None ->
  Py.lower (Py.drop 1 (suffix (mkPath dir (uuid ++ "_" ++ filename))))
  = Main.get_file_extension filename.
Proof.
  intros Hu. unfold suffix, Main.get_file_extension. cbn [name].
  rewrite rfind_dot_app, rfind_dot_app.
  assert (Hus : Py.rfind_dot "_" = None) by reflexivity.
  destruct (Py.rfind_dot filename) as [j|] eqn:Hj.
  - pose proof (rfind_dot_lt _ _ Hj) as Hlt.
    rewrite !length_app. cbn [String.length].
    replace (String.length uuid + (1 + j))%nat
      with (String.length (uuid ++ "_") + j)%nat
      by (rewrite length_app; cbn; lia).
    assert (H0 : Nat.ltb 0 (String.length (uuid ++ "_") + j) = true).
    { apply Nat.ltb_lt. rewrite length_app. cbn. lia. }
    rewrite H0. cbn [andb].
    destruct (Nat.ltb (String.length (uuid ++ "_") + j)
                (String.length uuid + (1 + String.length filename) - 1))
      eqn:Hb.
    + rewrite <- append_assoc_s, drop_app, drop_drop.
      replace (j + 1)%nat with (S j) by lia. reflexivity.
    + apply Nat.ltb_ge in Hb. rewrite length_app in Hb. cbn in Hb.
      rewrite (drop_all filename (S j)) by lia. reflexivity.
  - rewrite Hus, Hu. reflexivity.
Qed.

Lemma stored_path_keeps_extension_witness :
  Py.lower (Py.drop 1 (suffix (mkPath "uploads"
                                 ("0f8fad5b-d9cb-469f-a165-70867728950e"
                                  ++ "_" ++ "Photo.final.PNG"))))
  = Main.get_file_extension "Photo.final.PNG".
Proof.
  apply (stored_path_keeps_extension "uploads"
           "0f8fad5b-d9cb-469f-a165-70867728950e" "Photo.final.PNG").
  reflexivity.
Defined.

Lemma rfind_dot_last (a e : string) :
  Py.rfind_dot e = None ->
  Py.rfind_dot (a ++ "." ++ e) = Some (String.length a).
Proof.
  intros He. rewrite rfind_dot_app. cbn. rewrite He. cbn.
  now rewrite Nat.add_0_r.
Qed.

(** X5. The name [generate_filename] gives to the converted file carries
    the requested extension: [get_file_extension] reads it back, in lower
    case, whenever the extension itself has no dot. *)
Theorem generated_name_has_extension (w : World)
    (original new_extension : string) :
  Py.rfind_dot new_extension = None ->
  Main.get_file_extension (Main.generate_filename w original new_extension)
  = Py.lower new_extension.
Proof.
  intros He. unfold Main.get_file_extension, Main.generate_filename.
  replace (Main.stem original ++ "_" ++ timestamp w ++ "." ++ new_extension)
    with ((Main.stem original ++ "_" ++ timestamp w) ++ "." ++ new_extension)
    by (now rewrite !append_assoc_s).
  rewrite (rfind_dot_last _ _ He).
  replace (S (String.length (Main.stem original ++ "_" ++ timestamp w)))
    with (String.length (Main.stem original ++ "_" ++ timestamp w) + 1)%nat
    by lia.
  rewrite drop_app. reflexivity.
Qed.

Lemma generated_name_has_extension_witness :
  Main.get_file_extension
    (Main.generate_filename picture_world "holiday.photo.PNG" "Jpg")
  = Py.lower "Jpg".
Proof.
  apply (generated_name_has_extension picture_world "holiday.photo.PNG"
           "Jpg").
  reflexivity.
Defined.

Lemma mem_In (x : string) (l : list string) : mem x l = true <-> In x l.
Proof.
  unfold mem. rewrite existsb_exists. split.
  - intros [y [Hin Heq]]. apply String.eqb_eq in Heq. now subst.
  - intros Hin. exists x. split; [exact Hin | apply String.eqb_refl].
Qed.

(** X6. [get_file_category] answers the category whose list holds the
    extension: no extension is listed under two categories, so the answer
    is that category, and it is [unknown] exactly for the extensions that
    no list holds. *)
Theorem file_category_is_listing (extension : string) :
  (forall category extensions,
      In (category, extensions) Config.ALLOWED_EXTENSIONS ->
      In extension extensions ->
      Config.get_file_category extension = category)
  /\ (Config.get_file_category extension = "unknown" <->
      forall category extensions,
        In (category, extensions) Config.ALLOWED_EXTENSIONS ->
        ~ In extension extensions).
Proof.
  split.
  - intros category extensions Hc He.
    unfold Config.ALLOWED_EXTENSIONS in Hc. cbn [In] in Hc.
    repeat (destruct Hc as [Hc|Hc];
            [inversion Hc; subst; cbn [In] in He;
             repeat (destruct He as [He|He];
                     [subst; reflexivity|]); contradiction|]).
    contradiction.
  - unfold Config.get_file_category.
    assert (Hgen : forall table,
               ~ In "unknown" (map fst table) ->
               (Config.category_in table extension = "unknown" <->
                forall c l, In (c, l) table -> ~ In extension l)).
    { induction table as [|[c l] table IH]; intros Hnu.
      - cbn. split; [intros _ ? ? [] | reflexivity].
      - cbn [Config.category_in]. destruct (mem extension l) eqn:Hm.
        + split.
          * intros ->. exfalso. apply Hnu. now left.
          * intros H. exfalso. apply (H c l); [now left|].
            now apply mem_In.
        + rewrite IH by (intros H; apply Hnu; now right). split.
          * intros H c' l' [Heq|Hin]; [|now apply (H c' l')].
            inversion Heq; subst. intros Hin.
            apply mem_In in Hin. congruence.
          * intros H c' l' Hin. apply (H c' l'). now right. }
    apply Hgen. cbn. intuition discriminate.
Qed.

Lemma file_category_is_listing_witness :
  Config.get_file_category "png" = "image".
Proof.
  apply (proj1 (file_category_is_listing "png") "image"
           ["jpg"; "jpeg"; "png"; "gif"; "webp"; "bmp"; "tiff"]).
  - left. reflexivity.
  - right. right. left. reflexivity.
Defined.

End FileNames.

(* ================================================================== *)
(** * The [/convert] endpoint *)

Section Endpoint.

Import FileConverter Outcome.

(** whatever the pair, the dispatcher returns or raises a
    [ConversionError] when the keywords are parameters of the image
    converter *)
Lemma convert_returns_or_conversion_error (w : World) (p : Path)
    (fmt : string) (kw : Kwargs) :
  ImageConverter.unexpected kw = None ->
  match result (convert w p fmt kw) with
  | Returns _ => True
  | Raises (ConversionError _) => True
  | Raises _ => False
  end.
Proof.
  intros Hkw. unfold convert.
  destruct (contains _) eqn:Hc; cbn [negb]; [|exact I].
  destruct (contains_lookup _ Hc) as [c [-> Hin]].
  rewrite (call_entry_bound _ _ _ _ (unexpected_no_p kw Hkw)).
  pose proof (proj1 (Forall_forall _ _) entries_outcome _ Hin w p kw)
    as [_ Hw].
  specialize (Hw Hkw). cbn [snd] in Hw.
  destruct (result (c w p kw)) as [a|[]]; cbn in Hw; tauto.
Qed.

(** X7. The endpoint answers a request in one of three ways: the refusal of
    the [quality] parameter, an error 400, or the description of the
    converted file; no failure of a converter is answered with the status
    500.  Either nothing is stored, and then the request is refused, or
    the upload is stored first and removed last. *)
Theorem convert_file_answers (w : World) (req : Main.Request) :
  let input_path :=
    mkPath Main.UPLOAD_DIR (uuid4 w ++ "_" ++ Main.filename req) in
  (forall status detail,
      snd (Main.convert_file w req) = Main.HTTPException status detail ->
      status = 400)
  /\ ((fst (Main.convert_file w req) = []
       /\ forall r, snd (Main.convert_file w req) <> Main.OK r)
      \/ exists mid,
          fst (Main.convert_file w req)
          = (EvWrite input_path :: mid ++ [EvUnlink input_path])%list).
Proof.
  intros input_path.
  assert (Hbody : forall q,
             (forall status detail,
                 snd (Main.convert_file_body w req q)
                 = Main.HTTPException status detail -> status = 400)
             /\ ((fst (Main.convert_file_body w req q) = []
                  /\ forall r, snd (Main.convert_file_body w req q)
                               <> Main.OK r)
                 \/ exists mid,
                     fst (Main.convert_file_body w req q)
                     = (EvWrite input_path :: mid
                        ++ [EvUnlink input_path])%list)).
  { intros q. unfold Main.convert_file_body. fold input_path.
    destruct (Z.ltb _ _).
    { split; [intros s d H; inversion H; reflexivity|].
      left. split; [reflexivity | discriminate]. }
    destruct (can_convert _ _); cbn [negb].
    2:{ split; [intros s d H; inversion H; reflexivity|].
        left. split; [reflexivity | discriminate]. }
    pose proof (convert_returns_or_conversion_error w input_path
                  (Main.strip_dots (Py.lower (Main.output_format req)))
                  [("width", Main.opt_val (Main.width req));
                   ("height", Main.opt_val (Main.height req));
                   ("quality", Py.VInt q)] eq_refl) as Hr.
    unfold result in Hr.
    destruct (convert w input_path _ _) as [t [[b m]|e]]; cbn [snd] in Hr.
    - split; [discriminate|]. right.
      eexists (t ++ [EvWrite _])%list. cbn [fst].
      cbn [app]. rewrite <- app_assoc. reflexivity.
    - destruct e; try contradiction.
      split; [intros s d H; inversion H; reflexivity|].
      right. exists t. reflexivity. }
  unfold Main.convert_file.
  destruct (Main.quality req) as [q|]; [|apply Hbody].
  destruct (_ || _)%bool; [|apply Hbody].
  split; [discriminate|]. left. split; [reflexivity | discriminate].
Qed.

End Endpoint.

(* ================================================================== *)
(** * Parameters that play no part *)

Section Irrelevant.

Import Outcome.

Lemma trace_emit {A} (ev : event) (m : M A) :
  trace (bind (emit ev) (fun _ => m)) = ev :: trace m.
Proof. destruct m as [t r]. reflexivity. Qed.

(** X8. For every target other than [jpeg] (or [jpg]) and [webp], an image
    conversion does not depend on [quality]: the result and everything
    done after the call is entered are the same for any two values. *)
Theorem quality_only_for_jpeg_and_webp (w : World) (p : Path)
    (fmt : string) (wd ht q q' k : Py.val) :
  mem (canonical fmt) ["jpeg"; "webp"] = false ->
  result (ImageConverter.convert w p fmt wd ht q k)
  = result (ImageConverter.convert w p fmt wd ht q' k)
  /\ tl (trace (ImageConverter.convert w p fmt wd ht q k))
     = tl (trace (ImageConverter.convert w p fmt wd ht q' k)).
Proof.
  intros Hm. unfold ImageConverter.convert.
  rewrite !result_emit, !trace_emit. cbn [tl].
  fold (canonical fmt).
  assert (Hs : forall v, ImageConverter.save_kwargs (canonical fmt) v
                         = if String.eqb (canonical fmt) "png"
                           then [("optimize", Py.VBool true)] else []).
  { intros v. unfold ImageConverter.save_kwargs. rewrite Hm. reflexivity. }
  rewrite !Hs. split; reflexivity.
Qed.

Lemma quality_only_for_jpeg_and_webp_witness :
  result (ImageConverter.convert picture_world (mkPath "uploads" "a.jpg")
            "PNG" Py.VNone Py.VNone (Py.VInt 1) (Py.VBool true))
  = result (ImageConverter.convert picture_world (mkPath "uploads" "a.jpg")
              "PNG" Py.VNone Py.VNone (Py.VInt 100) (Py.VBool true)).
Proof.
  apply (quality_only_for_jpeg_and_webp picture_world
           (mkPath "uploads" "a.jpg") "PNG" Py.VNone Py.VNone
           (Py.VInt 1) (Py.VInt 100) (Py.VBool true)).
  reflexivity.
Defined.

(** X9. For every target other than [mp3], an audio conversion does not
    depend on [bitrate]: the result and everything done after the call is
    entered are the same for any two values. *)
Theorem bitrate_only_for_mp3 (w : World) (p : Path) (fmt : string)
    (b b' : Py.val) :
  Py.lower fmt <> "mp3" ->
  result (AudioConverter.convert w p fmt b)
  = result (AudioConverter.convert w p fmt b')
  /\ tl (trace (AudioConverter.convert w p fmt b))
     = tl (trace (AudioConverter.convert w p fmt b')).
Proof.
  intros Hm. unfold AudioConverter.convert.
  rewrite !result_emit, !trace_emit. cbn [tl].
  apply String.eqb_neq in Hm. rewrite Hm. split; reflexivity.
Qed.

Lemma bitrate_only_for_mp3_witness :
  result (AudioConverter.convert picture_world (mkPath "uploads" "a.mp3")
            "WAV" (Py.VStr "64k"))
  = result (AudioConverter.convert picture_world (mkPath "uploads" "a.mp3")
              "WAV" (Py.VStr "320k")).
Proof.
  apply (bitrate_only_for_mp3 picture_world (mkPath "uploads" "a.mp3") "WAV"
           (Py.VStr "64k") (Py.VStr "320k")).
  vm_compute. discriminate.
Defined.

End Irrelevant.

(* ================================================================== *)
(** * Compositing onto white *)

Section Compositing.

Import PIL.

(** over white, a band moves from its value toward 255 *)
Lemma blend_over_white (a c : Z) :
  is_byte a -> is_byte c -> c <= blend a 255 c <= 255.
Proof.
  unfold is_byte. intros Ha Hc. unfold blend.
  rewrite !Z.shiftr_div_pow2 by lia. change (2 ^ 8) with 256.
  assert (H1 : 255 * c <= 255 * (255 - a) + c * a <= 255 * 255) by nia.
  Z.div_mod_to_equations. lia.
Qed.

(** X10. Flattening an RGBA image whose bands are bytes gives an RGB image
    of the same size with one pixel for each pixel of the source; each
    band of a result pixel lies between the source band and 255, a fully
    opaque pixel keeps its colour and a fully transparent one becomes
    white. *)
Theorem flatten_RGBA_composites (sz : Z * Z) (px : list rgba) :
  Z.to_nat (fst sz * snd sz) = length px ->
  Forall (fun '(r, g, b, a) =>
            is_byte r /\ is_byte g /\ is_byte b /\ is_byte a) px ->
  exists out,
    ImageConverter.flatten (mkImage sz (DataRGBA px))
    = mkImage sz (DataRGB out)
    /\ Forall2 (fun '(r, g, b, a) '(r', g', b') =>
                  r <= r' <= 255 /\ g <= g' <= 255 /\ b <= b' <= 255
                  /\ (a = 255 -> (r', g', b') = (r, g, b))
                  /\ (a = 0 -> (r', g', b') = (255, 255, 255)))
         px out.
Proof.
  intros Hlen Hb. rewrite (flatten_RGBA sz px Hlen).
  eexists. split; [reflexivity|].
  clear Hlen. induction Hb as [|[[[r g] b] a] px [Hr [Hg [Hbb Ha]]] Hpx IH];
    cbn [map]; constructor; [|exact IH].
  repeat split; try (apply blend_over_white; assumption).
  - intros ->. now rewrite !blend_opaque.
  - intros ->. rewrite !blend_transparent by (unfold is_byte in *; lia).
    reflexivity.
Qed.

Lemma flatten_RGBA_composites_witness :
  exists out,
    ImageConverter.flatten
      (mkImage (2, 1) (DataRGBA [(10, 20, 30, 255); (10, 20, 30, 0)]))
    = mkImage (2, 1) (DataRGB out)
    /\ Forall2 (fun '(r, g, b, a) '(r', g', b') =>
                  r <= r' <= 255 /\ g <= g' <= 255 /\ b <= b' <= 255
                  /\ (a = 255 -> (r', g', b') = (r, g, b))
                  /\ (a = 0 -> (r', g', b') = (255, 255, 255)))
         [(10, 20, 30, 255); (10, 20, 30, 0)] out.
Proof.
  apply (flatten_RGBA_composites (2, 1)
           [(10, 20, 30, 255); (10, 20, 30, 0)]).
  - reflexivity.
  - repeat constructor; unfold is_byte; lia.
Defined.

End Compositing.

(* ================================================================== *)
(** * Repeated tags *)

Section RepeatedTags.

Import DataConverter Grouping.
Local Open Scope list_scope.

Lemma dict_lookup_set_same {V} (k : string) (v : V) (d : list (string * V)) :
  dict_lookup k (dict_set k v d) = Some v.
Proof.
  induction d as [|[k' v'] d IH]; cbn.
  - now rewrite String.eqb_refl.
  - destruct (String.eqb k k') eqn:He; cbn.
    + now rewrite String.eqb_refl.
    + now rewrite He.
Qed.

Lemma dict_lookup_set_other {V} (k k' : string) (v : V)
    (d : list (string * V)) :
  k' <> k -> dict_lookup k' (dict_set k v d) = dict_lookup k' d.
Proof.
  intros Hne. induction d as [|[k0 v0] d IH]; cbn.
  - apply String.eqb_neq in Hne. now rewrite Hne.
  - destruct (String.eqb k k0) eqn:He; cbn.
    + apply String.eqb_eq in He. subst k0.
      apply String.eqb_neq in Hne. now rewrite Hne.
    + destruct (String.eqb k' k0); [reflexivity | exact IH].
Qed.

Lemma dict_set_keys {V} (k : string) (v : V) (d : list (string * V)) :
  map fst (dict_set k v d)
  = if existsb (String.eqb k) (map fst d) then map fst d
    else map fst d ++ [k].
Proof.
  induction d as [|[k' v'] d IH]; cbn; [reflexivity|].
  destruct (String.eqb k k') eqn:He; cbn.
  - apply String.eqb_eq in He. now subst.
  - rewrite IH. destruct (existsb _ _); reflexivity.
Qed.

Lemma dict_set_NoDup {V} (k : string) (v : V) (d : list (string * V)) :
  NoDup (map fst d) -> NoDup (map fst (dict_set k v d)).
Proof.
  intros Hnd. rewrite dict_set_keys.
  destruct (existsb _ _) eqn:He; [exact Hnd|].
  assert (Hk : ~ In k (map fst d)).
  { intros Hin.
    assert (existsb (String.eqb k) (map fst d) = true).
    { apply existsb_exists. exists k. split; [exact Hin|].
      apply String.eqb_refl. }
    congruence. }
  clear He. induction (map fst d) as [|a l IH]; cbn.
  - constructor; [intros []|constructor].
  - inversion Hnd as [|? ? Ha Hl]; subst. constructor.
    + rewrite in_app_iff. intros [H|[H|[]]]; [now apply Ha|].
      apply Hk. left. symmetry. exact H.
    + apply IH; [exact Hl|]. intros H. apply Hk. now right.
Qed.

Lemma xml_to_dict_not_list (e : element) : is_list (xml_to_dict e) = false.
Proof.
  destruct e as [tag t cs]. rewrite xml_to_dict_node.
  destruct (fold_left _ cs []); [destruct t|]; reflexivity.
Qed.

Lemma with_tag_snoc (t : string) (cs : list element) (c : element) :
  with_tag t (cs ++ [c])
  = with_tag t cs ++ (if String.eqb (tag_of c) t then [c] else []).
Proof.
  unfold with_tag. rewrite filter_app. cbn.
  destruct (String.eqb (tag_of c) t); reflexivity.
Qed.

Lemma collected_snoc (vs : list json) (v : json) :
  Forall (fun x => is_list x = false) vs ->
  collected (vs ++ [v])
  = Some (match collected vs with
          | Some (JList l) => JList (l ++ [v])
          | Some old => JList [old; v]
          | None => v
          end).
Proof.
  intros Hvs. destruct vs as [|x [|y vs]]; cbn; [reflexivity| |reflexivity].
  inversion Hvs as [|? ? Hx _]; subst.
  destruct x; cbn in Hx; try discriminate; reflexivity.
Qed.

(** the loop of [xml_to_dict] over the children [cs] *)
Lemma store_children (val : element -> json) (cs : list element) :
  (forall c, is_list (val c) = false) ->
  let r := fold_left
             (fun result child => store (tag_of child) (val child) result)
             cs [] in
  NoDup (map fst r) /\
  forall t, dict_lookup t r = collected (map val (with_tag t cs)).
Proof.
  intros Hval. induction cs as [|c cs IH] using rev_ind; cbn zeta.
  - split; [constructor | reflexivity].
  - rewrite fold_left_app. cbn [fold_left].
    cbn zeta in IH. destruct IH as [Hnd Hlook].
    set (r := fold_left _ cs []) in *.
    assert (Hst : store (tag_of c) (val c) r
                  = dict_set (tag_of c)
                      (match dict_lookup (tag_of c) r with
                       | Some (JList l) => JList (l ++ [val c])
                       | Some old => JList [old; val c]
                       | None => val c
                       end) r).
    { unfold store. destruct (dict_lookup (tag_of c) r) as [[]|];
        reflexivity. }
    rewrite Hst. split; [now apply dict_set_NoDup|].
    intros t. rewrite with_tag_snoc, map_app.
    destruct (String.eqb_spec (tag_of c) t) as [<-|Hne].
    + rewrite dict_lookup_set_same. cbn [map].
      rewrite collected_snoc, Hlook; [reflexivity|].
      apply Forall_forall. intros x Hx. apply in_map_iff in Hx.
      destruct Hx as [e [<- _]]. apply Hval.
    + rewrite dict_lookup_set_other by congruence.
      cbn [map]. rewrite app_nil_r. apply Hlook.
Qed.

(** X11. An element with children becomes a dictionary with one key per
    distinct child tag; a tag that occurs once holds the value of that
    child, a tag that occurs several times holds the list of the values of
    those children in document order. *)
Theorem xml_to_dict_groups_repeated_tags (tag : string) (text : option string)
    (cs : list element) :
  cs <> [] ->
  exists r,
    xml_to_dict (Element tag text cs) = JDict r /\
    NoDup (map fst r) /\
    forall t,
      dict_lookup t r = collected (map xml_to_dict (with_tag t cs)).
Proof.
  intros Hcs. rewrite xml_to_dict_node.
  destruct (store_children xml_to_dict cs xml_to_dict_not_list)
    as [Hnd Hlook].
  set (r := fold_left _ cs []) in *.
  exists r. split; [|split; assumption].
  destruct r as [|kv r]; [|reflexivity]. exfalso.
  destruct cs as [|c cs]; [now apply Hcs|].
  specialize (Hlook (tag_of c)). unfold with_tag in Hlook.
  cbn in Hlook. rewrite String.eqb_refl in Hlook. cbn in Hlook.
  destruct (map xml_to_dict _); discriminate.
Qed.

Lemma xml_to_dict_groups_repeated_tags_witness :
  exists r,
    xml_to_dict (Element "a" None
                   [Element "b" (Some "1") []; Element "c" None [];
                    Element "b" (Some "2") []]) = JDict r /\
    NoDup (map fst r) /\
    forall t,
      dict_lookup t r
      = collected (map xml_to_dict
                     (with_tag t [Element "b" (Some "1") [];
                                  Element "c" None [];
                                  Element "b" (Some "2") []])).
Proof.
  apply (xml_to_dict_groups_repeated_tags "a" None
           [Element "b" (Some "1") []; Element "c" None [];
            Element "b" (Some "2") []]).
  discriminate.
Defined.

End RepeatedTags.

(* ================================================================== *)
(** * Text to HTML *)

Section TextToHtml.

Import DocumentConverter Escape.

Lemma replace_with_app (c : ascii) (by_ a b : string) :
  replace_with c by_ (a ++ b) = replace_with c by_ a ++ replace_with c by_ b.
Proof.
  induction a as [|x a IH]; cbn; [reflexivity|].
  destruct (Ascii.eqb x c); cbn; rewrite IH; [|reflexivity].
  generalize (replace_with c by_ a), (replace_with c by_ b). clear.
  intros u v. induction by_ as [|y by_ IH]; cbn;
    [reflexivity | now rewrite IH].
Qed.

(** the four replacements in a row are one pass over the text *)
Lemma replaces_escape (text : string) :
  replace_with "010" ("<br>" ++ nl)
    (replace_with ">" "&gt;"
       (replace_with "<" "&lt;" (replace_with "&" "&amp;" text)))
  = escape text.
Proof.
  induction text as [|c text IH]; [reflexivity|].
  cbn [escape]. rewrite <- IH. unfold escape_char.
  cbn [replace_with].
  destruct (Ascii.eqb c "&") eqn:E1.
  { rewrite !replace_with_app. reflexivity. }
  cbn [replace_with]. destruct (Ascii.eqb c "<") eqn:E2.
  { rewrite !replace_with_app. reflexivity. }
  cbn [replace_with]. destruct (Ascii.eqb c ">") eqn:E3.
  { rewrite !replace_with_app. reflexivity. }
  cbn [replace_with]. destruct (Ascii.eqb c "010") eqn:E4; reflexivity.
Qed.

Lemma txt_to_html_result (w : World) (p : Path) (text : string) :
  read_text w p = Returns text ->
  result (txt_to_html w p) = Returns (text_page (escape text), "text/html").
Proof.
  intros Hr. unfold txt_to_html, try_except, bind, emit, lift, ret, result.
  cbn -[replace_with text_page append]. rewrite Hr.
  cbn -[replace_with text_page append]. now rewrite replaces_escape.
Qed.

(** X12. The body of the page [txt_to_html] writes is the text with each
    character escaped on its own: [&], [<] and [>] become their entities,
    a line feed becomes [<br>] followed by the line feed, and every other
    character stays; the ampersands of the entities are not escaped again. *)
Theorem txt_to_html_escapes_each_character (w : World) (p : Path)
    (text : string) :
  read_text w p = Returns text ->
  result (txt_to_html w p) = Returns (text_page (escape text), "text/html").
Proof. apply txt_to_html_result. Qed.

Lemma txt_to_html_escapes_each_character_witness :
  result (txt_to_html (text_world ("a<b & c" ++ nl)) (mkPath "" "a.txt"))
  = Returns (text_page ("a&lt;b &amp; c<br>" ++ nl), "text/html").
Proof.
  apply (txt_to_html_escapes_each_character
           (text_world ("a<b & c" ++ nl)) (mkPath "" "a.txt")
           ("a<b & c" ++ nl)).
  reflexivity.
Defined.

Lemma append_inv_head (p a b : string) : p ++ a = p ++ b -> a = b.
Proof.
  induction p as [|c p IH]; cbn; intros H; [exact H|].
  inversion H. auto.
Qed.

Lemma append_inv_tail (s a b : string) : a ++ s = b ++ s -> a = b.
Proof.
  revert b. induction a as [|c a IH]; intros [|d b] H; cbn in H.
  - reflexivity.
  - exfalso. apply (f_equal String.length) in H. cbn in H.
    rewrite length_app in H. lia.
  - exfalso. apply (f_equal String.length) in H. cbn in H.
    rewrite length_app in H. lia.
  - inversion H. f_equal. auto.
Qed.

(** the escapes of the characters form a prefix code *)
Lemma escape_char_prefix (a b : ascii) (x y : string) :
  escape_char a ++ x = escape_char b ++ y -> a = b /\ x = y.
Proof.
  unfold escape_char.
  destruct (Ascii.eqb_spec a "&"); [subst|];
  [|destruct (Ascii.eqb_spec a "<"); [subst|];
   [|destruct (Ascii.eqb_spec a ">"); [subst|];
    [|destruct (Ascii.eqb_spec a "010"); [subst|]]]];
  (destruct (Ascii.eqb_spec b "&"); [subst|];
   [|destruct (Ascii.eqb_spec b "<"); [subst|];
    [|destruct (Ascii.eqb_spec b ">"); [subst|];
     [|destruct (Ascii.eqb_spec b "010"); [subst|]]]]);
  cbn; intros H; inversion H; subst; try (split; reflexivity);
  try congruence.
Qed.

Lemma escape_injective (s t : string) : escape s = escape t -> s = t.
Proof.
  revert t. induction s as [|a s IH]; intros [|b t] H.
  - reflexivity.
  - exfalso. cbn in H. unfold escape_char in H.
    repeat (destruct (Ascii.eqb _ _) in H; [discriminate H|]).
    discriminate H.
  - exfalso. cbn in H. unfold escape_char in H.
    repeat (destruct (Ascii.eqb _ _) in H; [discriminate H|]).
    discriminate H.
  - cbn in H. apply escape_char_prefix in H. destruct H as [-> H].
    f_equal. auto.
Qed.

(** X13. The page determines the text that was read: two files give the
    same result exactly when [f.read()] returned the same string for
    both.  The string is the one Python hands to the function, decoded and
    with the line endings [\r\n] and [\r] of the file already translated
    to [\n] by the text mode of [open]; what the file held before that
    translation is not determined by the page. *)
Theorem txt_to_html_page_determines_text_read (w1 w2 : World)
    (p1 p2 : Path) (t1 t2 : string) :
  read_text w1 p1 = Returns t1 ->
  read_text w2 p2 = Returns t2 ->
  (result (txt_to_html w1 p1) = result (txt_to_html w2 p2) <-> t1 = t2).
Proof.
  intros H1 H2.
  rewrite (txt_to_html_result _ _ _ H1), (txt_to_html_result _ _ _ H2).
  split; [|intros ->; reflexivity].
  intros H.
  assert (Hp : text_page (escape t1) = text_page (escape t2))
    by congruence.
  unfold text_page in Hp. apply append_inv_head, append_inv_tail in Hp.
  now apply escape_injective.
Qed.

(** the text [a<b] and the text that spells its escape give different
    pages *)
Lemma txt_to_html_page_determines_text_read_witness :
  result (txt_to_html (text_world "a<b") (mkPath "" "a.txt"))
  <> result (txt_to_html (text_world "a&lt;b") (mkPath "" "b.txt")).
Proof.
  intros H.
  assert (E := proj1 (txt_to_html_page_determines_text_read
                        (text_world "a<b") (text_world "a&lt;b")
                        (mkPath "" "a.txt") (mkPath "" "b.txt")
                        "a<b" "a&lt;b" eq_refl eq_refl) H).
  discriminate E.
Defined.

End TextToHtml.

(* ================================================================== *)
(** * Tables through XML *)

Section Tables.

Import DataConverter Grouping RoundTrip Table.
Local Open Scope list_scope.

(** the loop of [xml_to_csv] over the elements of a row *)
Lemma row_of_elements (elems : list element) :
  let row := fold_left
               (fun row elem => dict_set (tag_of elem) (text_of elem) row)
               elems [] in
  NoDup (map fst row) /\ forall t, dict_lookup t row = last_text t elems.
Proof.
  induction elems as [|e elems IH] using rev_ind; cbn zeta.
  - split; [constructor | reflexivity].
  - rewrite fold_left_app. cbn [fold_left]. cbn zeta in IH.
    destruct IH as [Hnd Hlook]. split; [now apply dict_set_NoDup|].
    intros t. unfold last_text. rewrite with_tag_snoc, rev_app_distr.
    destruct (String.eqb_spec (tag_of e) t) as [<-|Hne].
    + rewrite dict_lookup_set_same. reflexivity.
    + rewrite dict_lookup_set_other by congruence. cbn [rev app].
      apply Hlook.
Qed.

Lemma xml_to_csv_result (w : World) (p : Path) (text : string)
    (root : element) :
  read_text w p = Returns text ->
  ET_fromstring w text = Returns root ->
  result (xml_to_csv w p)
  = match pandas_rows_to_csv w
            (map (fun child =>
                    fold_left
                      (fun row elem =>
                         dict_set (tag_of elem) (text_of elem) row)
                      (children_of child) [])
               (children_of root)) with
    | Returns b => Returns (b, "text/csv")
    | Raises e =>
        Raises (ConversionError ("Ошибка конвертации XML→CSV: " ++ str_exn e))
    end.
Proof.
  intros Hr He.
  unfold xml_to_csv, ET_parse, result, try_except, bind, lift, emit, ret.
  cbn -[append]. rewrite Hr. cbn -[append]. rewrite He. cbn -[append].
  destruct (pandas_rows_to_csv w _); reflexivity.
Qed.

(** X14. [xml_to_csv] makes one row of each child of the root, whatever
    the tags of the root and of the rows are; a row has one column for each
    distinct tag among the elements of the child, and a tag that occurs
    several times keeps the text of its last element. *)
Theorem xml_to_csv_rows (w : World) (p : Path) (text : string)
    (root : element) :
  read_text w p = Returns text ->
  ET_fromstring w text = Returns root ->
  exists data,
    result (xml_to_csv w p)
    = match pandas_rows_to_csv w data with
      | Returns b => Returns (b, "text/csv")
      | Raises e =>
          Raises (ConversionError
                    ("Ошибка конвертации XML→CSV: " ++ str_exn e))
      end
    /\ Forall2 (fun child row =>
                  NoDup (map fst row)
                  /\ forall t,
                       dict_lookup t row = last_text t (children_of child))
         (children_of root) data.
Proof.
  intros Hr He. eexists. split; [exact (xml_to_csv_result w p text root Hr He)|].
  induction (children_of root) as [|c cs IH]; cbn [map]; constructor.
  - apply row_of_elements.
  - exact IH.
Qed.

Lemma xml_to_csv_rows_witness :
  exists data,
    result (xml_to_csv (exchange_world JNull [] a_rows_xml a_rows_tree)
              (mkPath "" "t.xml"))
    = match pandas_rows_to_csv (exchange_world JNull [] a_rows_xml a_rows_tree)
              data with
      | Returns b => Returns (b, "text/csv")
      | Raises e =>
          Raises (ConversionError
                    ("Ошибка конвертации XML→CSV: " ++ str_exn e))
      end
    /\ Forall2 (fun child row =>
                  NoDup (map fst row)
                  /\ forall t,
                       dict_lookup t row = last_text t (children_of child))
         (children_of a_rows_tree) data.
Proof.
  apply (xml_to_csv_rows (exchange_world JNull [] a_rows_xml a_rows_tree)
           (mkPath "" "t.xml") a_rows_xml a_rows_tree);
    reflexivity.
Defined.

Lemma csv_to_xml_builds (df : list (list (string * option string)))
    (root_name row_name : string) :
  fold_left
    (fun root row =>
       append_child root
         (fold_left
            (fun row_elem cell =>
               append_child row_elem
                 (Element (Py.replace_char " " "_" (fst cell))
                    (Some (match snd cell with
                           | Some v => v
                           | None => ""
                           end)) []))
            row (Element row_name None [])))
    df (Element root_name None [])
  = csv_to_xml_tree df root_name row_name.
Proof.
  rewrite (fold_left_ext _
             (fun root row =>
                append_child root
                  (Element row_name None
                     (map (fun cell =>
                             Element (tag_of_key (fst cell))
                               (Some (match snd cell with
                                      | Some v => v
                                      | None => ""
                                      end)) [])
                        row)))).
  - rewrite fold_append_child. reflexivity.
  - intros a row. f_equal.
    rewrite (fold_append_child
               (fun cell =>
                  Element (Py.replace_char " " "_" (fst cell))
                    (Some (match snd cell with
                           | Some v => v
                           | None => ""
                           end)) [])).
    reflexivity.
Qed.

Lemma dict_set_fresh (elems : list element)
    (acc : list (string * option string)) :
  NoDup (map fst acc ++ map tag_of elems) ->
  fold_left (fun row elem => dict_set (tag_of elem) (text_of elem) row)
    elems acc
  = acc ++ map (fun e => (tag_of e, text_of e)) elems.
Proof.
  revert acc. induction elems as [|e elems IH]; intros acc Hnd; cbn.
  - now rewrite app_nil_r.
  - assert (He : ~ In (tag_of e) (map fst acc)).
    { apply NoDup_remove_2 in Hnd. intros Hin. apply Hnd.
      apply in_or_app. now left. }
    rewrite (dict_set_absent _ _ _ He). rewrite IH.
    + rewrite <- app_assoc. reflexivity.
    + rewrite map_app, <- app_assoc. exact Hnd.
Qed.

(** the cells of a row as they are read back *)
Lemma cells_read_back (row : list (string * option string))
    (cs : list element) :
  Forall2 (fun c c' => reads_as c c' = true)
    (map (fun cell =>
            Element (tag_of_key (fst cell))
              (Some (match snd cell with
                     | Some v => v
                     | None => ""
                     end)) [])
       row) cs ->
  map (fun e => (tag_of e, text_of e)) cs = map cell_back row.
Proof.
  revert cs. induction row as [|cell row IH]; intros cs H;
    inversion H as [|? c' ? cs' Hc Hcs]; subst; [reflexivity|].
  apply reads_as_leaf in Hc. subst c'. cbn [map]. f_equal.
  now apply IH.
Qed.

Lemma row_read_back (row : list (string * option string))
    (row_name : string) (c' : element) :
  nodupb (map (fun cell => tag_of_key (fst cell)) row) = true ->
  reads_as
    (Element row_name None
       (map (fun cell =>
               Element (tag_of_key (fst cell))
                 (Some (match snd cell with
                        | Some v => v
                        | None => ""
                        end)) [])
          row)) c' = true ->
  fold_left (fun row elem => dict_set (tag_of elem) (text_of elem) row)
    (children_of c') []
  = map cell_back row.
Proof.
  intros Hnd Hread. destruct row as [|cell row].
  - apply reads_as_leaf in Hread. subst c'. reflexivity.
  - destruct c' as [tag' t' cs']. cbn [map] in Hread.
    apply reads_as_node in Hread. destruct Hread as [_ Hall].
    pose proof (cells_read_back (cell :: row) cs' Hall) as Hcs.
    cbn [children_of]. rewrite dict_set_fresh.
    + exact Hcs.
    + cbn [map app].
      replace (map tag_of cs')
        with (map fst (map (fun e => (tag_of e, text_of e)) cs'))
        by (rewrite map_map; reflexivity).
      rewrite Hcs. unfold cell_back. rewrite map_map. cbn [fst].
      now apply nodupb_NoDup.
Qed.

Lemma rows_read_back (rows : list (list (string * option string)))
    (row_name : string) (cs : list element) :
  Forall2 (fun c c' => reads_as c c' = true)
    (map (fun row =>
            Element row_name None
              (map (fun cell =>
                      Element (tag_of_key (fst cell))
                        (Some (match snd cell with
                               | Some v => v
                               | None => ""
                               end)) [])
                 row))
       rows) cs ->
  forallb (fun row => nodupb (map (fun cell => tag_of_key (fst cell)) row))
    rows = true ->
  map (fun child =>
         fold_left (fun row elem => dict_set (tag_of elem) (text_of elem) row)
           (children_of child) [])
    cs
  = map (map cell_back) rows.
Proof.
  revert cs. induction rows as [|r rows IH]; intros cs Hall Hnd;
    inversion Hall as [|? c' ? cs' Hc Hcs]; subst; [reflexivity|].
  cbn [forallb] in Hnd. apply andb_true_iff in Hnd.
  destruct Hnd as [Hr Hrows]. cbn [map]. f_equal.
  - now apply (row_read_back r row_name).
  - now apply IH.
Qed.

(** X15. A table written by [csv_to_xml] and read by [xml_to_csv] comes
    back row by row and cell by cell, provided the columns of a row give
    distinct tags once their spaces are replaced by underscores and the
    XML library reads back the tree it wrote: the rows handed to the CSV
    writer are the rows of the data frame with the spaces of the column
    names replaced by underscores and the missing and the empty values
    both read as missing. *)
Theorem csv_xml_csv_read_back (w : World) (p p' : Path)
    (df : list (list (string * option string)))
    (root_name row_name xml : string) (root' : element) :
  pandas_read_csv w p = Returns df ->
  forallb (fun row => nodupb (map (fun cell => tag_of_key (fst cell)) row))
    df = true ->
  xml_pretty w (csv_to_xml_tree df root_name row_name) = Returns xml ->
  read_text w p' = Returns xml ->
  ET_fromstring w xml = Returns root' ->
  reads_as (csv_to_xml_tree df root_name row_name) root' = true ->
  result (csv_to_xml w p root_name row_name)
  = Returns (xml, "application/xml")
  /\ result (xml_to_csv w p')
     = match pandas_rows_to_csv w (map (map cell_back) df) with
       | Returns b => Returns (b, "text/csv")
       | Raises e =>
           Raises (ConversionError
                     ("Ошибка конвертации XML→CSV: " ++ str_exn e))
       end.
Proof.
  intros Hdf Hnd Hx Hr He Hread. split.
  - unfold csv_to_xml, result, try_except, bind, lift, emit, ret.
    cbn -[append fold_left]. rewrite Hdf. cbn -[append fold_left].
    rewrite csv_to_xml_builds, Hx. reflexivity.
  - rewrite (xml_to_csv_result w p' xml root' Hr He).
    replace (map _ (children_of root')) with (map (map cell_back) df);
      [reflexivity|].
    unfold csv_to_xml_tree in Hread. destruct df as [|row df].
    + apply reads_as_leaf in Hread. subst root'. reflexivity.
    + destruct root' as [tag' t' cs']. cbn [map] in Hread.
      apply reads_as_node in Hread. destruct Hread as [_ Hall].
      cbn [children_of]. symmetry.
      now apply (rows_read_back (row :: df) row_name).
Qed.

Lemma csv_xml_csv_read_back_witness :
  result (csv_to_xml (exchange_world JNull a_frame a_frame_xml a_frame_tree)
            (mkPath "" "t.csv") "data" "row")
  = Returns (a_frame_xml, "application/xml")
  /\ result (xml_to_csv (exchange_world JNull a_frame a_frame_xml a_frame_tree)
               (mkPath "" "t.xml"))
     = match pandas_rows_to_csv
               (exchange_world JNull a_frame a_frame_xml a_frame_tree)
               [[("first_name", Some "Ann"); ("age", None)]] with
       | Returns b => Returns (b, "text/csv")
       | Raises e =>
           Raises (ConversionError
                     ("Ошибка конвертации XML→CSV: " ++ str_exn e))
       end.
Proof.
  apply (csv_xml_csv_read_back
           (exchange_world JNull a_frame a_frame_xml a_frame_tree)
           (mkPath "" "t.csv") (mkPath "" "t.xml") a_frame "data" "row"
           a_frame_xml a_frame_tree);
    reflexivity.
Defined.

End Tables.

(* ================================================================== *)
(** * Arrays through XML *)

Section ArraysThroughXml.

Import DataConverter Grouping RoundTrip Arrays.
Local Open Scope list_scope.

Lemma single_key {V} (k : string) (v : V) (r : list (string * V)) :
  NoDup (map fst r) ->
  dict_lookup k r = Some v ->
  (forall t, t <> k -> dict_lookup t r = None) ->
  r = [(k, v)].
Proof.
  intros Hnd Hk Hother. destruct r as [|[k0 v0] r]; [discriminate Hk|].
  destruct (String.eqb_spec k0 k) as [->|Hne].
  - cbn in Hk. rewrite String.eqb_refl in Hk. inversion Hk; subst.
    f_equal. destruct r as [|[k1 v1] r]; [reflexivity|]. exfalso.
    destruct (String.eqb_spec k1 k) as [->|Hne1].
    + inversion Hnd as [|? ? Hin _]; subst. apply Hin. now left.
    + specialize (Hother k1 Hne1). cbn in Hother.
      apply String.eqb_neq in Hne1. rewrite Hne1, String.eqb_refl in Hother.
      discriminate Hother.
  - specialize (Hother k0 Hne). cbn in Hother.
    rewrite String.eqb_refl in Hother. discriminate Hother.
Qed.

Lemma array_tree (l : list json) (root_name : string) :
  forallb scalar l = true ->
  json_to_xml_tree (JList l) root_name
  = Element root_name None
      (map (fun x => Element "item" (Some (py_str x)) []) l).
Proof.
  intros Hl. unfold json_to_xml_tree.
  rewrite (fold_append_child
             (fun item => dict_to_xml item (Element "item" None []))).
  cbn [app]. f_equal. apply map_ext_in. intros x Hx.
  rewrite forallb_forall in Hl. specialize (Hl x Hx).
  apply dict_to_xml_scalar. destruct x; try exact I; discriminate Hl.
Qed.

Lemma items_read_back (l : list json) (cs : list element) :
  Forall2 (fun c c' => reads_as c c' = true)
    (map (fun x => Element "item" (Some (py_str x)) []) l) cs ->
  cs = map (fun x => Element "item" (norm_text (Some (py_str x))) []) l.
Proof.
  revert cs. induction l as [|x l IH]; intros cs H;
    inversion H as [|? c' ? cs' Hc Hcs]; subst; [reflexivity|].
  apply reads_as_leaf in Hc. subst c'. cbn [map]. f_equal. now apply IH.
Qed.

Lemma with_tag_items (t : string) (l : list json) :
  with_tag t
    (map (fun x => Element "item" (norm_text (Some (py_str x))) []) l)
  = if String.eqb "item" t
    then map (fun x => Element "item" (norm_text (Some (py_str x))) []) l
    else [].
Proof.
  unfold with_tag. induction l as [|x l IH]; cbn [map filter tag_of].
  - destruct (String.eqb "item" t); reflexivity.
  - rewrite IH. destruct (String.eqb "item" t); reflexivity.
Qed.

Lemma array_read_back (l : list json) (root_name : string)
    (root' : element) :
  forallb scalar l = true ->
  reads_as (json_to_xml_tree (JList l) root_name) root' = true ->
  tag_of root' = root_name /\ xml_to_dict root' = array_back l.
Proof.
  intros Hl Hread. rewrite (array_tree l root_name Hl) in Hread.
  destruct l as [|x l].
  - apply reads_as_leaf in Hread. subst root'. split; reflexivity.
  - destruct root' as [tag' t' cs']. cbn [map] in Hread.
    apply reads_as_node in Hread. destruct Hread as [<- Hall].
    split; [reflexivity|].
    apply (items_read_back (x :: l)) in Hall. subst cs'.
    rewrite xml_to_dict_node.
    destruct (store_children xml_to_dict
                (map (fun x => Element "item" (norm_text (Some (py_str x))) [])
                   (x :: l)) xml_to_dict_not_list) as [Hnd Hlook].
    set (r := fold_left _ _ []) in *.
    assert (Hvals : map xml_to_dict
                      (map (fun x =>
                              Element "item" (norm_text (Some (py_str x))) [])
                         (x :: l))
                    = map read_back (x :: l)).
    { rewrite map_map. apply map_ext_in. intros y Hy.
      rewrite xml_to_dict_leaf.
      rewrite forallb_forall in Hl. specialize (Hl y Hy).
      destruct y; try reflexivity; discriminate Hl. }
    assert (Hitem : dict_lookup "item" r
                    = collected (map read_back (x :: l))).
    { rewrite Hlook, with_tag_items, String.eqb_refl, Hvals. reflexivity. }
    assert (Hother : forall t, t <> "item" -> dict_lookup t r = None).
    { intros t Ht. rewrite Hlook, with_tag_items.
      destruct (String.eqb_spec "item" t); [congruence | reflexivity]. }
    unfold array_back.
    destruct (map read_back (x :: l)) as [|v [|v' vs]] eqn:Hm;
      [discriminate Hm| |]; cbn [collected] in Hitem;
      rewrite (single_key _ _ r Hnd Hitem Hother); reflexivity.
Qed.

(** X16. A JSON array of scalars does not come back as an array after
    JSON to XML to JSON, provided the XML library reads back the tree it
    wrote: the result has the one key [data], whose value is [null] for the
    empty array, an object with the one key [item] holding the text of the
    item for an array of one item, and an object with the one key [item]
    holding the array of the texts of the items otherwise. *)
Theorem json_array_xml_json_read_back (w : World) (p p' : Path)
    (text xml : string) (l : list json) (root' : element) :
  read_text w p = Returns text ->
  json_loads w text = Returns (JList l) ->
  forallb scalar l = true ->
  xml_pretty w (json_to_xml_tree (JList l) "data") = Returns xml ->
  read_text w p' = Returns xml ->
  ET_fromstring w xml = Returns root' ->
  reads_as (json_to_xml_tree (JList l) "data") root' = true ->
  result (json_to_xml w p "data") = Returns (xml, "application/xml")
  /\ result (xml_to_json w p' 2)
     = Returns (json_dumps w (JDict [("data", array_back l)]) 2,
                "application/json").
Proof.
  intros Hr Hj Hl Hx Hr' Hp Hread. split.
  - unfold json_to_xml, json_load, result, try_except, bind, lift, emit.
    cbn -[json_to_xml_tree]. rewrite Hr.
    cbn -[json_to_xml_tree]. rewrite Hj.
    cbn -[json_to_xml_tree]. rewrite Hx. reflexivity.
  - destruct (array_read_back l "data" root' Hl Hread) as [Htag Hval].
    unfold xml_to_json, ET_parse, result, try_except, bind, lift, emit.
    cbn -[xml_to_json_data]. rewrite Hr'.
    cbn -[xml_to_json_data]. rewrite Hp.
    cbn -[xml_to_json_data xml_to_dict].
    unfold xml_to_json_data. rewrite Htag, Hval. reflexivity.
Qed.

Lemma json_array_xml_json_read_back_witness :
  result (json_to_xml
            (exchange_world (JList an_array) [] an_array_xml an_array_tree)
            (mkPath "" "a.json") "data")
  = Returns (an_array_xml, "application/xml")
  /\ result (xml_to_json
               (exchange_world (JList an_array) [] an_array_xml an_array_tree)
               (mkPath "" "a.xml") 2)
     = Returns (show_json
                  (JDict [("data",
                           JDict [("item", JList [JStr "1"; JStr "2"])])]),
                "application/json").
Proof.
  apply (json_array_xml_json_read_back
           (exchange_world (JList an_array) [] an_array_xml an_array_tree)
           (mkPath "" "a.json") (mkPath "" "a.xml") an_array_xml an_array_xml
           an_array an_array_tree);
    reflexivity.
Defined.

End ArraysThroughXml.

(* ================================================================== *)
(** * Information about an audio file *)

Section AudioInfo.

Import AudioConverter.
Local Open Scope list_scope.

(** X17. [AudioConverter.get_info] never raises: it returns a dictionary
    that has either the one key [error] or the four keys of the
    description.  Without pydub the file is not touched; with pydub, a
    failure of the decoder or of the file system is returned as the text
    of the exception under [error]. *)
Theorem audio_get_info_never_raises (w : World) (p : Path) :
  exists d,
    result (get_info w p) = Returns d
    /\ ((exists msg, d = [("error", IStr msg)])
        \/ map fst d
           = ["duration_seconds"; "channels"; "sample_rate"; "size_bytes"])
    /\ (AUDIO_SUPPORT w = false ->
        d = [("error", IStr "pydub не установлен")]
        /\ trace (get_info w p) = [])
    /\ (AUDIO_SUPPORT w = true ->
        forall e,
          AudioSegment_from_file w p (Py.lower (Py.drop 1 (suffix p)))
          = Raises e ->
          d = [("error", IStr (str_exn e))]).
Proof.
  unfold get_info. destruct (AUDIO_SUPPORT w) eqn:Ha; cbn [negb].
  - unfold try_except, bind, lift, emit, ret, result, trace.
    cbn -[Float.truediv str_exn].
    destruct (AudioSegment_from_file w p _) as [audio|e] eqn:Hf;
      cbn -[Float.truediv str_exn].
    + destruct (Float.truediv (duration_ms audio) 1000) as [x|e] eqn:Hd;
        cbn -[str_exn].
      * destruct (stat_size w p) as [sz|e] eqn:Hs; cbn -[str_exn];
          eexists; (split; [reflexivity|]);
          (split; [first [right; reflexivity | left; eexists; reflexivity]|]);
          (split; [discriminate|]); intros _ e' He'; discriminate He'.
      * eexists; (split; [reflexivity|]).
        split; [left; eexists; reflexivity|].
        split; [discriminate|]. intros _ e' He'; discriminate He'.
    + eexists; (split; [reflexivity|]).
      split; [left; eexists; reflexivity|].
      split; [discriminate|]. intros _ e' He'. inversion He'. reflexivity.
  - eexists. split; [reflexivity|].
    split; [left; eexists; reflexivity|].
    split; [intros _; split; reflexivity | discriminate].
Qed.

End AudioInfo.

(* ================================================================== *)
(** * Resizing into a box *)

Section ResizeBox.

Import Float ResizeSpec ImageConverter.
Local Open Scope Q_scope.

(** both sizes given: the two dimensions asked of the resampler *)
Lemma resize_both_dims (ow oh w h : Z) :
  (0 < ow < 33554432)%Z -> (0 < oh < 33554432)%Z ->
  (0 < w < 33554432)%Z -> (0 < h < 33554432)%Z ->
  exists nw nh,
    _resize_dims (ow, oh) (Py.VInt w) (Py.VInt h) true
    = Returns (Some (nw, nh))
    /\ nearly nw (Z.min (w * oh) (h * ow)) oh
    /\ nearly nh (Z.min (w * oh) (h * ow)) ow.
Proof.
  intros How Hoh Hw Hh.
  destruct (truediv_spec w ow Hw How) as [r1 [E1 [B1 R1]]].
  destruct (truediv_spec h oh Hh Hoh) as [r2 [E2 [B2 R2]]].
  set (N := Z.min (w * oh) (h * ow)).
  assert (HN : (0 < N < 1125899906842624)%Z).
  { pose proof (mul_bound w oh Hw Hoh). pose proof (mul_bound h ow Hh How).
    unfold N. lia. }
  assert (Hmin : exists r,
             Float.min (Fin r1) (Fin r2) = Fin r
             /\ ((r = r1 /\ r1 <= r2) \/ (r = r2 /\ r2 <= r1))).
  { unfold Float.min, ltb. destruct (Qle_bool r1 r2) eqn:Hb; cbn [negb].
    - exists r1. split; [reflexivity|]. left. split; [reflexivity|].
      now apply Qle_bool_iff.
    - exists r2. split; [reflexivity|]. right. split; [reflexivity|].
      apply Qlt_le_weak, Qnot_le_lt. intros Hc.
      apply Qle_bool_iff in Hc. congruence. }
  destruct Hmin as [r [Er Hr]].
  assert (Rr : (1 # 67108864) <= r <= 67108864)
    by (destruct Hr as [[-> _]|[-> _]]; assumption).
  destruct (min_ratio ow oh w h r1 r2 How Hoh Hw Hh B1 B2 r Hr)
    as [Lo Hi]. fold N in Lo, Hi.
  destruct (scale_dim ow r N oh How Hoh HN Rr Lo Hi)
    as [pw [nw [Epw [Enw Hnw]]]].
  assert (Lo' : inject_Z N * (1 - u) <= inject_Z oh * r * inject_Z ow)
    by lra.
  assert (Hi' : inject_Z oh * r * inject_Z ow <= inject_Z N * (1 + u))
    by lra.
  destruct (scale_dim oh r N ow Hoh How HN Rr Lo' Hi')
    as [ph [nh [Eph [Enh Hnh]]]].
  exists nw, nh. split; [|split; assumption].
  unfold _resize_dims. rewrite !truthy_pos by lia.
  cbn [andb as_int obind]. rewrite E1. cbn [obind]. rewrite E2.
  cbn [obind]. rewrite Er, Epw. cbn [obind]. rewrite Enw.
  cbn [obind]. rewrite Eph. cbn [obind]. rewrite Enh. reflexivity.
Qed.

Lemma nearly_product (k N D : Z) :
  (0 < D)%Z -> nearly k N D -> (N - D <= k * D <= N)%Z.
Proof.
  intros HD [->|[Hm ->]].
  - pose proof (Z.div_mod N D ltac:(lia)).
    pose proof (Z.mod_pos_bound N D HD). nia.
  - pose proof (Z.div_mod N D ltac:(lia)). nia.
Qed.

Lemma nearly_exact (k B D : Z) :
  (0 < D)%Z -> nearly k (B * D) D -> (B - 1 <= k <= B)%Z.
Proof.
  intros HD Hk. rewrite <- (Z.div_mul B D) by lia.
  destruct Hk as [->|[_ ->]]; lia.
Qed.

(** X18. With [keep_aspect_ratio] set and both sizes given (all sizes
    positive and below [2^25]), the size asked of the resampler fits into
    the requested box, reaches one of its two sides up to one pixel, and
    keeps the proportions of the source up to one pixel:
    [new_width * original_height] and [new_height * original_width]
    differ by at most one original side. *)
Theorem resize_fits_box_and_keeps_proportions (ow oh w h : Z) :
  (0 < ow < 33554432)%Z -> (0 < oh < 33554432)%Z ->
  (0 < w < 33554432)%Z -> (0 < h < 33554432)%Z ->
  exists nw nh,
    _resize_dims (ow, oh) (Py.VInt w) (Py.VInt h) true
    = Returns (Some (nw, nh))
    /\ (0 <= nw <= w)%Z /\ (0 <= nh <= h)%Z
    /\ (w - 1 <= nw \/ h - 1 <= nh)%Z
    /\ (- oh <= nw * oh - nh * ow <= ow)%Z.
Proof.
  intros How Hoh Hw Hh.
  destruct (resize_both_dims ow oh w h How Hoh Hw Hh)
    as [nw [nh [E [Hnw Hnh]]]].
  exists nw, nh. split; [exact E|].
  set (N := Z.min (w * oh) (h * ow)) in *.
  assert (HN : (0 < N)%Z) by (unfold N; nia).
  split; [|split; [|split]].
  - apply (nearly_bounds nw N oh w); [lia | lia | unfold N; lia | exact Hnw].
  - apply (nearly_bounds nh N ow h); [lia | lia | unfold N; lia | exact Hnh].
  - destruct (Z.min_spec (w * oh) (h * ow)) as [[_ Hm]|[_ Hm]];
      fold N in Hm; rewrite Hm in *.
    + left. apply (nearly_exact nw w oh); [lia | exact Hnw].
    + right. apply (nearly_exact nh h ow); [lia | exact Hnh].
  - pose proof (nearly_product nw N oh ltac:(lia) Hnw).
    pose proof (nearly_product nh N ow ltac:(lia) Hnh). lia.
Qed.

Lemma resize_fits_box_and_keeps_proportions_witness :
  exists nw nh,
    _resize_dims (200, 300)%Z (Py.VInt 100) (Py.VInt 100) true
    = Returns (Some (nw, nh))
    /\ (0 <= nw <= 100)%Z /\ (0 <= nh <= 100)%Z
    /\ (100 - 1 <= nw \/ 100 - 1 <= nh)%Z
    /\ (- 300 <= nw * 300 - nh * 200 <= 200)%Z.
Proof.
  apply (resize_fits_box_and_keeps_proportions 200 300 100 100); lia.
Defined.

End ResizeBox.

(* ================================================================== *)
(** * The image endpoints *)

Section ImageEndpoints.

Import Outcome Endpoints.
Local Open Scope list_scope.

Lemma image_convert_cases (w : World) (p : Path) (fmt : string)
    (wd ht q k : Py.val) :
  match result (ImageConverter.convert w p fmt wd ht q k) with
  | Returns (b, m) =>
      mem (canonical fmt)
        ["jpeg"; "png"; "gif"; "webp"; "bmp"; "tiff"; "ico"] = true
      /\ m = ImageConverter.dict_get (canonical fmt)
               ImageConverter.mime_types "application/octet-stream"
  | Raises (ConversionError _) => True
  | Raises _ => False
  end.
Proof.
  destruct (mem (canonical fmt)
              ["jpeg"; "png"; "gif"; "webp"; "bmp"; "tiff"; "ico"]) eqn:Hm.
  - destruct (image_convert_result w p fmt wd ht q k Hm) as [body [-> Hb]].
    rewrite result_try_except.
    destruct (result body) as [[b m]|e] eqn:Hr.
    + split; [reflexivity|]. exact (Hb (b, m) eq_refl).
    + exact I.
  - unfold ImageConverter.convert. rewrite result_emit.
    fold (canonical fmt). rewrite Hm. exact I.
Qed.

(** X19. The resize endpoint refuses a request that gives neither a
    width nor a height (absent or zero) before anything is stored.
    Otherwise the upload is stored first and removed last, whatever
    happens in between; the answer is the resized image or an error 400,
    never an exception that leaves the function; and the image is answered
    in the format of the upload, with the MIME type of its extension, the
    extension being one of the seven formats [ImageConverter.convert]
    knows. *)
Theorem resize_image_answers (w : World) (filename : string)
    (content : bytes) (width height : option Z) (keep_aspect_ratio : bool) :
  let input_path := mkPath Main.UPLOAD_DIR (uuid4 w ++ "_" ++ filename) in
  let ext := canonical (Main.get_file_extension filename) in
  let ans := resize_image w filename content width height keep_aspect_ratio in
  (forall e, snd ans <> Unhandled e)
  /\ (forall p, snd ans <> Invalid p)
  /\ (forall status detail, snd ans = Refused status detail -> status = 400)
  /\ (forall b m,
         snd ans = Content b m ->
         mem ext ["jpeg"; "png"; "gif"; "webp"; "bmp"; "tiff"; "ico"] = true
         /\ m = ImageConverter.dict_get ext ImageConverter.mime_types
                  "application/octet-stream")
  /\ ((Py.truthy (Main.opt_val width) = false
       /\ Py.truthy (Main.opt_val height) = false
       /\ ans = ([], Refused 400 "Укажите width или height"))
      \/ ((Py.truthy (Main.opt_val width) = true
           \/ Py.truthy (Main.opt_val height) = true)
          /\ exists mid,
              fst ans = EvWrite input_path :: mid ++ [EvUnlink input_path])).
Proof.
  cbv zeta. unfold resize_image.
  destruct (Py.truthy (Main.opt_val width)) eqn:Hw;
    [|destruct (Py.truthy (Main.opt_val height)) eqn:Hh]; cbn [negb andb].
  3: { repeat split; try discriminate.
       - intros status detail H. cbn in H. congruence.
       - left. repeat split. }
  all: pose proof (image_convert_cases w
                     (mkPath Main.UPLOAD_DIR (uuid4 w ++ "_" ++ filename))
                     (Main.get_file_extension filename)
                     (Main.opt_val width) (Main.opt_val height) (Py.VInt 85)
                     (Py.VBool keep_aspect_ratio)) as Hc;
    unfold result in Hc;
    destruct (ImageConverter.convert _ _ _ _ _ _ _) as [t [[b m]|e]];
    cbn [fst snd] in *;
    [|destruct e; try contradiction];
    (split; [discriminate|]); (split; [discriminate|]);
    (split; [intros status detail H; congruence|]);
    (split; [intros b' m' H; inversion H; subst; try exact Hc|]);
    right; (split; [first [left; reflexivity | right; reflexivity]|]);
    exists t; reflexivity.
Qed.

(** X20. The thumbnail endpoint labels every thumbnail [image/png], but
    [create_thumbnail] encodes as PNG only the images of mode RGBA, LA or
    P: for any other mode the bytes answered under [image/png] are those
    the encoder wrote for the format JPEG with quality 85. *)
Theorem thumbnail_jpeg_labelled_png (w : World)
    (thumbnail : Image -> Z * Z -> outcome Image)
    (filename : string) (content : bytes) (size : option Z)
    (img img' : Image) (b : bytes) :
  let sz := match size with Some s => s | None => 200 end in
  let input_path := mkPath Main.UPLOAD_DIR (uuid4 w ++ "_" ++ filename) in
  50 <= sz <= 500 ->
  Image_open w input_path = Returns img ->
  thumbnail img (sz, sz) = Returns img' ->
  mem (mode img') ["RGBA"; "LA"; "P"] = false ->
  Image_save w img' "JPEG" [("quality", Py.VInt 85)] = Returns b ->
  create_thumbnail w thumbnail filename content size
  = ([EvWrite input_path; EvRead input_path;
      EvSave "JPEG" [("quality", Py.VInt 85)]; EvUnlink input_path],
     Content b "image/png").
Proof.
  cbv zeta. intros Hsz Ho Ht Hm Hs. unfold create_thumbnail.
  replace (_ || _)%bool with false
    by (symmetry; apply orb_false_iff; split; apply Z.ltb_ge; lia).
  unfold Thumbnail.create_thumbnail, bind, emit, lift.
  rewrite Ho, Ht, Hm, Hs. reflexivity.
Qed.

Lemma thumbnail_jpeg_labelled_png_witness :
  create_thumbnail picture_world (fun img _ => Returns img) "a.png" "" None
  = ([EvWrite (mkPath "uploads"
                 "00000000-0000-4000-8000-000000000000_a.png");
      EvRead (mkPath "uploads"
                "00000000-0000-4000-8000-000000000000_a.png");
      EvSave "JPEG" [("quality", Py.VInt 85)];
      EvUnlink (mkPath "uploads"
                  "00000000-0000-4000-8000-000000000000_a.png")],
     Content "JPEG RGB 255,0,0" "image/png").
Proof.
  apply (thumbnail_jpeg_labelled_png picture_world (fun img _ => Returns img)
           "a.png" "" None red_pixel red_pixel "JPEG RGB 255,0,0");
    [cbv zeta; lia | reflexivity | reflexivity | reflexivity | reflexivity].
Defined.

End ImageEndpoints.

(* ================================================================== *)
(** * What the dispatcher never does *)

Section NeverDispatched.

Import FileConverter Outcome.
Local Open Scope list_scope.

Lemma convert_refuses (w : World) (p : Path) (fmt : string) (kw : Kwargs) :
  ~ In (Py.lower (Py.drop 1 (suffix p)), Py.lower fmt) keys ->
  convert w p fmt kw
  = ([], Raises (ConversionError
                   (unsupported (Py.lower (Py.drop 1 (suffix p)))
                      (Py.lower fmt)))).
Proof.
  intros Hnot. unfold convert.
  destruct (contains _) eqn:Hc; [|reflexivity].
  exfalso. apply Hnot. now apply contains_In.
Qed.

Lemma keys_change_format :
  forallb (fun k => negb (String.eqb (canonical (fst k)) (canonical (snd k))))
    keys = true.
Proof. vm_compute. reflexivity. Qed.

Lemma keys_targets :
  forallb (fun k => negb (mem (snd k) ["gif"; "bmp"; "tiff"; "flac"])) keys
  = true.
Proof. vm_compute. reflexivity. Qed.

(** X21. The dispatcher never converts a file into its own format: a
    target equal to the extension of the source, also up to case and up to
    the spellings [jpg] and [jpeg], is refused before any converter is
    entered. *)
Theorem same_format_is_refused (w : World) (p : Path) (fmt : string)
    (kw : Kwargs) :
  canonical (Py.drop 1 (suffix p)) = canonical fmt ->
  convert w p fmt kw
  = ([], Raises (ConversionError
                   (unsupported (Py.lower (Py.drop 1 (suffix p)))
                      (Py.lower fmt)))).
Proof.
  intros Hsame. apply convert_refuses. intros Hin.
  pose proof (proj1 (forallb_forall _ _) keys_change_format _ Hin) as Hk.
  cbn [fst snd] in Hk. apply negb_true_iff, String.eqb_neq in Hk.
  apply Hk. unfold canonical in *. rewrite !lower_idem. exact Hsame.
Qed.

Lemma same_format_is_refused_witness :
  convert picture_world (mkPath "uploads" "a.JPG") "jpeg"
    [("width", Py.VInt 10)]
  = ([], Raises (ConversionError
                   "Конвертация JPG → JPEG не поддерживается")).
Proof.
  apply (same_format_is_refused picture_world (mkPath "uploads" "a.JPG")
           "jpeg" [("width", Py.VInt 10)]).
  reflexivity.
Defined.

(** X22. The targets [gif], [bmp], [tiff] and [flac] are refused by the
    dispatcher for every source, although the converter of their family
    lists each of them among the formats it writes. *)
Theorem converter_formats_never_dispatched (w : World) (p : Path)
    (fmt : string) (kw : Kwargs) :
  mem (Py.lower fmt) ["gif"; "bmp"; "tiff"; "flac"] = true ->
  convert w p fmt kw
  = ([], Raises (ConversionError
                   (unsupported (Py.lower (Py.drop 1 (suffix p)))
                      (Py.lower fmt))))
  /\ (mem (canonical fmt)
        ["jpeg"; "png"; "gif"; "webp"; "bmp"; "tiff"; "ico"]
      || mem (Py.lower fmt) AudioConverter.SUPPORTED_FORMATS)%bool = true.
Proof.
  intros Hm. split.
  - apply convert_refuses. intros Hin.
    pose proof (proj1 (forallb_forall _ _) keys_targets _ Hin) as Hk.
    cbn [snd] in Hk. rewrite Hm in Hk. discriminate Hk.
  - unfold canonical. unfold mem in Hm. cbn [existsb] in Hm.
    repeat (apply orb_true_iff in Hm; destruct Hm as [Hm|Hm];
            [apply String.eqb_eq in Hm; rewrite Hm; reflexivity|]).
    discriminate Hm.
Qed.

Lemma converter_formats_never_dispatched_witness :
  convert picture_world (mkPath "uploads" "a.png") "GIF" []
  = ([], Raises (ConversionError
                   "Конвертация PNG → GIF не поддерживается"))
  /\ (mem (canonical "GIF")
        ["jpeg"; "png"; "gif"; "webp"; "bmp"; "tiff"; "ico"]
      || mem (Py.lower "GIF") AudioConverter.SUPPORTED_FORMATS)%bool = true.
Proof.
  apply (converter_formats_never_dispatched picture_world
           (mkPath "uploads" "a.png") "GIF" []).
  reflexivity.
Defined.

End NeverDispatched.

(* ================================================================== *)
(** * PDF through HTML *)

Section PdfThroughHtml.

Import DocumentConverter Escape.
Local Open Scope list_scope.



End PdfThroughHtml.
